(** * NBFC-Tracker: the rating-agency alert collector of [app.py]

    A shallow embedding of [RatingAgencyAlertSystem] (src/app.py): the date
    matcher, the BeautifulSoup field extractor, the seven Selenium scrapers,
    the scraper runner and the report generator, with the properties the
    specification states about them; then the program around them
    ([setup_selenium], the two files, [cleanup] and [main]) and further
    properties read off the code.

    Modelling conventions.
    - Python [str] values are [string]s over ASCII characters.
    - [datetime.now()] is one fixed value [today] per run (a run that crosses
      midnight is outside the model); [strftime] uses the C locale.
    - A parsed page ([BeautifulSoup(driver.page_source, 'html.parser')]) is a
      tree of [node]s; the Selenium driver is an abstract transition system
      that answers [request]s, and every answer may be an exception.
    - [while True] loops take fuel; running out of fuel is a separate outcome
      [OutOfFuel], which no [except] clause catches.
    - [logger] calls have no effect on any value computed and are left out. *)

From Stdlib Require Import List String Ascii Bool Arith ZArith Lia DecimalString.
From Stdlib Require Import Permutation.
Import ListNotations.
Open Scope string_scope.
Open Scope bool_scope.

Set Implicit Arguments.

(* ================================================================== *)
(** * Python strings *)

Module PyStr.

(** [str.isspace] on the ASCII range: TAB, LF, VT, FF, CR, FS, GS, RS, US and
    space. *)
Definition is_space (c : ascii) : bool :=
  let n := nat_of_ascii c in
  ((9 <=? n)%nat && (n <=? 13)%nat) || ((28 <=? n)%nat && (n <=? 32)%nat).

Definition is_upper (c : ascii) : bool :=
  let n := nat_of_ascii c in (65 <=? n)%nat && (n <=? 90)%nat.

Definition lower_char (c : ascii) : ascii :=
  if is_upper c then ascii_of_nat (nat_of_ascii c + 32) else c.

(** [s.lower()] *)
Fixpoint lower (s : string) : string :=
  match s with
  | EmptyString => EmptyString
  | String c s' => String (lower_char c) (lower s')
  end.

(** [s.lstrip()], [s.rstrip()] and [s.strip()] *)
Fixpoint lstrip (s : string) : string :=
  match s with
  | EmptyString => EmptyString
  | String c s' => if is_space c then lstrip s' else s
  end.

Fixpoint rstrip (s : string) : string :=
  match s with
  | EmptyString => EmptyString
  | String c s' =>
      match rstrip s' with
      | EmptyString => if is_space c then EmptyString else String c EmptyString
      | r => String c r
      end
  end.

Definition strip (s : string) : string := rstrip (lstrip s).

(** [s.replace(c, '')] for a one-character [c] *)
Fixpoint remove_char (c : ascii) (s : string) : string :=
  match s with
  | EmptyString => EmptyString
  | String d s' =>
      if Ascii.eqb d c then remove_char c s' else String d (remove_char c s')
  end.

(** [sub in s] *)
Fixpoint contains (sub s : string) : bool :=
  prefix sub s ||
  match s with
  | EmptyString => false
  | String _ s' => contains sub s'
  end.

(** truthiness of a [str] *)
Definition truthy (s : string) : bool :=
  match s with EmptyString => false | _ => true end.

(** [sep.join(l)] *)
Fixpoint join (sep : string) (l : list string) : string :=
  match l with
  | [] => ""
  | [x] => x
  | x :: rest => x ++ sep ++ join sep rest
  end.

(** [c * n] for a one-character string *)
Fixpoint repeat_char (c : ascii) (n : nat) : string :=
  match n with
  | 0 => ""
  | S n' => String c (repeat_char c n')
  end.

Definition all_space (s : string) : bool :=
  forallb is_space (list_ascii_of_string s).

Definition no_upper (s : string) : bool :=
  forallb (fun c => negb (is_upper c)) (list_ascii_of_string s).

Definition no_char (c : ascii) (s : string) : bool :=
  forallb (fun d => negb (Ascii.eqb d c)) (list_ascii_of_string s).

End PyStr.
Import PyStr.

(* ================================================================== *)
(** * Dates: [datetime] and [strftime] *)

Record datetime : Type := {
  year : nat;    (* 1000 .. 9999 for every date [now()] can return *)
  month : nat;   (* 1 .. 12 *)
  day : nat;     (* 1 .. 31 *)
  hour : nat;
  minute : nat;
  second : nat
}.

Definition digit (n : nat) : ascii :=
  match n mod 10 with
  | 0 => "0" | 1 => "1" | 2 => "2" | 3 => "3" | 4 => "4"
  | 5 => "5" | 6 => "6" | 7 => "7" | 8 => "8" | _ => "9"
  end%char.

(** zero-padded decimal fields, as [%d], [%m] and [%Y] print them *)
Definition two_digits (n : nat) : string :=
  String (digit (n / 10)) (String (digit n) "").

Definition four_digits (n : nat) : string :=
  String (digit (n / 1000)) (String (digit (n / 100))
    (String (digit (n / 10)) (String (digit n) ""))).

(** [%B] *)
Definition month_name (m : nat) : string :=
  match m with
  | 1 => "January" | 2 => "February" | 3 => "March" | 4 => "April"
  | 5 => "May" | 6 => "June" | 7 => "July" | 8 => "August"
  | 9 => "September" | 10 => "October" | 11 => "November"
  | 12 => "December" | _ => ""
  end.

(** [%b] *)
Definition month_abbr (m : nat) : string := substring 0 3 (month_name m).

Definition fmt_dd_mm_yyyy (t : datetime) : string :=       (* '%d-%m-%Y' *)
  two_digits (day t) ++ "-" ++ two_digits (month t) ++ "-" ++ four_digits (year t).
Definition fmt_yyyy_mm_dd (t : datetime) : string :=       (* '%Y-%m-%d' *)
  four_digits (year t) ++ "-" ++ two_digits (month t) ++ "-" ++ two_digits (day t).
Definition fmt_dd_mm_yyyy_slash (t : datetime) : string := (* '%d/%m/%Y' *)
  two_digits (day t) ++ "/" ++ two_digits (month t) ++ "/" ++ four_digits (year t).
Definition fmt_mm_dd_yyyy_slash (t : datetime) : string := (* '%m/%d/%Y' *)
  two_digits (month t) ++ "/" ++ two_digits (day t) ++ "/" ++ four_digits (year t).
Definition fmt_dd_mmm_yyyy (t : datetime) : string :=      (* '%d-%b-%Y' *)
  two_digits (day t) ++ "-" ++ month_abbr (month t) ++ "-" ++ four_digits (year t).
Definition fmt_dd_mmm_yyyy_space (t : datetime) : string :=  (* '%d %b %Y' *)
  two_digits (day t) ++ " " ++ month_abbr (month t) ++ " " ++ four_digits (year t).
Definition fmt_dd_month_yyyy (t : datetime) : string :=    (* '%d %B %Y' *)
  two_digits (day t) ++ " " ++ month_name (month t) ++ " " ++ four_digits (year t).

(** [datetime.isoformat()] with a zero microsecond field *)
Definition isoformat (t : datetime) : string :=
  fmt_yyyy_mm_dd t ++ "T" ++ two_digits (hour t) ++ ":" ++
  two_digits (minute t) ++ ":" ++ two_digits (second t).

(** [get_current_date_str]: the dictionary of renderings, as a record *)
Record current_date_str : Type := {
  dd_mm_yyyy : string;
  yyyy_mm_dd : string;
  dd_mm_yyyy_slash : string;
  mm_dd_yyyy_slash : string;
  dd_mmm_yyyy : string;
  dd_mmm_yyyy_space : string
}.

Definition get_current_date_str (today : datetime) : current_date_str :=
  {| dd_mm_yyyy := fmt_dd_mm_yyyy today;
     yyyy_mm_dd := fmt_yyyy_mm_dd today;
     dd_mm_yyyy_slash := fmt_dd_mm_yyyy_slash today;
     mm_dd_yyyy_slash := fmt_mm_dd_yyyy_slash today;
     dd_mmm_yyyy := fmt_dd_mmm_yyyy today;
     dd_mmm_yyyy_space := fmt_dd_mmm_yyyy_space today |}.

(** the list [today_formats] of [is_today_date] *)
Definition today_formats (today : datetime) : list string :=
  [ fmt_dd_mm_yyyy today; fmt_yyyy_mm_dd today; fmt_dd_mm_yyyy_slash today;
    fmt_mm_dd_yyyy_slash today; fmt_dd_mmm_yyyy today;
    fmt_dd_mmm_yyyy_space today; fmt_dd_month_yyyy today ].

(** [is_today_date] *)
Definition is_today_date (today : datetime) (date_text : string) : bool :=
  if negb (truthy date_text) then false
  else
    let cleaned_date := remove_char ","%char (strip date_text) in
    existsb (fun fmt => contains fmt cleaned_date) (today_formats today).

(* ================================================================== *)
(** * Exceptions and results of pure code *)

(** The exception classes the program can meet; each is a subclass of
    [Exception]. *)
Inductive exn : Type :=
| NoSuchElementException
| TimeoutException
| WebDriverException
| UnboundLocalError
| TypeError
| AttributeError
| IndexError.

Inductive result (A : Type) : Type :=
| Return (a : A)
| Raise (e : exn).
Arguments Return {A} a.
Arguments Raise {A} e.

Definition bindE {A B} (c : result A) (k : A -> result B) : result B :=
  match c with
  | Return a => k a
  | Raise e => Raise e
  end.

Declare Scope result_scope.
Delimit Scope result_scope with E.
Notation "x <- c ;; k" := (bindE c (fun x => k))
  (at level 61, c at next level, right associativity) : result_scope.

(** [try: c  except Exception: h] *)
Definition try_except {A} (c : result A) (h : exn -> result A) : result A :=
  match c with
  | Return a => Return a
  | Raise e => h e
  end.

(** [l[i]] *)
Definition getitem {A} (l : list A) (i : nat) : result A :=
  match nth_error l i with
  | Some x => Return x
  | None => Raise IndexError
  end.

(** [l1 or l2] on lists *)
Definition list_or {A} (l1 l2 : list A) : list A :=
  match l1 with
  | [] => l2
  | _ => l1
  end.

(** Values a caller may pass where a [str] hint is expected. *)
Inductive pyobj : Type :=
| PyNone
| PyInt (z : Z)
| PyString (s : string).

(** [selector in s]: a [TypeError] unless the left operand is a [str] *)
Definition py_in (selector : pyobj) (s : string) : result bool :=
  match selector with
  | PyString h => Return (contains h s)
  | _ => Raise TypeError
  end.

(* ================================================================== *)
(** * The parsed page: BeautifulSoup trees *)

(** A [Tag] carries its name, the values of its multi-valued [class]
    attribute ([[]] when the attribute is absent or blank: the program's
    queries cannot tell the two apart) and its children. *)
#[local] Unset Elimination Schemes.
Inductive node : Type :=
| NavigableString (text : string)
| Tag (name : string) (class_ : list string) (contents : list node).
#[local] Set Elimination Schemes.

(** [Tag.descendants]: document order, the node itself excluded *)
Fixpoint descendants (n : node) : list node :=
  match n with
  | NavigableString _ => []
  | Tag _ _ cs =>
      (fix go (l : list node) : list node :=
         match l with
         | [] => []
         | c :: r => (c :: descendants c) ++ go r
         end)%list cs
  end.

(** [Tag.string] *)
Fixpoint tag_string (n : node) : option string :=
  match n with
  | NavigableString s => Some s
  | Tag _ _ [c] => tag_string c
  | Tag _ _ _ => None
  end.

Definition node_text (n : node) : option string :=
  match n with
  | NavigableString s => Some s
  | Tag _ _ _ => None
  end.

(** the strings [get_text] walks over *)
Definition all_strings (n : node) : list string :=
  match n with
  | NavigableString s => [s]
  | Tag _ _ _ =>
      flat_map (fun d => match node_text d with Some s => [s] | None => [] end)
        (descendants n)
  end.

(** [n.get_text(strip=True)]: every string stripped, the empty ones dropped,
    the rest concatenated *)
Definition get_text_strip (n : node) : string :=
  join "" (filter truthy (map strip (all_strings n))).

(** truthiness of a search result: a [Tag] is always true, a string when it
    is not empty *)
Definition node_truthy (n : node) : bool :=
  match n with
  | NavigableString s => truthy s
  | Tag _ _ _ => true
  end.

(** [SoupStrainer._matches] of a class attribute against a string or a list
    of strings: some value is one of them, or the joined value is *)
Definition class_in (wanted : list string) (cls : list string) : bool :=
  existsb (fun c => existsb (String.eqb c) wanted) cls ||
  existsb (String.eqb (join " " cls)) wanted.

(** [n.find_all(name)] and [n.find_all(name, class_=wanted)] *)
Definition find_all (tag : string) (n : node) : list node :=
  filter (fun d => match d with
                   | Tag nm _ _ => String.eqb nm tag
                   | NavigableString _ => false
                   end) (descendants n).

Definition find_all_class (tag : string) (wanted : list string) (n : node)
  : list node :=
  filter (fun d => match d with
                   | Tag nm cls _ => String.eqb nm tag && class_in wanted cls
                   | NavigableString _ => false
                   end) (descendants n).

(** first element of a list that satisfies a test which may raise *)
Fixpoint find_first (p : node -> result bool) (l : list node)
  : result (option node) :=
  match l with
  | [] => Return None
  | d :: r =>
      (b <- p d ;;
       if b then Return (Some d) else find_first p r)%E
  end.

(* ================================================================== *)
(** * The field extractor: [extract_text_from_element] *)

(** [lambda x: x and selector in x.lower()], on a value that is a string *)
Definition hint_lambda (selector : pyobj) (x : string) : result bool :=
  if truthy x then py_in selector (lower x) else Return false.

(** the same lambda on [Tag.string], which may be [None] *)
Definition hint_lambda_opt (selector : pyobj) (x : option string)
  : result bool :=
  match x with
  | Some s => hint_lambda selector s
  | None => Return false
  end.

Fixpoint exists_first (p : string -> result bool) (l : list string)
  : result bool :=
  match l with
  | [] => Return false
  | x :: r => (b <- p x ;; if b then Return true else exists_first p r)%E
  end.

(** a callable matched against the multi-valued [class]: each value in turn,
    then the values joined by one space *)
Definition class_matches (selector : pyobj) (cls : list string) : result bool :=
  (b <- exists_first (hint_lambda selector) cls ;;
   if b then Return true else hint_lambda selector (join " " cls))%E.

(** [element.find(class_=lambda ...)] *)
Definition find_by_class (selector : pyobj) (element : node)
  : result (option node) :=
  find_first (fun d => match d with
                       | Tag _ cls _ => class_matches selector cls
                       | NavigableString _ => Return false
                       end) (descendants element).

(** [element.find(string=lambda ...)]: only strings are tested *)
Definition find_by_string (selector : pyobj) (element : node)
  : result (option node) :=
  find_first (fun d => match d with
                       | NavigableString s => hint_lambda selector s
                       | Tag _ _ _ => Return false
                       end) (descendants element).

(** [element.find(tag, string=lambda ...)]: a tag of that name whose
    [.string] passes the test *)
Definition find_by_tag_string (tag : string) (selector : pyobj) (element : node)
  : result (option node) :=
  find_first (fun d => match d with
                       | Tag nm _ _ =>
                           if String.eqb nm tag
                           then hint_lambda_opt selector (tag_string d)
                           else Return false
                       | NavigableString _ => Return false
                       end) (descendants element).

Definition text_tags : list string := ["span"; "div"; "td"; "p"; "a"].

(** the inner [for tag in [...]] loop; [None] when it falls through *)
Fixpoint try_tags (tags : list string) (selector : pyobj) (element : node)
  : result (option string) :=
  match tags with
  | [] => Return None
  | tag :: rest =>
      (found <- find_by_tag_string tag selector element ;;
       match found with
       | Some f => if node_truthy f then Return (Some (get_text_strip f))
                   else try_tags rest selector element
       | None => try_tags rest selector element
       end)%E
  end.

(** the body of the [try] for one selector: [Some text] when it returns
    [text], [None] when it falls through to the next selector.  [find] on a
    [NavigableString] resolves to [str.find], which rejects keyword
    arguments. *)
Definition try_selector (element : node) (selector : pyobj)
  : result (option string) :=
  match element with
  | NavigableString _ => Raise TypeError
  | Tag _ _ _ =>
      (found <- find_by_class selector element ;;
       match (match found with Some f => if node_truthy f then Some f else None
                             | None => None end) with
       | Some f => Return (Some (get_text_strip f))
       | None =>
           found <- find_by_string selector element ;;
           match (match found with
                  | Some (NavigableString s) =>
                      if truthy s then Some s else None
                  | _ => None end) with
           | Some s => Return (Some (strip s))
           | None => try_tags text_tags selector element
           end
       end)%E
  end.

Fixpoint extract_text_from_element (element : node) (selectors : list pyobj)
  : result string :=
  match selectors with
  | [] => Return ""
  | selector :: rest =>
      match try_selector element selector with
      | Return (Some text) => Return text
      | Return None => extract_text_from_element element rest
      | Raise _ => extract_text_from_element element rest   (* continue *)
      end
  end.

(** hint lists as the scrapers write them *)
Definition hints (l : list string) : list pyobj := map PyString l.

(* ================================================================== *)
(** * Alerts and the per-record code of the scrapers *)

Record alert : Type := {
  agency : string;
  company : string;
  date : string;
  action : string;
  timestamp : string
}.

(** [alerts.append(a)] *)
Definition append (alerts : list alert) (a : alert) : list alert :=
  (alerts ++ [a])%list.

(** [for row in rows: try: body  except Exception: logger.warning(...)].
    Every body appends as its last statement, so a record that raises leaves
    [alerts] as it was. *)
Definition for_each_row (body : node -> list alert -> result (list alert))
  (rows : list node) (alerts : list alert) : list alert :=
  fold_left (fun acc row =>
               match body row acc with
               | Return acc' => acc'
               | Raise _ => acc
               end) rows alerts.

Section Records.

Variable today : datetime.

(** the record body shared, up to its constants, by the ICRA, CareEdge and
    CRISIL loops *)
Definition hinted_row (label : string) (company_hints date_hints action_hints : list string)
  (row : node) (alerts : list alert) : result (list alert) :=
  (company_name <- extract_text_from_element row (hints company_hints) ;;
   rating_date <- extract_text_from_element row (hints date_hints) ;;
   rating_action <- extract_text_from_element row (hints action_hints) ;;
   if truthy company_name && is_today_date today rating_date
   then Return (append alerts
                  {| agency := label; company := company_name;
                     date := rating_date; action := rating_action;
                     timestamp := isoformat today |})
   else Return alerts)%E.

Definition icra_row : node -> list alert -> result (list alert) :=
  hinted_row "ICRA" ["company"; "entity"; "name"] ["date"; "rated-on"]
    ["action"; "rating"; "grade"].

Definition careedge_row : node -> list alert -> result (list alert) :=
  hinted_row "CareEdge" ["company"; "entity"; "name"]
    ["date"; "rated-on"; "timestamp"] ["action"; "rating"; "grade"].

Definition crisil_row : node -> list alert -> result (list alert) :=
  hinted_row "CRISIL" ["company"; "entity"; "name"; "title"]
    ["date"; "rated-on"; "timestamp"]
    ["action"; "rating"; "grade"; "description"].

(** [cells[i].get_text(strip=True) if cond else ""] *)
Definition cell_text (cond : bool) (cells : list node) (i : nat) : result string :=
  if cond then (c <- getitem cells i ;; Return (get_text_strip c))%E
  else Return "".

Definition acuite_row (row : node) (alerts : list alert) : result (list alert) :=
  let cells := find_all "td" row in
  if (3 <=? List.length cells)%nat then
    (rating_date <- cell_text (0 <? List.length cells)%nat cells 0 ;;
     company_name <- cell_text (1 <? List.length cells)%nat cells 1 ;;
     rating_action <- cell_text (2 <? List.length cells)%nat cells 2 ;;
     if truthy company_name && is_today_date today rating_date
     then Return (append alerts
                    {| agency := "Acuite"; company := company_name;
                       date := rating_date; action := rating_action;
                       timestamp := isoformat today |})
     else Return alerts)%E
  else Return alerts.

Definition bse_row (segment current_date : string) (row : node)
  (alerts : list alert) : result (list alert) :=
  let cells := find_all "td" row in
  if (3 <=? List.length cells)%nat then
    (company_name <- cell_text (1 <? List.length cells)%nat cells 1 ;;
     subject <- cell_text (2 <? List.length cells)%nat cells 2 ;;
     if truthy company_name
     then Return (append alerts
                    {| agency := "BSE (" ++ segment ++ ")";
                       company := company_name;
                       date := current_date; action := subject;
                       timestamp := isoformat today |})
     else Return alerts)%E
  else Return alerts.

Definition sebi_row (row : node) (alerts : list alert) : result (list alert) :=
  let cells := find_all "td" row in
  if (2 <=? List.length cells)%nat then
    (date_text <- cell_text (0 <? List.length cells)%nat cells 0 ;;
     announcement_text <- cell_text (1 <? List.length cells)%nat cells 1 ;;
     if truthy announcement_text && is_today_date today date_text
     then Return (append alerts
                    {| agency := "SEBI"; company := "SEBI Announcement";
                       date := date_text; action := announcement_text;
                       timestamp := isoformat today |})
     else Return alerts)%E
  else Return alerts.

(** The three locals of [scrape_nse_announcements] that the record loop
    assigns; [None] is "not bound yet".  They belong to the function, not to
    one record or one segment. *)
Record nse_locals : Type := {
  company_name : option string;
  subject : option string;
  date_text : option string
}.

Definition nse_unbound : nse_locals :=
  {| company_name := None; subject := None; date_text := None |}.

(** reading a local *)
Definition load (v : option string) : result string :=
  match v with
  | Some x => Return x
  | None => Raise UnboundLocalError
  end.

(** the assignments of one record: the locals afterwards, and whether an
    exception stopped them *)
Definition nse_assign (row : node) (loc : nse_locals) : nse_locals * result unit :=
  match row with
  | NavigableString _ => (loc, Raise AttributeError)
  | Tag nm _ _ =>
      if String.eqb nm "tr" then
        let cells := find_all "td" row in
        if (3 <=? List.length cells)%nat then
          match cell_text (1 <? List.length cells)%nat cells 1 with
          | Raise e => (loc, Raise e)
          | Return c =>
              let loc1 := {| company_name := Some c; subject := subject loc;
                             date_text := date_text loc |} in
              match cell_text (2 <? List.length cells)%nat cells 2 with
              | Raise e => (loc1, Raise e)
              | Return s =>
                  let loc2 := {| company_name := Some c; subject := Some s;
                                 date_text := date_text loc |} in
                  match cell_text (0 <? List.length cells)%nat cells 0 with
                  | Raise e => (loc2, Raise e)
                  | Return d =>
                      ({| company_name := Some c; subject := Some s;
                          date_text := Some d |}, Return tt)
                  end
              end
          end
        else (loc, Return tt)
      else
        match extract_text_from_element row (hints ["company"; "symbol"]) with
        | Raise e => (loc, Raise e)
        | Return c =>
            let loc1 := {| company_name := Some c; subject := subject loc;
                           date_text := date_text loc |} in
            match extract_text_from_element row (hints ["subject"; "title"]) with
            | Raise e => (loc1, Raise e)
            | Return s =>
                let loc2 := {| company_name := Some c; subject := Some s;
                               date_text := date_text loc |} in
                match extract_text_from_element row (hints ["date"; "time"]) with
                | Raise e => (loc2, Raise e)
                | Return d =>
                    ({| company_name := Some c; subject := Some s;
                        date_text := Some d |}, Return tt)
                end
            end
        end
  end.

(** the test and the [append] that follow the assignments *)
Definition nse_emit (segment : string) (loc : nse_locals) (alerts : list alert)
  : result (list alert) :=
  (c <- load (company_name loc) ;;
   if truthy c then
     d <- load (date_text loc) ;;
     if is_today_date today d then
       s <- load (subject loc) ;;
       Return (append alerts
                 {| agency := "NSE (" ++ segment ++ ")"; company := c;
                    date := d; action := s; timestamp := isoformat today |})
     else Return alerts
   else Return alerts)%E.

(** one record of the NSE loop, its [try]/[except] included *)
Definition nse_row (segment : string) (row : node)
  (st : nse_locals * list alert) : nse_locals * list alert :=
  let '(loc, alerts) := st in
  match nse_assign row loc with
  | (loc', Raise _) => (loc', alerts)
  | (loc', Return _) =>
      match nse_emit segment loc' alerts with
      | Return alerts' => (loc', alerts')
      | Raise _ => (loc', alerts)
      end
  end.

Definition nse_rows (segment : string) (rows : list node)
  (st : nse_locals * list alert) : nse_locals * list alert :=
  fold_left (fun acc row => nse_row segment row acc) rows st.

(** the candidate records each scraper takes from a page *)
Definition icra_candidates (soup : node) : list node :=
  list_or (find_all_class "tr" ["gridrow"] soup)
          (find_all_class "div" ["rating-item"] soup).
Definition careedge_candidates (soup : node) : list node :=
  find_all_class "div" ["rating-item"; "rating-card"; "recent-rating-item"] soup.
Definition acuite_candidates (soup : node) : list node :=
  tl (find_all "tr" soup).
Definition crisil_candidates (soup : node) : list node :=
  find_all_class "div" ["rating-item"; "rating-card"; "announcement-item"] soup.
Definition bse_candidates (soup : node) : list node :=
  tl (find_all "tr" soup).
Definition nse_candidates (soup : node) : list node :=
  list_or (find_all "tr" soup)
          (find_all_class "div" ["announcement-item"] soup).
Definition sebi_candidates (soup : node) : list node :=
  tl (find_all "tr" soup).

End Records.

(* ================================================================== *)
(** * The report: [generate_alert_report] *)

(** [by_agency]: a [dict] from agency to its list of alerts, in insertion
    order *)
Definition agency_dict : Type := list (string * list alert).

(** [agency in by_agency] *)
Definition dict_mem (k : string) (d : agency_dict) : bool :=
  existsb (fun kv => String.eqb (fst kv) k) d.

(** [by_agency[k] = v] *)
Fixpoint dict_set (k : string) (v : list alert) (d : agency_dict) : agency_dict :=
  match d with
  | [] => [(k, v)]
  | (k', v') :: r =>
      if String.eqb k' k then (k', v) :: r else (k', v') :: dict_set k v r
  end.

(** [by_agency[k].append(a)], the key being present *)
Fixpoint dict_append (k : string) (a : alert) (d : agency_dict) : agency_dict :=
  match d with
  | [] => []
  | (k', v') :: r =>
      if String.eqb k' k then (k', append v' a) :: r
      else (k', v') :: dict_append k a r
  end.

Definition group_step (d : agency_dict) (a : alert) : agency_dict :=
  let d1 := if negb (dict_mem (agency a) d) then dict_set (agency a) [] d else d in
  dict_append (agency a) a d1.

Definition group_by_agency (alerts : list alert) : agency_dict :=
  fold_left group_step alerts [].

(** [str(n)] *)
Definition str_of_nat (n : nat) : string :=
  NilZero.string_of_uint (Nat.to_uint n).

Definition report_alert (a : alert) : list string :=
  [ "Company: " ++ company a; "Date: " ++ date a; "Action: " ++ action a; "" ].

Definition report_group (g : string * list alert) : list string :=
  let title := fst g ++ " (" ++ str_of_nat (List.length (snd g)) ++ " alerts):" in
  title :: repeat_char "-" 30 :: app (flat_map report_alert (snd g)) [ "" ].

Definition report_header (today : datetime) : list string :=
  [ repeat_char "=" 60;
    "RATING AGENCY ALERTS - " ++ fmt_dd_month_yyyy today;
    repeat_char "=" 60;
    "" ].

Definition newline : string := String (ascii_of_nat 10) "".

Definition no_alerts_message : string := "No alerts found for today.".

Definition generate_alert_report (today : datetime) (alerts : list alert) : string :=
  match alerts with
  | [] => no_alerts_message
  | _ =>
      join newline
        (app (report_header today) (flat_map report_group (group_by_agency alerts)))
  end.

(* ================================================================== *)
(** * The browser session *)

Definition WebElement : Type := nat.

Inductive By : Type := ID | NAME | XPATH | CLASS_NAME | TAG_NAME.

(** what [execute_script] hands back: [None] for a script without a value,
    a number for [scrollHeight] *)
Inductive jsval : Type :=
| JsNone
| JsNum (z : Z).

Definition jsval_eqb (a b : jsval) : bool :=
  match a, b with
  | JsNone, JsNone => true
  | JsNum x, JsNum y => Z.eqb x y
  | _, _ => false
  end.

(** The calls the scrapers make on the driver and on the elements it
    returns, indexed by the type of their value.  [PageSource] stands for
    [BeautifulSoup(self.driver.page_source, 'html.parser')], [WaitPresence]
    for [self.wait.until(EC.presence_of_element_located(...))]. *)
Inductive request : Type -> Type :=
| Get (url : string) : request unit
| FindElement (by_ : By) (value : string) : request WebElement
| WaitPresence (by_ : By) (value : string) : request WebElement
| ExecuteScript (script : string) : request jsval
| PageSource : request node
| Clear (e : WebElement) : request unit
| SendKeys (e : WebElement) (keys : string) : request unit
| Click (e : WebElement) : request unit
| IsEnabled (e : WebElement) : request bool
| IsDisplayed (e : WebElement) : request bool
| FindElements (e : WebElement) (by_ : By) (value : string)
    : request (list WebElement)
| ElementText (e : WebElement) : request string.

(** One call and its answer, as kept in the session history. *)
Inductive event : Type :=
| Called : forall A : Type, request A -> result A -> event.
Arguments Called {A} q r.

Inductive outcome (A : Type) : Type :=
| Done (r : result A)
| OutOfFuel.
Arguments Done {A} r.
Arguments OutOfFuel {A}.

Inductive ctl (S : Type) : Type :=
| Continue (st : S)
| Break (st : S).
Arguments Continue {S} st.
Arguments Break {S} st.

Declare Scope session_scope.
Delimit Scope session_scope with M.

Section Session.

(** the states of the browser and the way it answers *)
Variable W : Type.
Variable answer : forall A : Type, request A -> W -> result A * W.

(** [self.driver] ([None] when [setup_selenium] failed) and the calls made
    so far, latest first *)
Record system : Type := {
  driver : option W;
  history : list event
}.

Definition M (A : Type) : Type := system -> outcome A * system.

Definition ret {A} (a : A) : M A := fun s => (Done (Return a), s).

Definition raise {A} (e : exn) : M A := fun s => (Done (Raise e), s).

Definition bindM {A B} (c : M A) (k : A -> M B) : M B :=
  fun s =>
    match c s with
    | (Done (Return a), s') => k a s'
    | (Done (Raise e), s') => (Done (Raise e), s')
    | (OutOfFuel, s') => (OutOfFuel, s')
    end.

Notation "x <- c ;; k" := (bindM c (fun x => k))
  (at level 61, c at next level, right associativity) : session_scope.
Notation "c ;; k" := (bindM c (fun _ => k))
  (at level 61, right associativity) : session_scope.

Local Open Scope session_scope.

(** [try: c  except Exception as e: h e] *)
Definition try_exceptM {A} (c : M A) (h : exn -> M A) : M A :=
  fun s =>
    match c s with
    | (Done (Raise e), s') => h e s'
    | other => other
    end.

Definition exn_eqb (a b : exn) : bool :=
  match a, b with
  | NoSuchElementException, NoSuchElementException
  | TimeoutException, TimeoutException
  | WebDriverException, WebDriverException
  | UnboundLocalError, UnboundLocalError
  | TypeError, TypeError
  | AttributeError, AttributeError
  | IndexError, IndexError => true
  | _, _ => false
  end.

(** [try: c  except cls: h] for one of the two leaf classes the scrapers
    name, [NoSuchElementException] and [TimeoutException] *)
Definition try_except_only {A} (cls : exn) (c : M A) (h : M A) : M A :=
  fun s =>
    match c s with
    | (Done (Raise e), s') =>
        if exn_eqb e cls then h s' else (Done (Raise e), s')
    | other => other
    end.

(** a call on the driver or on one of its elements; on a missing driver the
    attribute lookup on [None] fails *)
Definition call {A} (q : request A) : M A :=
  fun s =>
    match driver s with
    | None => (Done (Raise AttributeError), s)
    | Some w =>
        let (r, w') := answer q w in
        (Done r, {| driver := Some w'; history := Called q r :: history s |})
    end.

(** [not self.driver] *)
Definition no_driver : M bool :=
  fun s => (Done (Return (match driver s with None => true | Some _ => false end)), s).

(** [time.sleep(n)]: what the page does meanwhile shows in the next answer *)
Definition sleep (secs : nat) : M unit := ret tt.

(** [while True: body] *)
Fixpoint while_true {S} (fuel : nat) (body : S -> M (ctl S)) (st : S) : M S :=
  match fuel with
  | 0 => fun s => (OutOfFuel, s)
  | Datatypes.S fuel' =>
      c <- body st ;;
      match c with
      | Continue st' => while_true fuel' body st'
      | Break st' => ret st'
      end
  end.

(** [for x in l: body] *)
Fixpoint for_each {X S} (l : list X) (body : X -> S -> M S) (st : S) : M S :=
  match l with
  | [] => ret st
  | x :: r => st' <- body x st ;; for_each r body st'
  end.

Variable today : datetime.

Definition next_xpath_input : string :=
  "//a[contains(text(), 'Next')] | //input[@value='Next']".
Definition next_xpath_button : string :=
  "//a[contains(text(), 'Next')] | //button[contains(text(), 'Next')]".
Definition load_more_xpath : string :=
  "//button[contains(text(), 'Load More')] | //a[contains(text(), 'Load More')]".
Definition scroll_height_script : string :=
  "return document.querySelector('.recent-ratings').scrollHeight".
Definition scroll_to_script : string :=
  "document.querySelector('.recent-ratings').scrollTo(0, document.querySelector('.recent-ratings').scrollHeight);".

(** the "check for next page" block the three paged scrapers share: [true]
    to go on, [false] for [break] *)
Definition next_page (xpath : string) : M bool :=
  try_except_only NoSuchElementException
    (next_button <- call (FindElement XPATH xpath) ;;
     enabled <- call (IsEnabled next_button) ;;
     if enabled then call (Click next_button) ;; sleep 3 ;; ret true
     else ret false)
    (ret false).

(** one turn of a paged [while True]: the page is parsed, its records are
    processed, the next page is asked for *)
Definition paged_body (candidates : node -> list node)
  (row : node -> list alert -> result (list alert)) (xpath : string)
  (st : list alert * nat) : M (ctl (list alert * nat)) :=
  let '(alerts, page_num) := st in
  soup <- call PageSource ;;
  let alerts := for_each_row row (candidates soup) alerts in
  more <- next_page xpath ;;
  if more then ret (Continue (alerts, page_num + 1))
  else ret (Break (alerts, page_num)).

(** ** [scrape_icra_ratings] *)
Definition icra_date_filter : M unit :=
  try_except_only NoSuchElementException
    (date_input <- call (FindElement ID "txtFromDate") ;;
     call (Clear date_input) ;;
     call (SendKeys date_input (dd_mm_yyyy_slash (get_current_date_str today))) ;;
     to_date_input <- call (FindElement ID "txtToDate") ;;
     call (Clear to_date_input) ;;
     call (SendKeys to_date_input (dd_mm_yyyy_slash (get_current_date_str today))) ;;
     search_btn <- call (FindElement ID "btnSearch") ;;
     call (Click search_btn) ;;
     sleep 3)
    (ret tt).

Definition scrape_icra_ratings (fuel : nat) : M (list alert) :=
  try_exceptM
    (absent <- no_driver ;;
     if absent then ret []
     else
       call (Get "https://www.icra.in/Rating/RatingList.aspx") ;;
       sleep 3 ;;
       icra_date_filter ;;
       st <- while_true fuel
               (paged_body icra_candidates (icra_row today) next_xpath_input)
               ([], 1) ;;
       ret (fst st))
    (fun _ => ret []).

(** ** [scrape_careedge_ratings] *)
Definition scroll_body (last_height : jsval) : M (ctl jsval) :=
  call (ExecuteScript scroll_to_script) ;;
  sleep 2 ;;
  new_height <- call (ExecuteScript scroll_height_script) ;;
  if jsval_eqb new_height last_height then ret (Break last_height)
  else ret (Continue new_height).

Definition careedge_extract (alerts : list alert) : M (list alert) :=
  soup <- call PageSource ;;
  ret (for_each_row (careedge_row today) (careedge_candidates soup) alerts).

(** The records are processed last inside the inner [try], and no record
    lets an exception out, so when [TimeoutException] reaches the handler
    [alerts] is still empty. *)
Definition scrape_careedge_ratings (fuel : nat) : M (list alert) :=
  try_exceptM
    (absent <- no_driver ;;
     if absent then ret []
     else
       call (Get "https://www.careratings.com/") ;;
       sleep 3 ;;
       let alerts := [] in
       try_except_only TimeoutException
         (recent_ratings_section <- call (WaitPresence CLASS_NAME "recent-ratings") ;;
          last_height <- call (ExecuteScript scroll_height_script) ;;
          while_true fuel scroll_body last_height ;;
          careedge_extract alerts)
         (ret alerts))
    (fun _ => ret []).

(** ** [scrape_acuite_ratings] *)
Definition scrape_acuite_ratings (fuel : nat) : M (list alert) :=
  try_exceptM
    (absent <- no_driver ;;
     if absent then ret []
     else
       call (Get "https://connect.acuite.in/liveratings") ;;
       sleep 3 ;;
       st <- while_true fuel
               (paged_body acuite_candidates (acuite_row today) next_xpath_button)
               ([], 1) ;;
       ret (fst st))
    (fun _ => ret []).

(** ** [scrape_crisil_ratings] *)
Definition load_more_body (st : unit) : M (ctl unit) :=
  try_except_only NoSuchElementException
    (load_more_button <- call (FindElement XPATH load_more_xpath) ;;
     displayed <- call (IsDisplayed load_more_button) ;;
     if displayed then
       enabled <- call (IsEnabled load_more_button) ;;
       if enabled then call (Click load_more_button) ;; sleep 3 ;; ret (Continue tt)
       else ret (Break tt)
     else ret (Break tt))
    (ret (Break tt)).

Definition crisil_extract (alerts : list alert) : M (list alert) :=
  soup <- call PageSource ;;
  ret (for_each_row (crisil_row today) (crisil_candidates soup) alerts).

Definition scrape_crisil_ratings (fuel : nat) : M (list alert) :=
  try_exceptM
    (absent <- no_driver ;;
     if absent then ret []
     else
       call (Get "https://www.crisil.com/en/home/our-businesses/ratings/ratings-actions.html") ;;
       sleep 3 ;;
       let alerts := [] in
       while_true fuel load_more_body tt ;;
       crisil_extract alerts)
    (fun _ => ret []).

(** ** [scrape_bse_announcements] *)
Definition bse_date_fields (current_date : string) : M unit :=
  try_except_only NoSuchElementException
    (from_date <- call (FindElement ID "txtFromDt") ;;
     call (Clear from_date) ;;
     call (SendKeys from_date current_date) ;;
     to_date <- call (FindElement ID "txtToDt") ;;
     call (Clear to_date) ;;
     call (SendKeys to_date current_date))
    (ret tt).

(** [for option in ...: if segment.lower() in option.text.lower(): click; break] *)
Fixpoint select_option (segment : string) (options : list WebElement) : M unit :=
  match options with
  | [] => ret tt
  | option :: rest =>
      text <- call (ElementText option) ;;
      if contains (lower segment) (lower text) then call (Click option)
      else select_option segment rest
  end.

(** "select segment if dropdown exists" *)
Definition bse_select_segment (segment : string) : M unit :=
  try_except_only NoSuchElementException
    (segment_dropdown <- call (FindElement ID "ddlSegment") ;;
     options <- call (FindElements segment_dropdown TAG_NAME "option") ;;
     select_option segment options)
    (ret tt).

(** "click submit/search button" *)
Definition bse_submit : M unit :=
  try_except_only NoSuchElementException
    (submit_btn <- call (FindElement ID "btnSubmit") ;;
     call (Click submit_btn) ;;
     sleep 3)
    (ret tt).

Definition bse_segment (current_date segment : string) (alerts : list alert)
  : M (list alert) :=
  try_exceptM
    (bse_select_segment segment ;;
     bse_submit ;;
     soup <- call PageSource ;;
     ret (for_each_row (bse_row today segment current_date)
            (bse_candidates soup) alerts))
    (fun _ => ret alerts).

Definition segments : list string := ["Equity"; "Debt"].

Definition scrape_bse_announcements : M (list alert) :=
  try_exceptM
    (absent <- no_driver ;;
     if absent then ret []
     else
       let alerts := [] in
       let current_date := dd_mm_yyyy_slash (get_current_date_str today) in
       call (Get "https://www.bseindia.com/corporates/ann.html") ;;
       sleep 3 ;;
       bse_date_fields current_date ;;
       for_each segments (bse_segment current_date) alerts)
    (fun _ => ret []).

(** ** [scrape_nse_announcements] *)

(** the tab click: [false] when the handler runs [continue] *)
Definition nse_tab (segment : string) : M bool :=
  try_except_only NoSuchElementException
    (segment_tab <- call (FindElement XPATH
                            ("//a[contains(text(), '" ++ segment ++ "')]")) ;;
     call (Click segment_tab) ;;
     sleep 3 ;;
     ret true)
    (ret false).

Definition nse_segment (segment : string) (st : nse_locals * list alert)
  : M (nse_locals * list alert) :=
  try_exceptM
    (found <- nse_tab segment ;;
     if found then
       soup <- call PageSource ;;
       ret (nse_rows today segment (nse_candidates soup) st)
     else ret st)
    (fun _ => ret st).

Definition scrape_nse_announcements : M (list alert) :=
  try_exceptM
    (absent <- no_driver ;;
     if absent then ret []
     else
       let alerts := [] in
       call (Get "https://www.nseindia.com/companies-listing/corporate-filings-announcements") ;;
       sleep 5 ;;
       st <- for_each segments nse_segment (nse_unbound, alerts) ;;
       ret (snd st))
    (fun _ => ret []).

(** ** [scrape_sebi_announcements] *)
Definition sebi_date_filter : M unit :=
  let current_date := get_current_date_str today in
  try_except_only NoSuchElementException
    (date_input <- call (FindElement NAME "fromDate") ;;
     call (Clear date_input) ;;
     call (SendKeys date_input (dd_mm_yyyy current_date)) ;;
     to_date_input <- call (FindElement NAME "toDate") ;;
     call (Clear to_date_input) ;;
     call (SendKeys to_date_input (dd_mm_yyyy current_date)) ;;
     search_btn <- call (FindElement XPATH "//input[@type='submit']") ;;
     call (Click search_btn) ;;
     sleep 3)
    (ret tt).

Definition scrape_sebi_announcements (fuel : nat) : M (list alert) :=
  try_exceptM
    (absent <- no_driver ;;
     if absent then ret []
     else
       call (Get "https://www.sebi.gov.in/sebiweb/home/HomeAction.do?doListing=yes&sid=1&ssid=1&smid=1") ;;
       sleep 3 ;;
       sebi_date_filter ;;
       st <- while_true fuel
               (paged_body sebi_candidates (sebi_row today) next_xpath_input)
               ([], 1) ;;
       ret (fst st))
    (fun _ => ret []).

(** ** [run_all_scrapers]: the loop over the scrapers.  Writing the JSON
    file that follows it is left out. *)
Fixpoint run_scrapers (scrapers : list (string * M (list alert)))
  (all_alerts : list alert) : M (list alert) :=
  match scrapers with
  | [] => ret all_alerts
  | (agency_name, scraper_func) :: rest =>
      all_alerts' <-
        try_exceptM
          (agency_alerts <- scraper_func ;;
           sleep 2 ;;
           ret (app all_alerts agency_alerts))
          (fun _ => ret all_alerts) ;;
      run_scrapers rest all_alerts'
  end.

Definition scrapers (fuel : nat) : list (string * M (list alert)) :=
  [ ("ICRA", scrape_icra_ratings fuel);
    ("CareEdge", scrape_careedge_ratings fuel);
    ("Acuite", scrape_acuite_ratings fuel);
    ("CRISIL", scrape_crisil_ratings fuel);
    ("BSE", scrape_bse_announcements);
    ("NSE", scrape_nse_announcements);
    ("SEBI", scrape_sebi_announcements fuel) ].

Definition run_all_scrapers (fuel : nat) : M (list alert) :=
  run_scrapers (scrapers fuel) [].

End Session.

Arguments ret {W A} a _.
Arguments raise {W A} e _.
Arguments bindM {W A B} c k _.
Arguments try_exceptM {W A} c h _.
Arguments try_except_only {W A} cls c h _.
Arguments no_driver {W} _.
Arguments sleep {W} secs _.

(* ================================================================== *)
(** * A scripted browser

    A test double for the driver: the session is the list of answers still to
    be given, one per call, in call order.  An answer of the wrong kind, or a
    call after the last answer, is a [WebDriverException]. *)

Module Script.

Inductive response : Type :=
| RRaise (e : exn)
| RNone
| RElement (e : WebElement)
| RElements (l : list WebElement)
| RBool (b : bool)
| RStr (s : string)
| RJs (v : jsval)
| RPage (soup : node).

Definition as_unit (r : response) : result unit :=
  match r with RNone => Return tt | RRaise e => Raise e | _ => Raise WebDriverException end.
Definition as_element (r : response) : result WebElement :=
  match r with RElement e => Return e | RRaise e => Raise e | _ => Raise WebDriverException end.
Definition as_elements (r : response) : result (list WebElement) :=
  match r with RElements l => Return l | RRaise e => Raise e | _ => Raise WebDriverException end.
Definition as_bool (r : response) : result bool :=
  match r with RBool b => Return b | RRaise e => Raise e | _ => Raise WebDriverException end.
Definition as_str (r : response) : result string :=
  match r with RStr s => Return s | RRaise e => Raise e | _ => Raise WebDriverException end.
Definition as_js (r : response) : result jsval :=
  match r with RJs v => Return v | RRaise e => Raise e | _ => Raise WebDriverException end.
Definition as_page (r : response) : result node :=
  match r with RPage n => Return n | RRaise e => Raise e | _ => Raise WebDriverException end.

Definition decode {A} (q : request A) (r : response) : result A :=
  match q in request T return result T with
  | Get _ => as_unit r
  | FindElement _ _ => as_element r
  | WaitPresence _ _ => as_element r
  | ExecuteScript _ => as_js r
  | PageSource => as_page r
  | Clear _ => as_unit r
  | SendKeys _ _ => as_unit r
  | Click _ => as_unit r
  | IsEnabled _ => as_bool r
  | IsDisplayed _ => as_bool r
  | FindElements _ _ _ => as_elements r
  | ElementText _ => as_str r
  end.

Definition answer (A : Type) (q : request A) (w : list response)
  : result A * list response :=
  match w with
  | [] => (Raise WebDriverException, [])
  | r :: w' => (decode q r, w')
  end.

(** a session that starts with the given script and an empty history *)
Definition start (script : list response) : system (list response) :=
  {| driver := Some script; history := [] |}.

(** the session of a failed [setup_selenium] *)
Definition no_session : system (list response) :=
  {| driver := None; history := [] |}.

End Script.

(* ================================================================== *)
(** * The specification's words, as definitions *)

(** the last character of a string *)
Fixpoint last_char (s : string) : option ascii :=
  match s with
  | EmptyString => None
  | String c EmptyString => Some c
  | String _ r => last_char r
  end.

(** A text that begins and ends with a non-blank character and holds no
    comma survives [strip] and the removal of commas wherever it stands. *)
Definition solid (v : string) : Prop :=
  (exists c r, v = String c r /\ is_space c = false) /\
  (exists c, last_char v = Some c /\ is_space c = false) /\
  no_char "," v = true.

(** The seven renderings of a date as the specification names them, for
    comparison with the list [today_formats] of the code: DD and MM are the
    day and the month of the year in two decimal digits, YYYY the year in
    four, each with zeros on the left, Mon the three-letter English
    abbreviation of the month and Month its full English name. *)
Module SpecDate.

(** [n] in decimal, with zeros on the left up to [width] digits *)
Definition padded (width n : nat) : string :=
  repeat_char "0" (width - String.length (str_of_nat n)) ++ str_of_nat n.

Definition DD (t : datetime) : string := padded 2 (day t).
Definition MM (t : datetime) : string := padded 2 (month t).
Definition YYYY (t : datetime) : string := padded 4 (year t).

Definition abbreviations : list string :=
  [ "Jan"; "Feb"; "Mar"; "Apr"; "May"; "Jun";
    "Jul"; "Aug"; "Sep"; "Oct"; "Nov"; "Dec" ].

Definition names : list string :=
  [ "January"; "February"; "March"; "April"; "May"; "June";
    "July"; "August"; "September"; "October"; "November"; "December" ].

Definition Mon (t : datetime) : string := nth (month t - 1) abbreviations "".
Definition Month (t : datetime) : string := nth (month t - 1) names "".

Definition renderings (t : datetime) : list string :=
  [ DD t ++ "-" ++ MM t ++ "-" ++ YYYY t;
    YYYY t ++ "-" ++ MM t ++ "-" ++ DD t;
    DD t ++ "/" ++ MM t ++ "/" ++ YYYY t;
    MM t ++ "/" ++ DD t ++ "/" ++ YYYY t;
    DD t ++ "-" ++ Mon t ++ "-" ++ YYYY t;
    DD t ++ " " ++ Mon t ++ " " ++ YYYY t;
    DD t ++ " " ++ Month t ++ " " ++ YYYY t ].

End SpecDate.

(** The extractor as the specification words it, for comparison with
    [extract_text_from_element]: per hint, in order, the first descendant
    element whose class attribute contains the hint, else the first
    descendant text node that contains it, else the first descendant
    span/div/td/p/a whose own text contains it, compared without regard to
    case; the trimmed text of the match, and the empty string when no hint
    matches. *)
Module Spec.

Definition contains_ci (hint s : string) : bool :=
  contains (lower hint) (lower s).

(** an element whose class attribute is absent or blank has no class value
    to contain a hint *)
Definition class_contains (hint : string) (d : node) : bool :=
  match d with
  | Tag _ [] _ => false
  | Tag _ cls _ => contains_ci hint (join " " cls)
  | NavigableString _ => false
  end.

Definition text_contains (hint : string) (d : node) : bool :=
  match d with
  | NavigableString s => contains_ci hint s
  | Tag _ _ _ => false
  end.

Definition own_text_contains (hint : string) (d : node) : bool :=
  match d with
  | Tag nm _ _ =>
      existsb (String.eqb nm) text_tags &&
      match tag_string d with
      | Some s => contains_ci hint s
      | None => false
      end
  | NavigableString _ => false
  end.

Definition first_match (hint : string) (fragment : node) : option node :=
  match find (class_contains hint) (descendants fragment) with
  | Some d => Some d
  | None =>
      match find (text_contains hint) (descendants fragment) with
      | Some d => Some d
      | None => find (own_text_contains hint) (descendants fragment)
      end
  end.

Fixpoint extract (fragment : node) (hint_list : list string) : string :=
  match hint_list with
  | [] => ""
  | hint :: rest =>
      match first_match hint fragment with
      | Some d => get_text_strip d
      | None => extract fragment rest
      end
  end.

End Spec.

(** A fragment as the HTML parser builds it: no text node below it is
    empty, and no class value below it is. *)
Definition parsed_node (d : node) : bool :=
  match d with
  | NavigableString s => truthy s
  | Tag _ cls _ => forallb truthy cls
  end.

Definition parsed (fragment : node) : bool :=
  forallb parsed_node (descendants fragment).

(** The words of the specification, for comparison: the sources in
    first-seen order, and the alerts of one source in input order. *)
Fixpoint first_seen (l : list string) : list string :=
  match l with
  | [] => []
  | x :: r => x :: filter (fun y => negb (String.eqb y x)) (first_seen r)
  end.

Definition alerts_of (k : string) (alerts : list alert) : list alert :=
  filter (fun a => String.eqb (agency a) k) alerts.

(* ================================================================== *)
(** * Sample pages and sessions *)

Module Sample.

Definition nov3 : datetime :=
  {| year := 2026; month := 11; day := 3; hour := 9; minute := 30; second := 0 |}.

Definition td (cls : list string) (text : string) : node :=
  Tag "td" cls [NavigableString text].

Definition tr (cls : list string) (cells : list node) : node :=
  Tag "tr" cls cells.

Definition document (body : list node) : node := Tag "[document]" [] body.

(** a card whose company sits in an element of class "company" *)
Definition card : node :=
  Tag "div" ["rating-item"]
    [ Tag "span" ["company"] [NavigableString " ACME Ltd "];
      Tag "span" ["date"] [NavigableString "03/11/2026 10:15"];
      Tag "span" ["action"] [NavigableString "Upgraded"] ].

End Sample.

(** scripted sessions: every list gives the browser's answers in call order *)
Module Scenario.

Import Script.

Definition th (text : string) : node := Tag "th" [] [NavigableString text].

Definition header_row : node :=
  Sample.tr [] [th "Date"; th "Company"; th "Subject"].

(** a table whose only data row carries an old date in its first cell *)
Definition bse_page : node :=
  Sample.document
    [ Tag "table" []
        [ header_row;
          Sample.tr [] [ Sample.td [] "01/01/2020"; Sample.td [] "ACME Ltd";
                         Sample.td [] "Board Meeting" ] ] ].

(** BSE: the page opens, no date field, no dropdown, no submit button; the
    Equity pass sees [bse_page], the Debt pass an empty page *)
Definition bse_script : list response :=
  [ RNone;
    RRaise NoSuchElementException;
    RRaise NoSuchElementException; RRaise NoSuchElementException; RPage bse_page;
    RRaise NoSuchElementException; RRaise NoSuchElementException;
    RPage (Sample.document []) ].

(** SEBI: the page opens, no date filter, one page with one announcement of
    today and one of last year, no next control *)
Definition sebi_page : node :=
  Sample.document
    [ Tag "table" []
        [ Sample.tr [] [th "Date"; th "Title"];
          Sample.tr [] [ Sample.td [] "03 Nov, 2026"; Sample.td [] "Circular on margins" ];
          Sample.tr [] [ Sample.td [] "03 Nov, 2025"; Sample.td [] "Old circular" ] ] ].

Definition sebi_script : list response :=
  [ RNone; RRaise NoSuchElementException; RPage sebi_page;
    RRaise NoSuchElementException ].

End Scenario.

(** more scripted sessions *)
Module NseScenario.

Import Script.

(** the Equity tab: a header row and one announcement of today *)
Definition nse_equity_page : node :=
  Sample.document
    [ Tag "table" []
        [ Scenario.header_row;
          Sample.tr [] [ Sample.td [] "03-Nov-2026 10:15"; Sample.td [] "ACME Ltd";
                         Sample.td [] "Outcome of Board Meeting" ] ] ].

(** the Debt tab: the header row alone *)
Definition nse_debt_page : node :=
  Sample.document [ Tag "table" [] [ Scenario.header_row ] ].

(** NSE: the page opens; each tab is found and clicked, then parsed *)
Definition nse_script : list response :=
  [ RNone;
    RElement 1; RNone; RPage nse_equity_page;
    RElement 2; RNone; RPage nse_debt_page ].

End NseScenario.

(** a table row with fewer than three cells *)
Definition short_tr (row : node) : bool :=
  match row with
  | Tag nm _ _ => String.eqb nm "tr" && (List.length (find_all "td" row) <? 3)%nat
  | NavigableString _ => false
  end.

(* ================================================================== *)
(** * Histories, and what the statements say of them *)

(** the parsed pages a history holds, latest first *)
Definition snapshot_of (ev : event) : option node :=
  match ev with
  | @Called A q r =>
      match q in request T return result T -> option node with
      | PageSource => fun r => match r with
                               | Return soup => Some soup
                               | Raise _ => None
                               end
      | _ => fun _ => None
      end r
  end.

Definition snapshots (h : list event) : list node :=
  flat_map (fun ev => match snapshot_of ev with
                      | Some soup => [soup]
                      | None => []
                      end) h.

(** a record body either leaves the alerts alone or appends one alert that
    [R] relates to the record *)
Definition emits (body : node -> list alert -> result (list alert))
  (R : node -> alert -> Prop) : Prop :=
  forall row acc acc',
    body row acc = Return acc' ->
    acc' = acc \/ exists a, acc' = append acc a /\ R row a.

(** the history [h'] continues the history [h] *)
Definition hext (h h' : list event) : Prop :=
  exists recent, h' = (recent ++ h)%list.

(** the height an event measured, if it is a measurement that gave one *)
Definition measured (ev : event) : option jsval :=
  match ev with
  | @Called A q r =>
      match q in request T return result T -> option jsval with
      | ExecuteScript script =>
          fun r => match r with
                   | Return v => if String.eqb script scroll_height_script
                                 then Some v else None
                   | Raise _ => None
                   end
      | _ => fun _ => None
      end r
  end.

(** the heights measured in a history, latest first *)
Definition heights (h : list event) : list jsval :=
  flat_map (fun ev => match measured ev with Some v => [v] | None => [] end) h.

(** no two neighbours of the list are equal *)
Fixpoint adjacent_distinct (l : list jsval) : bool :=
  match l with
  | a :: (b :: _) as rest => negb (jsval_eqb a b) && adjacent_distinct rest
  | _ => true
  end.

(** the two latest heights are equal, and no two neighbours before *)
Definition first_repeat_last (l : list jsval) : Prop :=
  exists m rest, l = m :: m :: rest /\ adjacent_distinct (m :: rest) = true.

(** the events that parse the page, and the clicks that succeeded *)
Definition is_page_source (ev : event) : bool :=
  match ev with
  | @Called _ PageSource _ => true
  | _ => false
  end.

Definition is_click (ev : event) : bool :=
  match ev with
  | @Called _ (Click _) (Return _) => true
  | _ => false
  end.

(** the pages parsed and the clicks made in a history *)
Definition page_calls (h : list event) : nat := List.length (filter is_page_source h).
Definition click_calls (h : list event) : nat := List.length (filter is_click h).

(** the answer that ends the loop: the control is absent
    ([NoSuchElementException]), not displayed, or disabled *)
Definition exhausted (ev : event) : Prop :=
  (exists A (q : request A), ev = Called q (Raise NoSuchElementException)) \/
  (exists e, ev = Called (IsDisplayed e) (Return false)) \/
  (exists e, ev = Called (IsEnabled e) (Return false)).

(** the four answers of a turn that goes on: found, displayed, enabled,
    clicked *)
Definition clicked_once (e : WebElement) : list event :=
  [ Called (Click e) (Return tt);
    Called (IsEnabled e) (Return true);
    Called (IsDisplayed e) (Return true);
    Called (FindElement XPATH load_more_xpath) (Return e) ].

(** the recent part of a history holds no parsed page *)
Definition quiet (h h' : list event) : Prop :=
  exists recent, h' = (recent ++ h)%list /\ page_calls recent = 0.

(** a page that grows [n] times: the heights measured are [k+1], ...,
    [k+n] and [k+n] again *)
Fixpoint growing (k : Z) (n : nat) : list Script.response :=
  match n with
  | 0 => [Script.RJs JsNone; Script.RJs (JsNum k)]
  | S n' => Script.RJs JsNone :: Script.RJs (JsNum (k + 1)) :: growing (k + 1) n'
  end.

(** a session in which the control is clicked [n] times and is then absent *)
Fixpoint load_more_clicks (n : nat) (tail : list Script.response)
  : list Script.response :=
  match n with
  | 0 => Script.RRaise NoSuchElementException :: tail
  | S n' =>
      Script.RElement 7 :: Script.RBool true :: Script.RBool true :: Script.RNone
      :: load_more_clicks n' tail
  end.

Definition crisil_script (n : nat) (page : node) : list Script.response :=
  Script.RNone :: load_more_clicks n [Script.RPage page].

Definition two_sources : list alert :=
  [ {| agency := "ICRA"; company := "A"; date := "03/11/2026"; action := "x"; timestamp := "" |};
    {| agency := "SEBI"; company := "B"; date := "03/11/2026"; action := "y"; timestamp := "" |};
    {| agency := "ICRA"; company := "C"; date := "03/11/2026"; action := "z"; timestamp := "" |} ].

(** the sum of the sizes of the groups *)
Definition group_total (d : agency_dict) : nat :=
  list_sum (map (fun kv => List.length (snd kv)) d).

(** the groups, in the words of the specification *)
Definition spec_groups (alerts : list alert) : agency_dict :=
  map (fun k => (k, alerts_of k alerts)) (first_seen (map agency alerts)).

Section Predicates.

Variable today : datetime.

(** the text of the [i]-th cell of a table row *)
Definition cell (row : node) (i : nat) (text : string) : Prop :=
  exists c, nth_error (find_all "td" row) i = Some c /\ text = get_text_strip c.

(** what each scraper reads off a record into an alert *)
Definition hinted_reads (label : string) (company_hints date_hints action_hints : list string)
  (row : node) (a : alert) : Prop :=
  agency a = label /\
  extract_text_from_element row (hints company_hints) = Return (company a) /\
  extract_text_from_element row (hints date_hints) = Return (date a) /\
  extract_text_from_element row (hints action_hints) = Return (action a) /\
  truthy (company a) = true /\ is_today_date today (date a) = true.

Definition icra_reads : node -> alert -> Prop :=
  hinted_reads "ICRA" ["company"; "entity"; "name"] ["date"; "rated-on"]
    ["action"; "rating"; "grade"].
Definition careedge_reads : node -> alert -> Prop :=
  hinted_reads "CareEdge" ["company"; "entity"; "name"]
    ["date"; "rated-on"; "timestamp"] ["action"; "rating"; "grade"].
Definition crisil_reads : node -> alert -> Prop :=
  hinted_reads "CRISIL" ["company"; "entity"; "name"; "title"]
    ["date"; "rated-on"; "timestamp"]
    ["action"; "rating"; "grade"; "description"].

Definition acuite_reads (row : node) (a : alert) : Prop :=
  agency a = "Acuite" /\
  cell row 0 (date a) /\ cell row 1 (company a) /\ cell row 2 (action a) /\
  truthy (company a) = true /\ is_today_date today (date a) = true.

Definition bse_reads (row : node) (a : alert) : Prop :=
  (exists segment, In segment segments /\ agency a = "BSE (" ++ segment ++ ")") /\
  cell row 1 (company a) /\ cell row 2 (action a) /\
  date a = fmt_dd_mm_yyyy_slash today /\
  truthy (company a) = true.

Definition sebi_reads (row : node) (a : alert) : Prop :=
  agency a = "SEBI" /\ company a = "SEBI Announcement" /\
  cell row 0 (date a) /\ cell row 1 (action a) /\
  truthy (action a) = true /\ is_today_date today (date a) = true.

(** the three values the NSE loop assigns from a record *)
Definition nse_values (row : node) (c s d : string) : Prop :=
  match row with
  | NavigableString _ => False
  | Tag nm _ _ =>
      if String.eqb nm "tr"
      then cell row 1 c /\ cell row 2 s /\ cell row 0 d
      else extract_text_from_element row (hints ["company"; "symbol"]) = Return c /\
           extract_text_from_element row (hints ["subject"; "title"]) = Return s /\
           extract_text_from_element row (hints ["date"; "time"]) = Return d
  end.

Definition nse_reads (row : node) (a : alert) : Prop :=
  (exists segment, In segment segments /\ agency a = "NSE (" ++ segment ++ ")") /\
  nse_values row (company a) (action a) (date a) /\
  truthy (company a) = true /\ is_today_date today (date a) = true.

(** [a] was read by [R] off a candidate record of a page in the history *)
Definition from_page (candidates : node -> list node) (R : node -> alert -> Prop)
  (h : list event) (a : alert) : Prop :=
  exists soup row, In soup (snapshots h) /\ In row (candidates soup) /\ R row a.

(** the locals are all unbound, or all bound to the values of one candidate
    record of a page in the history *)
Definition nse_bound (h : list event) (loc : nse_locals) : Prop :=
  loc = nse_unbound \/
  exists c s d soup row,
    loc = {| company_name := Some c; subject := Some s; date_text := Some d |} /\
    In soup (snapshots h) /\ In row (nse_candidates soup) /\ nse_values row c s d.

Definition nse_inv (h : list event) (st : nse_locals * list alert) : Prop :=
  nse_bound h (fst st) /\
  Forall (from_page nse_candidates nse_reads h) (snd st).

End Predicates.

(** an alert as the data model wants it: a company, a date that is today,
    and the fixed label where the source is the regulator *)
Definition alert_ok (today : datetime) (a : alert) : Prop :=
  company a <> "" /\
  is_today_date today (date a) = true /\
  (agency a = "SEBI" -> company a = "SEBI Announcement").

(** an alert read by one of the seven scrapers *)
Definition any_source (today : datetime) (h : list event) (a : alert) : Prop :=
  from_page icra_candidates (icra_reads today) h a \/
  from_page careedge_candidates (careedge_reads today) h a \/
  from_page acuite_candidates (acuite_reads today) h a \/
  from_page crisil_candidates (crisil_reads today) h a \/
  from_page bse_candidates (bse_reads today) h a \/
  from_page nse_candidates (nse_reads today) h a \/
  from_page sebi_candidates (sebi_reads today) h a.

Section SessionPredicates.

Variable W : Type.

(** a size of the browser state, for the sessions whose browser is used up *)
Variable size : W -> nat.

Definition weight (s : system W) : nat :=
  match driver s with
  | Some w => size w
  | None => 0
  end.

(** the state [s'] comes after [s]: its history continues that of [s], and
    its browser has not grown *)
Definition ext (s s' : system W) : Prop :=
  hext (history s) (history s') /\ weight s' <= weight s.

(** [wp m Q s]: running [m] from [s] ends in an outcome and a state that
    satisfy [Q] *)
Definition wp {A} (m : M W A) (Q : outcome A -> system W -> Prop)
  (s : system W) : Prop :=
  Q (fst (m s)) (snd (m s)).

(** the post-condition shared by the scrapers: the history has only grown,
    and every alert returned satisfies [P] of the final history *)
Definition returns_all (P : list event -> alert -> Prop) (s : system W)
  : outcome (list alert) -> system W -> Prop :=
  fun o s' =>
    ext s s' /\
    forall alerts, o = Done (Return alerts) -> Forall (P (history s')) alerts.

(** the post-condition of a block without a loop: it ends, in a later state *)
Definition ends (s : system W) {A} : outcome A -> system W -> Prop :=
  fun o s' => o <> OutOfFuel /\ ext s s'.

End SessionPredicates.

(* ================================================================== *)
(** * Calendar days *)

(** a calendar date as [datetime.now()] can return it *)
Definition valid_date (t : datetime) : Prop :=
  1000 <= year t < 100 * 100 /\ 1 <= month t <= 12 /\ 1 <= day t <= 31.

(** the same calendar day *)
Definition same_day (a b : datetime) : Prop :=
  year a = year b /\ month a = month b /\ day a = day b.

(** the day of [a] is the month of [b] and the other way round, in the same
    year *)
Definition day_month_swapped (a b : datetime) : Prop :=
  year a = year b /\ day a = month b /\ month a = day b.


(** the values of the dictionary [get_current_date_str] returns, by key *)
Definition current_date_values : list (current_date_str -> string) :=
  [ dd_mm_yyyy; yyyy_mm_dd; dd_mm_yyyy_slash; mm_dd_yyyy_slash; dd_mmm_yyyy;
    dd_mmm_yyyy_space ].

(** a text without blanks at either end *)
Definition trimmed_ends (s : string) : Prop :=
  s = "" \/
  ((exists c r, s = String c r /\ is_space c = false) /\
   (exists c, last_char s = Some c /\ is_space c = false)).

(** a paged session: every page but the last is followed by a Next control
    that is found, enabled and clicked; after the last page the control is
    disabled, or absent *)
Definition last_page (disabled : bool) : list Script.response :=
  if disabled then [Script.RElement 5; Script.RBool false]
  else [Script.RRaise NoSuchElementException].

Fixpoint paged_script (disabled : bool) (page : node) (more : list node)
  : list Script.response :=
  match more with
  | [] => Script.RPage page :: last_page disabled
  | next :: rest =>
      Script.RPage page :: Script.RElement 5 :: Script.RBool true :: Script.RNone
      :: paged_script disabled next rest
  end.

(** the same pages, but after the last one the lookup of the control fails
    with [e] *)
Fixpoint paged_fault_script (e : exn) (page : node) (more : list node)
  : list Script.response :=
  match more with
  | [] => [Script.RPage page; Script.RRaise e]
  | next :: rest =>
      Script.RPage page :: Script.RElement 5 :: Script.RBool true :: Script.RNone
      :: paged_fault_script e next rest
  end.

(** the answers of a date filter that is there: two fields found, cleared
    and filled, a button found and clicked *)
Definition filter_present : list Script.response :=
  [ Script.RElement 1; Script.RNone; Script.RNone;
    Script.RElement 2; Script.RNone; Script.RNone;
    Script.RElement 3; Script.RNone ].

(** the texts typed into the elements of a history, latest first *)
Definition typed (ev : event) : option string :=
  match ev with
  | @Called _ (SendKeys _ keys) _ => Some keys
  | _ => None
  end.

Definition typed_texts (h : list event) : list string :=
  flat_map (fun ev => match typed ev with Some k => [k] | None => [] end) h.

(** the answers at the date filter: all of it there, or its first field
    missing *)
Definition filter_script (present : bool) : list Script.response :=
  if present then filter_present else [Script.RRaise NoSuchElementException].

(** what the BSE loop reads off a row: the company and the subject, when
    the row has three cells and the company is not empty *)
Definition bse_record (row : node) : list (string * string) :=
  let cells := find_all "td" row in
  match cells with
  | _ :: c1 :: c2 :: _ =>
      if truthy (get_text_strip c1) then [(get_text_strip c1, get_text_strip c2)]
      else []
  | _ => []
  end.

Definition bse_alert (today : datetime) (segment current_date : string)
  (r : string * string) : alert :=
  {| agency := "BSE (" ++ segment ++ ")"; company := fst r; date := current_date;
     action := snd r; timestamp := isoformat today |}.

(** the alerts of one segment of the BSE scraper, given the page it parsed
    there, if it parsed one *)
Definition bse_segment_alerts (today : datetime) (segment : string)
  (page : option node) : list alert :=
  match page with
  | Some soup =>
      map (bse_alert today segment (fmt_dd_mm_yyyy_slash today))
          (flat_map bse_record (bse_candidates soup))
  | None => []
  end.

Definition option_list {A} (o : option A) : list A :=
  match o with Some a => [a] | None => [] end.

(** the recent part of a history holds no parsed page *)
Definition silent (h h' : list event) : Prop :=
  exists recent, h' = app recent h /\ snapshots recent = [].

(** a block that ends and parses no page *)
Definition ends_silently {W} (s : system W) {A} : outcome A -> system W -> Prop :=
  fun o s' => o <> OutOfFuel /\ silent (history s) (history s').

(** what the BSE scraper returns: the alerts of the page of each pass, and
    the pages parsed, latest first *)
Definition bse_outcome (today : datetime) {W} (s : system W) (o : outcome (list alert)) (s' : system W) : Prop :=
  exists recent equity debt,
    o = Done (Return (app (bse_segment_alerts today "Equity" equity)
                          (bse_segment_alerts today "Debt" debt))) /\
    history s' = app recent (history s) /\
    snapshots recent = app (option_list debt) (option_list equity).

(** BSE: the page opens; no date field, no dropdown and no submit button;
    both passes see the same page *)
Definition bse_same_page_script (page : node) : list Script.response :=
  [ Script.RNone; Script.RRaise NoSuchElementException;
    Script.RRaise NoSuchElementException; Script.RRaise NoSuchElementException;
    Script.RPage page;
    Script.RRaise NoSuchElementException; Script.RRaise NoSuchElementException;
    Script.RPage page ].

(** the labels an alert of a run can carry, in the order the sources are
    visited *)
Definition source_labels : list string :=
  [ "ICRA"; "CareEdge"; "Acuite"; "CRISIL"; "BSE (Equity)"; "BSE (Debt)";
    "NSE (Equity)"; "NSE (Debt)"; "SEBI" ].

(** every alert of the group carries the label *)
Definition labelled (label : string) (group : list alert) : Prop :=
  Forall (fun a => agency a = label) group.


(** a whole run on a scripted browser: the four rating agencies fail to
    open; BSE has no date field, no dropdown and no submit button; both NSE
    tabs are there, the Debt tab holding a header row only; SEBI has no
    date filter and one page *)
Definition run_script : list Script.response :=
  [ Script.RRaise WebDriverException; Script.RRaise WebDriverException;
    Script.RRaise WebDriverException; Script.RRaise WebDriverException;
    Script.RNone; Script.RRaise NoSuchElementException;
    Script.RRaise NoSuchElementException; Script.RRaise NoSuchElementException;
    Script.RPage Scenario.bse_page;
    Script.RRaise NoSuchElementException; Script.RRaise NoSuchElementException;
    Script.RPage Scenario.bse_page;
    Script.RNone;
    Script.RElement 1; Script.RNone; Script.RPage NseScenario.nse_equity_page;
    Script.RElement 2; Script.RNone; Script.RPage NseScenario.nse_debt_page;
    Script.RNone; Script.RRaise NoSuchElementException;
    Script.RPage Scenario.sebi_page; Script.RRaise NoSuchElementException ].

(** the alerts a computation returned; none when it did not return *)
Definition returned {A} (o : outcome (list A)) : list A :=
  match o with
  | Done (Return l) => l
  | _ => []
  end.

(** the pages the scrapers open *)
Definition source_urls : list string :=
  [ "https://www.icra.in/Rating/RatingList.aspx";
    "https://www.careratings.com/";
    "https://connect.acuite.in/liveratings";
    "https://www.crisil.com/en/home/our-businesses/ratings/ratings-actions.html";
    "https://www.bseindia.com/corporates/ann.html";
    "https://www.nseindia.com/companies-listing/corporate-filings-announcements";
    "https://www.sebi.gov.in/sebiweb/home/HomeAction.do?doListing=yes&sid=1&ssid=1&smid=1" ].

(** the controls the scrapers look up *)
Definition known_locators : list (By * string) :=
  [ (ID, "txtFromDate"); (ID, "txtToDate"); (ID, "btnSearch");
    (XPATH, next_xpath_input); (XPATH, next_xpath_button);
    (CLASS_NAME, "recent-ratings"); (XPATH, load_more_xpath);
    (ID, "txtFromDt"); (ID, "txtToDt"); (ID, "ddlSegment"); (ID, "btnSubmit");
    (XPATH, "//a[contains(text(), 'Equity')]");
    (XPATH, "//a[contains(text(), 'Debt')]");
    (NAME, "fromDate"); (NAME, "toDate"); (XPATH, "//input[@type='submit']") ].

(** a call the program can make on the day [today]: one of its pages is
    opened, one of its controls is looked up, today's date is typed, one of
    the two scroll scripts is run; the other calls act on an element or read
    the page *)
Definition allowed (today : datetime) (ev : event) : Prop :=
  match ev with
  | @Called _ q _ =>
      match q with
      | Get url => In url source_urls
      | FindElement by_ value => In (by_, value) known_locators
      | WaitPresence by_ value => In (by_, value) known_locators
      | FindElements _ by_ value => (by_, value) = (TAG_NAME, "option")
      | SendKeys _ keys =>
          keys = fmt_dd_mm_yyyy_slash today \/ keys = fmt_dd_mm_yyyy today
      | ExecuteScript script =>
          script = scroll_height_script \/ script = scroll_to_script
      | _ => True
      end
  end.

(** the history [h'] continues [h] with events that satisfy [P] *)
Definition only (P : event -> Prop) (h h' : list event) : Prop :=
  exists recent, h' = app recent h /\ Forall P recent.

(** every run of the computation takes a state to a state that [R] relates
    to it, whatever the browser answers *)
Definition stepwise {W A} (R : system W -> system W -> Prop) (m : M W A) : Prop :=
  forall s, R s (snd (m s)).

(** the computation makes calls that satisfy [P] only *)
Definition keeps {W A} (P : event -> Prop) (m : M W A) : Prop :=
  stepwise (fun s s' => only P (history s) (history s')) m.

(** the state [s'] continues [s] with calls a run can make *)
Definition allowed_steps (today : datetime) {W} (s s' : system W) : Prop :=
  only (allowed today) (history s) (history s').

(** the session has a driver in both states, or in neither *)
Definition same_driver {W} (s s' : system W) : Prop :=
  driver s = None <-> driver s' = None.

(* ================================================================== *)
(** * The program around the scrapers: [setup_selenium], the two files,
      [cleanup] and [main]

    The operating system is abstract, as the browser is: writing a file and
    printing may fail, and what was tried is kept in a list of effects.  The
    three calls of [datetime.now()] outside the scrapers are three values:
    [today] for the heading of the report, and the times the two file names
    are made. *)

(** ['%Y%m%d_%H%M%S'] *)
Definition fmt_timestamp (t : datetime) : string :=
  four_digits (year t) ++ two_digits (month t) ++ two_digits (day t) ++ "_" ++
  two_digits (hour t) ++ two_digits (minute t) ++ two_digits (second t).

(** [f"rating_alerts_{timestamp}.json"] and
    [f"rating_alerts_report_{...}.txt"] *)
Definition alerts_filename (t : datetime) : string :=
  "rating_alerts_" ++ fmt_timestamp t ++ ".json".
Definition report_filename (t : datetime) : string :=
  "rating_alerts_report_" ++ fmt_timestamp t ++ ".txt".

(** a time of day as [datetime.now()] can return it *)
Definition valid_time (t : datetime) : Prop :=
  hour t < 24 /\ minute t < 60 /\ second t < 60.

(** the same second of the same day *)
Definition same_second (a b : datetime) : Prop :=
  same_day a b /\ hour a = hour b /\ minute a = minute b /\ second a = second b.

(** The exceptions [main] can meet: those of the browser, and the
    [OSError]s of the files and of the terminal. *)
Inductive fault : Type :=
| BrowserFault (e : exn)
| OSError.

(** What the program did outside the browser session, and the one call that
    ends the session; [ok] is false when the statement raised. *)
Inductive effect : Type :=
| Wrote (name content : string) (ok : bool)
| Printed (text : string) (ok : bool)
| Quit (r : result unit).

Inductive ending (A : Type) : Type :=
| Finished (a : A)
| Failed (f : fault)
| Forever.
Arguments Finished {A} a.
Arguments Failed {A} f.
Arguments Forever {A}.

Section Program.

Variable W : Type.
Variable answer : forall A : Type, request A -> W -> result A * W.

(** [webdriver.Chrome(options=chrome_options)], and [driver.quit()] *)
Variable chrome : result W.
Variable quit : W -> result unit * W.

(** the operating system: [with open(name, 'w', encoding='utf-8') as f]
    followed by the writing of [content], and [print]; [false] when an
    exception was raised *)
Variable O : Type.
Variable write_file : string -> string -> O -> bool * O.
Variable print : string -> O -> bool * O.

(** [json.dumps(all_alerts, indent=2, ensure_ascii=False)] *)
Variable json_dump : list alert -> string.

(** [setup_selenium], called by [__init__]: the session, with no driver when
    Chrome did not start *)
Definition setup_selenium : system W :=
  match chrome with
  | Return w => {| driver := Some w; history := [] |}
  | Raise _ => {| driver := None; history := [] |}
  end.

Record process : Type := {
  alert_system : system W;
  os : O;
  effects : list effect   (* latest first *)
}.

Definition IO (A : Type) : Type := process -> ending A * process.

Definition io_ret {A} (a : A) : IO A := fun p => (Finished a, p).

Definition io_bind {A B} (c : IO A) (k : A -> IO B) : IO B :=
  fun p =>
    match c p with
    | (Finished a, p') => k a p'
    | (Failed f, p') => (Failed f, p')
    | (Forever, p') => (Forever, p')
    end.

(** [try: c  except Exception as e: h e] *)
Definition io_try {A} (c : IO A) (h : fault -> IO A) : IO A :=
  fun p =>
    match c p with
    | (Failed f, p') => h f p'
    | other => other
    end.

(** [try: c  finally: f]: [f] runs when [c] has ended, and an exception of
    [f] replaces the ending of [c] *)
Definition io_finally {A} (c : IO A) (f : IO unit) : IO A :=
  fun p =>
    match c p with
    | (Forever, p') => (Forever, p')
    | (r, p') =>
        match f p' with
        | (Finished _, p'') => (r, p'')
        | (Failed e, p'') => (Failed e, p'')
        | (Forever, p'') => (Forever, p'')
        end
    end.

(** a computation of the browser session, inside the program *)
Definition on_browser {A} (m : M W A) : IO A :=
  fun p =>
    let (o, s') := m (alert_system p) in
    (match o with
     | Done (Return a) => Finished a
     | Done (Raise e) => Failed (BrowserFault e)
     | OutOfFuel => Forever
     end,
     {| alert_system := s'; os := os p; effects := effects p |}).

Definition with_open_write (name content : string) : IO unit :=
  fun p =>
    let (ok, o') := write_file name content (os p) in
    (if ok then Finished tt else Failed OSError,
     {| alert_system := alert_system p; os := o';
        effects := Wrote name content ok :: effects p |}).

Definition print_ (text : string) : IO unit :=
  fun p =>
    let (ok, o') := print text (os p) in
    (if ok then Finished tt else Failed OSError,
     {| alert_system := alert_system p; os := o';
        effects := Printed text ok :: effects p |}).

Variable today : datetime.

(** [run_all_scrapers] with the JSON file it writes; [saved_at] is the time
    the file name is made *)
Definition run_all_scrapers_file (saved_at : datetime) (fuel : nat)
  : IO (list alert) :=
  io_bind (on_browser (run_all_scrapers answer today fuel)) (fun all_alerts =>
  let timestamp := fmt_timestamp saved_at in
  let filename := "rating_alerts_" ++ timestamp ++ ".json" in
  io_bind (with_open_write filename (json_dump all_alerts)) (fun _ =>
  io_ret all_alerts)).

(** [cleanup] *)
Definition cleanup : IO unit :=
  fun p =>
    match driver (alert_system p) with
    | None => (Finished tt, p)
    | Some w =>
        let (r, w') := quit w in
        (match r with
         | Return _ => Finished tt
         | Raise e => Failed (BrowserFault e)
         end,
         {| alert_system := {| driver := Some w';
                               history := history (alert_system p) |};
            os := os p; effects := Quit r :: effects p |})
    end.

(** [main], from the state [o] of the operating system *)
Definition main (saved_at reported_at : datetime) (fuel : nat) (o : O)
  : ending unit * process :=
  let alert_system := setup_selenium in
  io_finally
    (io_try
       (io_bind (run_all_scrapers_file saved_at fuel) (fun alerts =>
        let report := generate_alert_report today alerts in
        io_bind (print_ report) (fun _ =>
        let report_filename :=
          "rating_alerts_report_" ++ fmt_timestamp reported_at ++ ".txt" in
        with_open_write report_filename report)))
       (fun _ => io_ret tt))
    cleanup
    {| alert_system := alert_system; os := o; effects := [] |}.

End Program.

(** the calls of [driver.quit()] among the effects, and the rest *)
Definition quits (l : list effect) : list (result unit) :=
  flat_map (fun ev => match ev with Quit r => [r] | _ => [] end) l.

Definition outputs (l : list effect) : list effect :=
  filter (fun ev => match ev with Quit _ => false | _ => true end) l.

(** an operating system in which every write succeeds *)
Module Disk.

Definition write_file (name content : string) (o : unit) : bool * unit := (true, tt).
Definition print (text : string) (o : unit) : bool * unit := (true, tt).

(** a stand-in for the serializer: the companies, one per line *)
Definition json_dump (alerts : list alert) : string :=
  join newline (map company alerts).

Definition quit (w : list Script.response) : result unit * list Script.response :=
  (Return tt, []).

End Disk.

(** the three texts of an alert have no blank at either end *)
Definition trimmed_alert (a : alert) : Prop :=
  strip (company a) = company a /\ strip (date a) = date a /\
  strip (action a) = action a.

(** CareEdge: the page opens, the list of recent ratings is there at height
    [k], it grows [n] times under the scrolling, and the page is then read *)
Definition careedge_script (n : nat) (k : Z) (page : node) : list Script.response :=
  Script.RNone :: Script.RElement 4 :: Script.RJs (JsNum k)
  :: app (growing k n) [Script.RPage page].

(** the locals bound to the three values of a record *)
Definition bound_locals (c s d : string) : nse_locals :=
  {| company_name := Some c; subject := Some s; date_text := Some d |}.

(** the alert the NSE loop appends for the values [c], [s] and [d] *)
Definition nse_alert (today : datetime) (segment c s d : string) : alert :=
  {| agency := "NSE (" ++ segment ++ ")"; company := c; date := d; action := s;
     timestamp := isoformat today |}.

(** one pass of the NSE scraper over the records of the page it parsed; a
    pass that parsed no page leaves the locals and the alerts as they are *)
Definition nse_pass (today : datetime) (segment : string) (page : option node)
  (st : nse_locals * list alert) : nse_locals * list alert :=
  match page with
  | Some soup => nse_rows today segment (nse_candidates soup) st
  | None => st
  end.

(** what the NSE scraper returns: the alerts the Debt pass leaves, started
    from the locals and the alerts the Equity pass left, itself started from
    unbound locals and no alert; and the pages parsed, latest first *)
Definition nse_outcome (today : datetime) {W} (s : system W)
  (o : outcome (list alert)) (s' : system W) : Prop :=
  exists recent equity debt,
    o = Done (Return (snd (nse_pass today "Debt" debt
                             (nse_pass today "Equity" equity (nse_unbound, []))))) /\
    history s' = app recent (history s) /\
    snapshots recent = app (option_list debt) (option_list equity).

(** the session after an older history [h] *)
Definition rebase {W} (h : list event) (s : system W) : system W :=
  {| driver := driver s; history := app (history s) h |}.

(** the computation does not read the history: after an older history it
    gives what it gives without it, and leaves its calls in front of it *)
Definition framed {W A} (m : M W A) : Prop :=
  forall (s : system W) (h : list event),
    m (rebase h s) = (fst (m s), rebase h (snd (m s))).

(* ================================================================== *)
(** * Properties of the string operations *)

Section StringFacts.

Lemma append_nil_r (s : string) : s ++ "" = s.
Proof. induction s; simpl; congruence. Qed.

Lemma append_assoc (a b c : string) : (a ++ b) ++ c = a ++ (b ++ c).
Proof. induction a; simpl; congruence. Qed.

Lemma prefix_app (v b : string) : prefix v (v ++ b) = true.
Proof.
  induction v as [|c v IH]; simpl; [destruct b; reflexivity|].
  destruct (ascii_dec c c); [exact IH | congruence].
Qed.

Lemma prefix_split (v s : string) :
  prefix v s = true -> exists b, s = v ++ b.
Proof.
  revert s; induction v as [|c v IH]; intros s H.
  - exists s; reflexivity.
  - destruct s as [|d s]; simpl in H; [discriminate|].
    destruct (ascii_dec c d) as [->|]; [|discriminate].
    destruct (IH _ H) as [b ->]. exists b; reflexivity.
Qed.

Lemma contains_unfold (sub s : string) :
  contains sub s =
  prefix sub s || match s with EmptyString => false | String _ s' => contains sub s' end.
Proof. destruct s; reflexivity. Qed.

Lemma contains_app (a v b : string) : contains v (a ++ v ++ b) = true.
Proof.
  induction a as [|c a IH]; simpl.
  - rewrite contains_unfold, prefix_app; reflexivity.
  - rewrite IH; apply orb_true_r.
Qed.

Lemma contains_split (v s : string) :
  contains v s = true -> exists a b, s = a ++ v ++ b.
Proof.
  induction s as [|c s IH]; intros H.
  - destruct v; [exists "", ""; reflexivity | discriminate].
  - rewrite contains_unfold in H. apply orb_true_iff in H as [H|H].
    + destruct (prefix_split _ _ H) as [b Hb]. exists "", b; exact Hb.
    + destruct (IH H) as (a & b & ->). exists (String c a), b; reflexivity.
Qed.

Lemma contains_iff (v s : string) :
  contains v s = true <-> exists a b, s = a ++ v ++ b.
Proof.
  split; [apply contains_split|].
  intros (a & b & ->); apply contains_app.
Qed.

(** a substring of a substring *)
Lemma contains_trans (u v s : string) :
  contains u v = true -> contains v s = true -> contains u s = true.
Proof.
  intros Huv Hvs.
  apply contains_split in Huv as (a & b & ->).
  apply contains_split in Hvs as (c & d & ->).
  apply contains_iff. exists (c ++ a), (b ++ d).
  now rewrite !append_assoc.
Qed.

Lemma contains_nonempty (v : string) : truthy v = true -> contains v "" = false.
Proof. destruct v; [discriminate | reflexivity]. Qed.

Lemma truthy_app_r (a b : string) : truthy b = true -> truthy (a ++ b) = true.
Proof. destruct a; simpl; auto. Qed.

Lemma lstrip_all_space (s : string) : all_space s = true -> lstrip s = "".
Proof.
  unfold all_space. induction s as [|c s IH]; simpl; [reflexivity|].
  intros H; apply andb_true_iff in H as [Hc Hs]. rewrite Hc; auto.
Qed.

Lemma strip_all_space (s : string) : all_space s = true -> strip s = "".
Proof. intros H; unfold strip; now rewrite lstrip_all_space. Qed.

Lemma lstrip_keeps (pre rest : string) (c : ascii) :
  is_space c = false ->
  exists pre', lstrip (pre ++ String c rest) = pre' ++ String c rest.
Proof.
  intros Hc. induction pre as [|d pre IH]; simpl.
  - rewrite Hc. exists ""; reflexivity.
  - destruct (is_space d); [exact IH|].
    exists (String d pre); reflexivity.
Qed.

Lemma rstrip_keeps (a post : string) (c : ascii) :
  is_space c = false ->
  exists post', rstrip (a ++ String c post) = a ++ String c post'.
Proof.
  intros Hc. induction a as [|d a IH]; simpl.
  - destruct (rstrip post) as [|e r]; [rewrite Hc; exists "" | exists (String e r)];
      reflexivity.
  - destruct IH as [post' ->]. exists post'.
    destruct a; reflexivity.
Qed.

Lemma remove_char_app (c : ascii) (a b : string) :
  remove_char c (a ++ b) = remove_char c a ++ remove_char c b.
Proof.
  induction a as [|d a IH]; simpl; [reflexivity|].
  destruct (Ascii.eqb d c); simpl; congruence.
Qed.

Lemma remove_char_absent (c : ascii) (v : string) :
  no_char c v = true -> remove_char c v = v.
Proof.
  unfold no_char. induction v as [|d v IH]; simpl; [reflexivity|].
  intros H; apply andb_true_iff in H as [Hd Hv].
  apply negb_true_iff in Hd. rewrite Hd, IH; auto.
Qed.

Lemma last_char_split (s : string) (c : ascii) :
  last_char s = Some c -> exists s0, s = s0 ++ String c "".
Proof.
  induction s as [|d s IH]; simpl; [discriminate|].
  destruct s as [|e s].
  - intros [= ->]. exists ""; reflexivity.
  - intros H. destruct (IH H) as [s0 Hs0]. exists (String d s0).
    simpl. now rewrite <- Hs0.
Qed.

Lemma solid_survives (v pre post : string) :
  solid v ->
  contains v (remove_char "," (strip (pre ++ v ++ post))) = true.
Proof.
  intros ((c & r & Hv & Hc) & (d & Hlast & Hd) & Hcomma).
  unfold strip.
  destruct (lstrip_keeps pre (r ++ post) c Hc) as [pre' Hl].
  replace (pre ++ v ++ post) with (pre ++ String c (r ++ post))
    by (rewrite Hv; reflexivity).
  rewrite Hl.
  replace (pre' ++ String c (r ++ post)) with (pre' ++ v ++ post)
    by (rewrite Hv; reflexivity).
  destruct (last_char_split _ Hlast) as [v0 Hv0].
  destruct (rstrip_keeps (pre' ++ v0) post d Hd) as [post' Hr].
  assert (E : forall p, pre' ++ v ++ p = (pre' ++ v0) ++ String d p).
  { intros p. rewrite Hv0, !append_assoc. reflexivity. }
  rewrite E, Hr, <- E.
  rewrite !remove_char_app, (remove_char_absent _ _ Hcomma).
  apply contains_app.
Qed.

Lemma solid_truthy (v : string) : solid v -> truthy v = true.
Proof. intros ((c & r & -> & _) & _); reflexivity. Qed.

Lemma digit_not_space (n : nat) : is_space (digit n) = false.
Proof.
  unfold digit.
  destruct (n mod 10) as [|[|[|[|[|[|[|[|[|k]]]]]]]]]; reflexivity.
Qed.

Lemma digit_not_comma (n : nat) : Ascii.eqb (digit n) "," = false.
Proof.
  unfold digit.
  destruct (n mod 10) as [|[|[|[|[|[|[|[|[|k]]]]]]]]]; reflexivity.
Qed.

Lemma today_formats_solid (today : datetime) (v : string) :
  In v (today_formats today) -> solid v.
Proof.
  unfold today_formats, fmt_dd_mm_yyyy, fmt_yyyy_mm_dd, fmt_dd_mm_yyyy_slash,
    fmt_mm_dd_yyyy_slash, fmt_dd_mmm_yyyy, fmt_dd_mmm_yyyy_space,
    fmt_dd_month_yyyy, two_digits, four_digits.
  intros H; simpl in H.
  repeat (destruct H as [<-|H]; [|]); try contradiction;
    (split; [eexists _, _; split; [reflexivity | apply digit_not_space]|]);
    destruct (month today) as [|[|[|[|[|[|[|[|[|[|[|[|[|m]]]]]]]]]]]]];
    (split; [eexists; split; [reflexivity | apply digit_not_space]|]);
    unfold no_char; simpl; rewrite ?digit_not_comma; reflexivity.
Qed.

End StringFacts.

(* ================================================================== *)
(** * The date matcher *)

Section DateFacts.

Variable today : datetime.

Lemma is_today_date_iff (s : string) :
  is_today_date today s = true <->
  exists v, In v (today_formats today) /\
            contains v (remove_char "," (strip s)) = true.
Proof.
  unfold is_today_date. destruct s as [|c s].
  - simpl negb. cbv iota. split; [discriminate|].
    intros (v & Hin & Hc). change (strip "") with "" in Hc. simpl remove_char in Hc.
    rewrite contains_nonempty in Hc; [discriminate|].
    eapply solid_truthy, today_formats_solid; exact Hin.
  - simpl negb. cbv iota zeta. rewrite existsb_exists. reflexivity.
Qed.

Lemma is_today_date_blank (s : string) :
  all_space s = true -> is_today_date today s = false.
Proof.
  intros Hs. destruct (is_today_date today s) eqn:E; [|reflexivity].
  apply is_today_date_iff in E as (v & Hin & Hc).
  rewrite strip_all_space in Hc by assumption.
  change (remove_char "," "") with "" in Hc.
  rewrite contains_nonempty in Hc; [discriminate|].
  eapply solid_truthy, today_formats_solid; exact Hin.
Qed.

Lemma is_today_date_embedded (v pre post : string) :
  In v (today_formats today) -> is_today_date today (pre ++ v ++ post) = true.
Proof.
  intros Hin. apply is_today_date_iff. exists v. split; [exact Hin|].
  eapply solid_survives, today_formats_solid; exact Hin.
Qed.

Lemma is_today_date_current : is_today_date today (fmt_dd_mm_yyyy_slash today) = true.
Proof.
  rewrite <- (append_nil_r (fmt_dd_mm_yyyy_slash today)).
  apply is_today_date_embedded with (pre := "") (post := "").
  simpl. auto.
Qed.

End DateFacts.

Example today_formats_nov3 :
  today_formats Sample.nov3 =
  ["03-11-2026"; "2026-11-03"; "03/11/2026"; "11/03/2026"; "03-Nov-2026";
   "03 Nov 2026"; "03 November 2026"].
Proof. reflexivity. Qed.

Example is_today_nov3_embedded :
  is_today_date Sample.nov3 "  Tue, 03 Nov, 2026 10:15 IST " = true.
Proof. reflexivity. Qed.

Example is_today_nov3_last_year :
  is_today_date Sample.nov3 "03-11-2025" = false.
Proof. reflexivity. Qed.

(** the zero-padded fields of the code are the decimal numerals of the
    specification, padded with zeros *)
Lemma two_digits_padded (n : nat) :
  (n < 100)%nat -> two_digits n = SpecDate.padded 2 n.
Proof.
  intros H.
  assert (A : forallb (fun n => String.eqb (two_digits n) (SpecDate.padded 2 n))
                      (seq 0 100) = true) by (vm_compute; reflexivity).
  rewrite forallb_forall in A. apply String.eqb_eq, A, in_seq. lia.
Qed.

Lemma four_digits_padded (n : nat) :
  (n < 100 * 100)%nat -> four_digits n = SpecDate.padded 4 n.
Proof.
  intros H.
  assert (A : forallb (fun n => String.eqb (four_digits n) (SpecDate.padded 4 n))
                      (seq 0 (100 * 100)) = true) by (vm_compute; reflexivity).
  rewrite forallb_forall in A. apply String.eqb_eq, A, in_seq. lia.
Qed.

Lemma month_of_year (m : nat) :
  (1 <= m <= 12)%nat ->
  month_abbr m = nth (m - 1) SpecDate.abbreviations "" /\
  month_name m = nth (m - 1) SpecDate.names "".
Proof.
  intros H.
  do 13 (destruct m as [|m]; [split; reflexivity || lia|]). lia.
Qed.

(** on a calendar date the list of the code holds the seven renderings the
    specification names, in the order it names them *)
Lemma today_formats_renderings (today : datetime) :
  valid_date today -> today_formats today = SpecDate.renderings today.
Proof.
  intros (Hy & Hm & Hd).
  unfold today_formats, SpecDate.renderings, fmt_dd_mm_yyyy, fmt_yyyy_mm_dd,
    fmt_dd_mm_yyyy_slash, fmt_mm_dd_yyyy_slash, fmt_dd_mmm_yyyy,
    fmt_dd_mmm_yyyy_space, fmt_dd_month_yyyy,
    SpecDate.DD, SpecDate.MM, SpecDate.YYYY, SpecDate.Mon, SpecDate.Month.
  destruct (month_of_year Hm) as [Ea En].
  rewrite <- Ea, <- En.
  rewrite <- (two_digits_padded (n := day today)) by lia.
  rewrite <- (two_digits_padded (n := month today)) by lia.
  rewrite <- (four_digits_padded (n := year today)) by lia.
  reflexivity.
Qed.

(** C2: [is_today_date] is false on the empty text and on a text of blanks
    only; and, today being a calendar date, it is true on a text exactly
    when the text, stripped and with its commas removed, contains one of the
    seven renderings of today that the specification names: DD-MM-YYYY,
    YYYY-MM-DD, DD/MM/YYYY, MM/DD/YYYY, DD-Mon-YYYY, DD Mon YYYY and
    DD Month YYYY; and it is true whenever one of the seven stands anywhere
    inside the text. *)
Theorem is_today_date_spec (today : datetime) :
  is_today_date today "" = false /\
  (forall s, all_space s = true -> is_today_date today s = false) /\
  (valid_date today ->
   (forall s, is_today_date today s = true <->
              exists v, In v (SpecDate.renderings today) /\
                        contains v (remove_char "," (strip s)) = true) /\
   (forall v pre post, In v (SpecDate.renderings today) ->
                       is_today_date today (pre ++ v ++ post) = true)).
Proof.
  split; [reflexivity|]. split; [apply is_today_date_blank|].
  intros Hv. rewrite <- (today_formats_renderings Hv).
  split; [apply is_today_date_iff | apply is_today_date_embedded].
Qed.

Lemma is_today_date_spec_witness :
  valid_date Sample.nov3 /\
  SpecDate.renderings Sample.nov3 =
  ["03-11-2026"; "2026-11-03"; "03/11/2026"; "11/03/2026"; "03-Nov-2026";
   "03 Nov 2026"; "03 November 2026"] /\
  is_today_date Sample.nov3 ("Rated on " ++ "03 Nov 2026" ++ ", by the committee")
  = true.
Proof.
  assert (Hv : valid_date Sample.nov3) by (unfold valid_date; simpl; lia).
  split; [exact Hv|]. split; [reflexivity|].
  apply (proj2 (proj2 (proj2 (is_today_date_spec Sample.nov3)) Hv)).
  simpl; auto 10.
Defined.

(* ================================================================== *)
(** * The field extractor *)

Section ExtractorFacts.

Lemma node_induction (P : node -> Prop) :
  (forall s, P (NavigableString s)) ->
  (forall nm cls cs, Forall P cs -> P (Tag nm cls cs)) ->
  forall n, P n.
Proof.
  intros HS HT. fix IH 1. intros [s|nm cls cs]; [apply HS|].
  apply HT. induction cs as [|c r IHr]; constructor; [apply IH | exact IHr].
Qed.

Lemma descendants_Tag (nm : string) (cls : list string) (cs : list node) :
  descendants (Tag nm cls cs) = flat_map (fun c => c :: descendants c) cs.
Proof.
  simpl. induction cs as [|c r IH]; [reflexivity|].
  simpl. now rewrite IH.
Qed.

Lemma descendants_trans (e d x : node) :
  In d (descendants e) -> In x (descendants d) -> In x (descendants e).
Proof.
  induction e as [s|nm cls cs IH] using node_induction; [contradiction|].
  rewrite descendants_Tag. intros Hd Hx.
  apply in_flat_map in Hd as (c & Hc & Hd). apply in_flat_map.
  exists c. split; [exact Hc|]. right.
  destruct Hd as [<-|Hd]; [exact Hx|].
  rewrite Forall_forall in IH. exact (IH c Hc Hd Hx).
Qed.

Lemma tag_string_descendant (d : node) (s : string) :
  tag_string d = Some s ->
  d = NavigableString s \/ In (NavigableString s) (descendants d).
Proof.
  induction d as [t|nm cls cs IH] using node_induction.
  - simpl. intros [= ->]. left; reflexivity.
  - destruct cs as [|c [|c' r]]; try discriminate.
    intros H. change (tag_string c = Some s) in H.
    right. apply Forall_inv in IH.
    rewrite descendants_Tag. simpl. rewrite app_nil_r.
    destruct (IH H) as [->|Hin]; [left; reflexivity | right; exact Hin].
Qed.

Lemma find_first_total (p : node -> result bool) (q : node -> bool) (l : list node) :
  (forall d, In d l -> p d = Return (q d)) ->
  find_first p l = Return (find q l).
Proof.
  induction l as [|d r IH]; intros H; simpl; [reflexivity|].
  rewrite (H d (or_introl eq_refl)). simpl.
  destruct (q d); [reflexivity|]. apply IH. intros; apply H; right; assumption.
Qed.

Lemma exists_first_total (q : string -> bool) (p : string -> result bool) (l : list string) :
  (forall x, p x = Return (q x)) ->
  exists_first p l = Return (existsb q l).
Proof.
  intros H. induction l as [|x r IH]; simpl; [reflexivity|].
  rewrite H. simpl. destruct (q x); [reflexivity | exact IH].
Qed.

Lemma hint_lambda_string (h x : string) :
  hint_lambda (PyString h) x = Return (truthy x && contains h (lower x)).
Proof. unfold hint_lambda. destruct (truthy x); reflexivity. Qed.

Lemma lower_app (a b : string) : lower (a ++ b) = lower a ++ lower b.
Proof. induction a; simpl; congruence. Qed.

Lemma lower_fixed (h : string) : no_upper h = true -> lower h = h.
Proof.
  unfold no_upper. induction h as [|c h IH]; simpl; [reflexivity|].
  intros H; apply andb_true_iff in H as [Hc Hh].
  unfold lower_char. apply negb_true_iff in Hc. rewrite Hc, IH; auto.
Qed.

Lemma join_member (sep c : string) (l : list string) :
  In c l -> exists a b, join sep l = a ++ c ++ b.
Proof.
  induction l as [|x r IH]; [contradiction|].
  intros [->|Hin].
  - destruct r as [|y r]; simpl.
    + exists "", "". simpl. now rewrite append_nil_r.
    + exists "", (sep ++ join sep (y :: r)). reflexivity.
  - destruct (IH Hin) as (a & b & E). destruct r as [|y r]; [contradiction|].
    exists (x ++ sep ++ a), b.
    change (join sep (x :: y :: r)) with (x ++ sep ++ join sep (y :: r)).
    rewrite E, !append_assoc. reflexivity.
Qed.

Lemma contains_truthy (h s : string) :
  truthy h = true -> contains h s = true -> truthy s = true.
Proof.
  intros Hh Hc. destruct s; [|reflexivity].
  rewrite contains_nonempty in Hc by assumption. discriminate.
Qed.

Lemma lower_truthy (s : string) : truthy (lower s) = truthy s.
Proof. destruct s; reflexivity. Qed.

Lemma contains_empty (s : string) : contains "" s = true.
Proof. destruct s; reflexivity. Qed.

(** the callable matched against the class values decides whether the
    element has a class whose joined value contains the hint, when the hint
    is not empty or no class value is *)
Lemma class_matches_string (h : string) (cls : list string) :
  truthy h = true \/ forallb truthy cls = true ->
  class_matches (PyString h) cls =
  Return (match cls with
          | [] => false
          | _ => contains h (lower (join " " cls))
          end).
Proof.
  intros Hh. unfold class_matches.
  rewrite (exists_first_total (fun x => truthy x && contains h (lower x)))
    by (intros; apply hint_lambda_string).
  simpl. rewrite hint_lambda_string.
  destruct (existsb _ cls) eqn:E.
  - apply existsb_exists in E as (c & Hc & Hm).
    apply andb_true_iff in Hm as [_ Hm].
    destruct (join_member " " c cls Hc) as (a & b & E).
    destruct cls as [|c0 r]; [contradiction|].
    rewrite E, !lower_app. symmetry. f_equal.
    eapply contains_trans; [exact Hm | apply contains_app].
  - destruct cls as [|c0 r]; [reflexivity|].
    assert (Hh' : truthy h = true).
    { destruct h as [|x h]; [|reflexivity].
      destruct Hh as [Hh|Hh]; [exact Hh|]. simpl in E, Hh.
      apply andb_true_iff in Hh as [Hc0 _]. rewrite Hc0 in E.
      rewrite contains_empty in E. discriminate. }
    destruct (contains h (lower (join " " (c0 :: r)))) eqn:Ec.
    + rewrite <- lower_truthy, (contains_truthy _ _ Hh' Ec). reflexivity.
    + now rewrite andb_false_r.
Qed.

Lemma text_lambda_string (h s : string) :
  truthy h = true \/ truthy s = true ->
  hint_lambda (PyString h) s = Return (contains h (lower s)).
Proof.
  intros Hh. rewrite hint_lambda_string.
  destruct Hh as [Hh|Hs]; [|now rewrite Hs].
  destruct (contains h (lower s)) eqn:Ec.
  - rewrite <- lower_truthy, (contains_truthy _ _ Hh Ec). reflexivity.
  - now rewrite andb_false_r.
Qed.

Lemma find_none_iff {A} (q : A -> bool) (l : list A) :
  find q l = None <-> forall x, In x l -> q x = false.
Proof.
  split; [apply find_none|].
  induction l as [|x r IH]; simpl; intros H; [reflexivity|].
  rewrite (H x (or_introl eq_refl)). apply IH; intros; apply H; right; assumption.
Qed.

(** once no descendant text node contains the hint, no descendant element
    has an own text that contains it: the third matcher finds nothing that
    the second has not found *)
Lemma own_text_after_text (q : string -> bool) (element d : node) (s : string) :
  (forall x, In x (descendants element) ->
             match x with NavigableString t => q t | Tag _ _ _ => false end = false) ->
  In d (descendants element) ->
  tag_string d = Some s ->
  q s = false.
Proof.
  intros Hnone Hd Hs.
  destruct (tag_string_descendant d Hs) as [->|Hin].
  - exact (Hnone _ Hd).
  - exact (Hnone _ (descendants_trans _ _ _ Hd Hin)).
Qed.

Lemma try_tags_none (h : string) (element : node) (tags : list string) :
  find_by_string (PyString h) element = Return None ->
  try_tags tags (PyString h) element = Return None.
Proof.
  unfold find_by_string.
  rewrite (find_first_total _
             (fun d => match d with
                       | NavigableString s => truthy s && contains h (lower s)
                       | Tag _ _ _ => false
                       end)).
  2:{ intros d _. destruct d; [apply hint_lambda_string | reflexivity]. }
  intros Hnone. injection Hnone as Hnone. rewrite find_none_iff in Hnone.
  induction tags as [|tag rest IH]; simpl; [reflexivity|].
  unfold find_by_tag_string.
  rewrite (find_first_total _ (fun _ => false)).
  - replace (find (fun _ : node => false) (descendants element)) with (@None node).
    + simpl. exact IH.
    + symmetry. apply find_none_iff. reflexivity.
  - intros d Hd. destruct d as [s|nm cls cs]; [reflexivity|].
    destruct (String.eqb nm tag); [|reflexivity].
    destruct (tag_string (Tag nm cls cs)) as [s|] eqn:Es; [|reflexivity].
    simpl. rewrite hint_lambda_string. f_equal.
    exact (own_text_after_text (fun t => truthy t && contains h (lower t)) _ _ Hnone Hd Es).
Qed.

Lemma get_text_strip_string (s : string) :
  get_text_strip (NavigableString s) = strip s.
Proof.
  unfold get_text_strip. simpl. destruct (strip s); reflexivity.
Qed.

(** one hint of the code against one hint of the specification *)
Lemma try_selector_first_match (h : string) (element : node) :
  no_upper h = true ->
  parsed element = true \/ truthy h = true ->
  try_selector element (PyString h) =
  match element with
  | NavigableString _ => Raise TypeError
  | Tag _ _ _ => Return (option_map get_text_strip (Spec.first_match h element))
  end.
Proof.
  intros Hlow Hp. destruct element as [t|nm cls cs]; [reflexivity|].
  unfold parsed in Hp.
  unfold try_selector, Spec.first_match, find_by_class.
  assert (Etext : find_by_string (PyString h) (Tag nm cls cs)
                  = Return (find (Spec.text_contains h) (descendants (Tag nm cls cs)))).
  { unfold find_by_string. apply find_first_total.
    intros d Hd. destruct d as [s|n c k]; [|reflexivity].
    cbv beta iota. unfold Spec.text_contains, Spec.contains_ci.
    rewrite (lower_fixed _ Hlow). apply text_lambda_string.
    destruct Hp as [Hp|Hh]; [right | left; exact Hh].
    rewrite forallb_forall in Hp. exact (Hp _ Hd). }
  remember (descendants (Tag nm cls cs)) as ds eqn:Eds.
  rewrite (find_first_total _ (Spec.class_contains h)).
  2:{ intros d Hd. destruct d as [s|n c k]; [reflexivity|].
      cbv beta iota. unfold Spec.class_contains, Spec.contains_ci.
      rewrite (lower_fixed _ Hlow). rewrite class_matches_string.
      - destruct c; reflexivity.
      - destruct Hp as [Hp|Hh]; [right | left; exact Hh].
        rewrite forallb_forall in Hp. exact (Hp _ Hd). }
  unfold bindE at 1.
  destruct (find (Spec.class_contains h) ds) as [f|] eqn:E1.
  - apply find_some in E1 as [_ E1].
    destruct f as [s|n c k]; [discriminate|]. reflexivity.
  - rewrite Etext. unfold bindE at 1.
    destruct (find (Spec.text_contains h) ds) as [f|] eqn:E2.
    + apply find_some in E2 as [Hf E2].
      destruct f as [s|n c k]; [|discriminate].
      unfold Spec.text_contains, Spec.contains_ci in E2.
      rewrite (lower_fixed _ Hlow) in E2.
      assert (Hs : truthy s = true).
      { destruct Hp as [Hp|Hh].
        - rewrite forallb_forall in Hp. exact (Hp _ Hf).
        - rewrite <- lower_truthy. exact (contains_truthy _ _ Hh E2). }
      rewrite Hs. cbv beta iota. unfold option_map.
      now rewrite get_text_strip_string.
    + rewrite try_tags_none by (rewrite Etext; reflexivity).
      replace (find (Spec.own_text_contains h) ds) with (@None node);
        [reflexivity|].
      symmetry. apply find_none_iff. intros d Hd. rewrite Eds in Hd.
      destruct d as [s|n c k]; [reflexivity|]. unfold Spec.own_text_contains.
      destruct (tag_string (Tag n c k)) as [s|] eqn:Es; [|apply andb_false_r].
      rewrite find_none_iff in E2. rewrite Eds in E2.
      rewrite (own_text_after_text
                 (fun t => Spec.contains_ci h t) _ _
                 (fun x Hx => eq_trans
                    (match x as y return
                       match y with NavigableString t => Spec.contains_ci h t
                                  | Tag _ _ _ => false end = Spec.text_contains h y
                     with NavigableString _ => eq_refl | Tag _ _ _ => eq_refl end)
                    (E2 x Hx))
                 Hd Es).
      apply andb_false_r.
Qed.

End ExtractorFacts.

(** the tag-by-tag matcher of the field extractor never decides: when no
    text node of the fragment passes the hint's test, no element of the
    fragment has an own text that passes it, whatever the hint and the tags *)
Theorem tag_matcher_never_decides (h : string) (element : node) (tags : list string) :
  find_by_string (PyString h) element = Return None ->
  try_tags tags (PyString h) element = Return None.
Proof.
  unfold find_by_string.
  rewrite (find_first_total _
             (fun d => match d with
                       | NavigableString s => truthy s && contains h (lower s)
                       | Tag _ _ _ => false
                       end)).
  2:{ intros d _. destruct d; [apply hint_lambda_string | reflexivity]. }
  intros Hnone. injection Hnone as Hnone. rewrite find_none_iff in Hnone.
  induction tags as [|tag rest IH]; simpl; [reflexivity|].
  unfold find_by_tag_string.
  rewrite (find_first_total _ (fun _ => false)).
  - replace (find (fun _ : node => false) (descendants element)) with (@None node).
    + simpl. exact IH.
    + symmetry. apply find_none_iff. reflexivity.
  - intros d Hd. destruct d as [s|nm cls cs]; [reflexivity|].
    destruct (String.eqb nm tag); [|reflexivity].
    destruct (tag_string (Tag nm cls cs)) as [s|] eqn:Es; [|reflexivity].
    simpl. rewrite hint_lambda_string. f_equal.
    exact (own_text_after_text (fun t => truthy t && contains h (lower t)) _ _ Hnone Hd Es).
Qed.

Lemma tag_matcher_never_decides_witness :
  find_by_string (PyString "rating") (Sample.tr [] [Sample.td ["date"] "03/11/2026"])
  = Return None /\
  try_tags text_tags (PyString "rating") (Sample.tr [] [Sample.td ["date"] "03/11/2026"])
  = Return None.
Proof.
  split; [reflexivity|].
  apply (tag_matcher_never_decides "rating"
           (Sample.tr [] [Sample.td ["date"] "03/11/2026"]) text_tags).
  reflexivity.
Defined.

Example extract_card_company :
  extract_text_from_element Sample.card (hints ["company"; "entity"; "name"])
  = Return "ACME Ltd".
Proof. reflexivity. Qed.

Example extract_skips_faulty_hint :
  try_selector Sample.card (PyInt 7) = Raise TypeError /\
  extract_text_from_element Sample.card [PyInt 7; PyNone; PyString "date"]
  = Return "03/11/2026 10:15".
Proof. split; reflexivity. Qed.

Example extract_no_match :
  extract_text_from_element Sample.card (hints ["symbol"; "title"]) = Return "".
Proof. reflexivity. Qed.

(** C5, as amended: for every fragment as the parser builds it and every
    ordered list of hints without upper-case letters, the empty hint
    included, [extract_text_from_element] returns what the specification's
    three matchers return: per hint, in order, the first descendant element
    whose class contains the hint, else the first descendant text node that
    contains it, else the first descendant span/div/td/p/a whose own text
    contains it, compared without regard to case; the trimmed text of that
    match; the empty string when no hint matches.  When no hint is empty
    the same holds of every tree, parsed or not. *)
Theorem extract_text_refines_spec (fragment : node) (hint_list : list string) :
  forallb no_upper hint_list = true ->
  parsed fragment = true \/ forallb truthy hint_list = true ->
  extract_text_from_element fragment (hints hint_list)
  = Return (Spec.extract fragment hint_list).
Proof.
  induction hint_list as [|h rest IH]; intros Hlow Hp; [reflexivity|].
  simpl in Hlow. apply andb_true_iff in Hlow as [Hh Hrest].
  assert (Hp1 : parsed fragment = true \/ truthy h = true).
  { destruct Hp as [Hp|Hp]; [left; exact Hp | right].
    simpl in Hp. now apply andb_true_iff in Hp as [Hp _]. }
  assert (Hp2 : parsed fragment = true \/ forallb truthy rest = true).
  { destruct Hp as [Hp|Hp]; [left; exact Hp | right].
    simpl in Hp. now apply andb_true_iff in Hp as [_ Hp]. }
  change (hints (h :: rest)) with (PyString h :: hints rest).
  cbn [extract_text_from_element Spec.extract].
  rewrite (try_selector_first_match h fragment Hh Hp1).
  destruct fragment as [t|nm cls cs].
  - rewrite (IH Hrest Hp2). reflexivity.
  - destruct (Spec.first_match h (Tag nm cls cs)) as [d|]; [reflexivity|].
    cbn [option_map]. exact (IH Hrest Hp2).
Qed.

Lemma extract_text_refines_spec_witness :
  extract_text_from_element Sample.card (hints [""; "company"; "entity"])
  = Return (Spec.extract Sample.card [""; "company"; "entity"]).
Proof.
  apply extract_text_refines_spec; [reflexivity | left; reflexivity].
Defined.

(** the empty hint is in every class value and in every text: it finds the
    first element of the fragment that has a class, and, in a fragment
    without classes, the first text *)
Example extract_empty_hint :
  extract_text_from_element Sample.card (hints [""]) = Return "ACME Ltd" /\
  Spec.extract Sample.card [""] = "ACME Ltd" /\
  extract_text_from_element
    (Tag "div" [] [Tag "p" [] [NavigableString " x "]; NavigableString "y"])
    (hints [""]) = Return "x" /\
  Spec.extract
    (Tag "div" [] [Tag "p" [] [NavigableString " x "]; NavigableString "y"])
    [""] = "x".
Proof. repeat split; reflexivity. Qed.

(** an empty text node, which no parser builds, is passed over by the code
    and taken by the specification's second matcher for the empty hint *)
Example extract_empty_hint_empty_text :
  parsed (Tag "div" [] [NavigableString ""; NavigableString "y"]) = false /\
  extract_text_from_element
    (Tag "div" [] [NavigableString ""; NavigableString "y"]) (hints [""])
  = Return "y" /\
  Spec.extract (Tag "div" [] [NavigableString ""; NavigableString "y"]) [""] = "".
Proof. repeat split; reflexivity. Qed.

(** C5 fails as stated on a hint with an upper-case letter: the code lowers
    the class value and the text but not the hint, so the hint "Company"
    finds nothing in a card whose class is "company", where a comparison
    without regard to case finds the company. *)
Lemma extract_text_upper_hint_counterexample :
  extract_text_from_element Sample.card (hints ["Company"])
  <> Return (Spec.extract Sample.card ["Company"]).
Proof. vm_compute. discriminate. Qed.

Example extract_upper_hint_values :
  extract_text_from_element Sample.card (hints ["Company"]) = Return "" /\
  Spec.extract Sample.card ["Company"] = "ACME Ltd".
Proof. split; reflexivity. Qed.

(** C6: the field extractor never raises.  Whatever the fragment and
    whatever the hints (strings or not), it returns a text; and when every
    hint either faults or finds nothing, that text is the empty string. *)
Theorem extract_text_never_raises :
  (forall element selectors,
      exists text, extract_text_from_element element selectors = Return text) /\
  (forall element selectors,
      (forall selector text, In selector selectors ->
                             try_selector element selector <> Return (Some text)) ->
      extract_text_from_element element selectors = Return "").
Proof.
  split.
  - intros element selectors.
    induction selectors as [|selector rest IH]; simpl; [exists ""; reflexivity|].
    destruct (try_selector element selector) as [[text|]|e];
      [exists text; reflexivity | exact IH | exact IH].
  - intros element selectors.
    induction selectors as [|selector rest IH]; intros H; simpl; [reflexivity|].
    destruct (try_selector element selector) as [[text|]|e] eqn:E.
    + exfalso. exact (H selector text (or_introl eq_refl) E).
    + apply IH. intros s t Hin. apply H. right; exact Hin.
    + apply IH. intros s t Hin. apply H. right; exact Hin.
Qed.

(* ================================================================== *)
(** * The report *)

Section ReportFacts.

Lemma dict_mem_set (k : string) (v : list alert) (d : agency_dict) :
  dict_mem k (dict_set k v d) = true.
Proof.
  induction d as [|[k' v'] r IH]; simpl.
  - now rewrite String.eqb_refl.
  - destruct (String.eqb k' k) eqn:E; simpl; rewrite E; [reflexivity | exact IH].
Qed.

Lemma dict_set_absent (k : string) (v : list alert) (d : agency_dict) :
  dict_mem k d = false -> dict_set k v d = (d ++ [(k, v)])%list.
Proof.
  induction d as [|[k' v'] r IH]; simpl; [reflexivity|].
  destruct (String.eqb k' k); simpl; [discriminate|].
  intros H. now rewrite IH.
Qed.

Lemma dict_append_absent (k : string) (a : alert) (d : agency_dict) :
  dict_mem k d = false -> dict_append k a d = d.
Proof.
  induction d as [|[k' v'] r IH]; simpl; [reflexivity|].
  destruct (String.eqb k' k); simpl; [discriminate|].
  intros H. now rewrite IH.
Qed.

Lemma dict_append_app (k : string) (a : alert) (d e : agency_dict) :
  dict_mem k d = false ->
  dict_append k a (app d e) = app d (dict_append k a e).
Proof.
  induction d as [|[k' v'] r IH]; simpl; [reflexivity|].
  destruct (String.eqb k' k); simpl; [discriminate|].
  intros H. now rewrite IH.
Qed.

(** with distinct keys, appending under a key touches every entry of that
    key, there being at most one *)
Lemma dict_append_nodup (k : string) (a : alert) (d : agency_dict) :
  NoDup (map fst d) ->
  dict_append k a d =
  map (fun kv => if String.eqb (fst kv) k then (fst kv, append (snd kv) a) else kv) d.
Proof.
  induction d as [|[k' v'] r IH]; simpl; [reflexivity|].
  intros Hnd. inversion Hnd as [|? ? Hnotin Hnd']; subst.
  destruct (String.eqb k' k) eqn:E.
  - apply String.eqb_eq in E; subst k'. f_equal.
    transitivity (map (fun kv : string * list alert => kv) r);
      [now rewrite map_id|].
    apply map_ext_in. intros [k2 v2] Hin. simpl.
    destruct (String.eqb k2 k) eqn:E2; [|reflexivity].
    apply String.eqb_eq in E2; subst k2. exfalso. apply Hnotin.
    apply in_map_iff. exists (k, v2). split; [reflexivity | exact Hin].
  - now rewrite IH.
Qed.

Lemma group_total_app (d e : agency_dict) :
  group_total (app d e) = group_total d + group_total e.
Proof. unfold group_total. now rewrite map_app, list_sum_app. Qed.

Lemma group_total_append (k : string) (a : alert) (d : agency_dict) :
  dict_mem k d = true -> group_total (dict_append k a d) = S (group_total d).
Proof.
  unfold group_total.
  induction d as [|[k' v'] r IH]; simpl; [discriminate|].
  destruct (String.eqb k' k); simpl.
  - intros _. unfold append. rewrite length_app. simpl. lia.
  - intros H. rewrite (IH H). lia.
Qed.

Lemma group_total_step (d : agency_dict) (a : alert) :
  group_total (group_step d a) = S (group_total d).
Proof.
  unfold group_step. destruct (dict_mem (agency a) d) eqn:E; simpl.
  - now apply group_total_append.
  - rewrite group_total_append by apply dict_mem_set.
    rewrite (dict_set_absent _ _ _ E), group_total_app.
    unfold group_total. simpl. lia.
Qed.

Lemma group_total_fold (alerts : list alert) (d : agency_dict) :
  group_total (fold_left group_step alerts d) = List.length alerts + group_total d.
Proof.
  revert d; induction alerts as [|a r IH]; intros d; simpl; [reflexivity|].
  rewrite IH, group_total_step. lia.
Qed.

Lemma first_seen_snoc (ks : list string) (k : string) :
  first_seen (app ks [k]) =
  app (first_seen ks) (if existsb (String.eqb k) ks then [] else [k]).
Proof.
  induction ks as [|x ks IH]; simpl; [reflexivity|].
  rewrite IH, filter_app. f_equal. f_equal.
  destruct (String.eqb k x) eqn:E; simpl.
  - destruct (existsb (String.eqb k) ks); simpl; [reflexivity|].
    now rewrite E.
  - destruct (existsb (String.eqb k) ks); simpl; [reflexivity|].
    now rewrite E.
Qed.

Lemma first_seen_In (ks : list string) (k : string) :
  In k (first_seen ks) <-> In k ks.
Proof.
  induction ks as [|x ks IH]; simpl; [tauto|].
  rewrite filter_In, IH, negb_true_iff, String.eqb_neq.
  destruct (string_dec x k); [tauto|]. split; [tauto|].
  intros [H|H]; [tauto|]. right. split; [exact H|congruence].
Qed.

Lemma first_seen_NoDup (ks : list string) : NoDup (first_seen ks).
Proof.
  induction ks as [|x ks IH]; simpl; constructor.
  - rewrite filter_In, String.eqb_refl. intros [_ H]; discriminate.
  - now apply NoDup_filter.
Qed.

Lemma alerts_of_absent (k : string) (alerts : list alert) :
  existsb (String.eqb k) (map agency alerts) = false -> alerts_of k alerts = [].
Proof.
  unfold alerts_of. induction alerts as [|a r IH]; simpl; [reflexivity|].
  intros H. apply orb_false_iff in H as [H1 H2].
  rewrite String.eqb_sym, H1. auto.
Qed.

Lemma spec_groups_keys (alerts : list alert) :
  map fst (spec_groups alerts) = first_seen (map agency alerts).
Proof. unfold spec_groups. rewrite map_map. simpl. apply map_id. Qed.

Lemma spec_groups_mem (alerts : list alert) (k : string) :
  dict_mem k (spec_groups alerts) = existsb (String.eqb k) (map agency alerts).
Proof.
  apply eq_true_iff_eq. unfold dict_mem. rewrite !existsb_exists. split.
  - intros ([k' v] & Hin & E). apply String.eqb_eq in E. simpl in E; subst k'.
    exists k. split; [|apply String.eqb_refl].
    apply first_seen_In. rewrite <- spec_groups_keys.
    apply in_map_iff. exists (k, v). split; [reflexivity | exact Hin].
  - intros (k' & Hin & E). apply String.eqb_eq in E; subst k'.
    exists (k, alerts_of k alerts). split; [|apply String.eqb_refl].
    unfold spec_groups. apply in_map_iff. exists k. split; [reflexivity|].
    now apply first_seen_In.
Qed.

Lemma spec_groups_snoc (alerts : list alert) (a : alert) :
  spec_groups (app alerts [a]) = group_step (spec_groups alerts) a.
Proof.
  unfold group_step. rewrite spec_groups_mem.
  unfold spec_groups at 1. rewrite map_app.
  change (map agency [a]) with [agency a].
  rewrite first_seen_snoc, map_app.
  destruct (existsb (String.eqb (agency a)) (map agency alerts)) eqn:E; simpl negb; cbv iota.
  - simpl. rewrite app_nil_r.
    rewrite dict_append_nodup
      by (rewrite spec_groups_keys; apply first_seen_NoDup).
    unfold spec_groups. rewrite map_map. apply map_ext. intros k. simpl.
    unfold alerts_of, append. rewrite filter_app. simpl.
    rewrite String.eqb_sym.
    destruct (String.eqb k (agency a)); [reflexivity | now rewrite app_nil_r].
  - assert (Hmem : dict_mem (agency a) (spec_groups alerts) = false)
      by (now rewrite spec_groups_mem).
    rewrite (dict_set_absent _ _ _ Hmem), (dict_append_app _ _ _ _ Hmem).
    simpl. rewrite String.eqb_refl. f_equal.
    + unfold spec_groups. apply map_ext_in. intros k Hk.
      unfold alerts_of. rewrite filter_app. simpl.
      destruct (String.eqb (agency a) k) eqn:Ek; [|now rewrite app_nil_r].
      apply String.eqb_eq in Ek; subst k. rewrite first_seen_In in Hk.
      assert (existsb (String.eqb (agency a)) (map agency alerts) = true)
        by (apply existsb_exists; exists (agency a); split;
            [exact Hk | apply String.eqb_refl]).
      congruence.
    + unfold alerts_of at 1. rewrite filter_app. simpl.
      rewrite String.eqb_refl. fold (alerts_of (agency a) alerts).
      now rewrite (alerts_of_absent _ _ E).
Qed.

Lemma group_by_agency_spec (alerts : list alert) :
  group_by_agency alerts = spec_groups alerts.
Proof.
  induction alerts as [|a r IH] using rev_ind; [reflexivity|].
  unfold group_by_agency in *. rewrite fold_left_app. simpl.
  now rewrite IH, spec_groups_snoc.
Qed.

End ReportFacts.

Example group_two_sources :
  map (fun g => (fst g, map company (snd g))) (group_by_agency two_sources)
  = [("ICRA", ["A"; "C"]); ("SEBI", ["B"])].
Proof. reflexivity. Qed.

(** C9: the report of no alerts is the fixed message; the report of a
    non-empty list is the header followed by one block per source, the
    sources in first-seen order, each block holding the alerts of its source
    in their input order, and the sizes of the groups add up to the number of
    alerts. *)
Theorem generate_alert_report_groups (today : datetime) :
  generate_alert_report today [] = "No alerts found for today." /\
  (forall alerts, alerts <> [] ->
     generate_alert_report today alerts =
       join newline
         (app (report_header today)
              (flat_map (fun k => report_group (k, alerts_of k alerts))
                        (first_seen (map agency alerts))))) /\
  (forall alerts,
     map fst (group_by_agency alerts) = first_seen (map agency alerts) /\
     (forall k v, In (k, v) (group_by_agency alerts) -> v = alerts_of k alerts) /\
     list_sum (map (fun g => List.length (snd g)) (group_by_agency alerts))
       = List.length alerts).
Proof.
  split; [reflexivity|]. split.
  - intros alerts Hne. unfold generate_alert_report.
    destruct alerts as [|a r]; [congruence|].
    rewrite group_by_agency_spec. unfold spec_groups.
    now rewrite flat_map_concat_map, map_map, <- flat_map_concat_map.
  - intros alerts. rewrite group_by_agency_spec. split; [apply spec_groups_keys|]. split.
    + intros k v Hin. unfold spec_groups in Hin.
      apply in_map_iff in Hin as (k' & [= <- <-] & _). reflexivity.
    + rewrite <- group_by_agency_spec.
      change (group_total (fold_left group_step alerts []) = List.length alerts).
      rewrite group_total_fold. unfold group_total. simpl. lia.
Qed.

(* ================================================================== *)
(** * Reasoning about sessions *)

Section SessionFacts.

Variable W : Type.
Variable answer : forall A : Type, request A -> W -> result A * W.

(** a size of the browser state that no answer increases; the constant size
    fits every browser *)
Variable size : W -> nat.
Hypothesis size_answer :
  forall (A : Type) (q : request A) (w : W), size (snd (answer q w)) <= size w.

Lemma hext_refl (h : list event) : hext h h.
Proof. exists []; reflexivity. Qed.

Lemma hext_cons (h h' : list event) (ev : event) : hext h h' -> hext h (ev :: h').
Proof. intros [r ->]. exists (ev :: r); reflexivity. Qed.

Lemma hext_trans (h1 h2 h3 : list event) : hext h1 h2 -> hext h2 h3 -> hext h1 h3.
Proof.
  intros [r1 H1] [r2 H2]. exists (r2 ++ r1)%list.
  now rewrite H2, H1, app_assoc.
Qed.

Lemma snapshots_hext (h h' : list event) (soup : node) :
  hext h h' -> In soup (snapshots h) -> In soup (snapshots h').
Proof.
  intros [recent ->] H. unfold snapshots in *.
  rewrite flat_map_app. apply in_or_app. right; exact H.
Qed.

Lemma wp_ret {A} (a : A) Q (s : system W) :
  Q (Done (Return a)) s -> wp (ret a) Q s.
Proof. exact (fun H => H). Qed.

Lemma wp_sleep (n : nat) Q (s : system W) :
  Q (Done (Return tt)) s -> wp (sleep n) Q s.
Proof. exact (fun H => H). Qed.

Lemma wp_bind {A B} (c : M W A) (k : A -> M W B) Q (s : system W) :
  wp c (fun o s' => match o with
                    | Done (Return a) => wp (k a) Q s'
                    | Done (Raise e) => Q (Done (Raise e)) s'
                    | OutOfFuel => Q OutOfFuel s'
                    end) s ->
  wp (bindM c k) Q s.
Proof.
  unfold wp, bindM. destruct (c s) as [[[a|e]|] s']; simpl; auto.
Qed.

Lemma wp_try {A} (c : M W A) (h : exn -> M W A) Q (s : system W) :
  wp c (fun o s' => match o with
                    | Done (Raise e) => wp (h e) Q s'
                    | other => Q other s'
                    end) s ->
  wp (try_exceptM c h) Q s.
Proof.
  unfold wp, try_exceptM. destruct (c s) as [[[a|e]|] s']; simpl; auto.
Qed.

Lemma wp_try_only {A} (cls : exn) (c h : M W A) Q (s : system W) :
  wp c (fun o s' => match o with
                    | Done (Raise e) =>
                        if exn_eqb e cls then wp h Q s' else Q (Done (Raise e)) s'
                    | other => Q other s'
                    end) s ->
  wp (try_except_only cls c h) Q s.
Proof.
  unfold wp, try_except_only. destruct (c s) as [[[a|e]|] s']; simpl; auto.
  destruct (exn_eqb e cls); auto.
Qed.

Lemma wp_call {A} (q : request A) Q (s : system W) :
  (driver s = None -> Q (Done (Raise AttributeError)) s) ->
  (forall w r w', driver s = Some w -> answer q w = (r, w') ->
                  Q (Done r) {| driver := Some w'; history := Called q r :: history s |}) ->
  wp (call answer q) Q s.
Proof.
  unfold wp, call. intros Hnone Hsome.
  destruct (driver s) as [w|] eqn:E; [|apply Hnone; reflexivity].
  destruct (answer q w) as [r w'] eqn:Ea. simpl. now apply (Hsome w).
Qed.

Lemma wp_no_driver Q (s : system W) :
  Q (Done (Return (match driver s with None => true | Some _ => false end))) s ->
  wp no_driver Q s.
Proof. exact (fun H => H). Qed.

Lemma wp_mono {A} (m : M W A) (Q Q' : outcome A -> system W -> Prop) (s : system W) :
  wp m Q s -> (forall o s', Q o s' -> Q' o s') -> wp m Q' s.
Proof. unfold wp. auto. Qed.

(** the rule of [while True]: an invariant [I] kept by every turn that goes
    on, [Q] established by every turn that stops, raises or runs out of
    fuel *)
Lemma wp_while {S} (I : S -> system W -> Prop) (body : S -> M W (ctl S))
  (Q : outcome S -> system W -> Prop) :
  (forall st s, I st s -> Q OutOfFuel s) ->
  (forall st s, I st s ->
     wp (body st) (fun o s' => match o with
                               | Done (Return (Continue st')) => I st' s'
                               | Done (Return (Break st')) => Q (Done (Return st')) s'
                               | Done (Raise e) => Q (Done (Raise e)) s'
                               | OutOfFuel => Q OutOfFuel s'
                               end) s) ->
  forall fuel st s, I st s -> wp (while_true fuel body st) Q s.
Proof.
  intros Hfuel Hbody. induction fuel as [|fuel IH]; intros st s HI.
  - exact (Hfuel st s HI).
  - simpl. apply wp_bind. eapply wp_mono; [exact (Hbody st s HI)|].
    intros [[[st'|st']|e]|] s' H; auto.
Qed.

Lemma wp_for_each {X S} (I : S -> system W -> Prop) (body : X -> S -> M W S)
  (Q : outcome S -> system W -> Prop) (l : list X) :
  (forall st s, I st s -> Q (Done (Return st)) s) ->
  (forall x st s, In x l -> I st s ->
     wp (body x st) (fun o s' => match o with
                                 | Done (Return st') => I st' s'
                                 | Done (Raise e) => Q (Done (Raise e)) s'
                                 | OutOfFuel => Q OutOfFuel s'
                                 end) s) ->
  forall st s, I st s -> wp (for_each l body st) Q s.
Proof.
  intros Hend. induction l as [|x r IH]; intros Hbody st s HI.
  - exact (Hend st s HI).
  - simpl. apply wp_bind. eapply wp_mono; [apply Hbody; [left; reflexivity | exact HI]|].
    intros [[st'|e]|] s' H; auto.
    apply IH; [|exact H]. intros; apply Hbody; [right|]; assumption.
Qed.

End SessionFacts.

(* ================================================================== *)
(** * Where the alerts come from *)

Section Provenance.

Variable today : datetime.

Lemma from_page_hext candidates R (h h' : list event) (a : alert) :
  hext h h' -> from_page candidates R h a -> from_page candidates R h' a.
Proof.
  intros Hext (soup & row & Hs & Hr & HR).
  exists soup, row. split; [eapply snapshots_hext; eassumption | auto].
Qed.

Lemma Forall_from_page_hext candidates R (h h' : list event) (l : list alert) :
  hext h h' -> Forall (from_page candidates R h) l ->
  Forall (from_page candidates R h') l.
Proof.
  intros Hext. apply Forall_impl. intros a. now apply from_page_hext.
Qed.

Lemma extract_total (element : node) (selectors : list pyobj) :
  exists text, extract_text_from_element element selectors = Return text.
Proof.
  induction selectors as [|selector rest IH]; simpl; [exists ""; reflexivity|].
  destruct (try_selector element selector) as [[text|]|e];
    [exists text; reflexivity | exact IH | exact IH].
Qed.

Lemma hinted_row_emits (label : string) (ch dh ah : list string) :
  emits (hinted_row today label ch dh ah) (hinted_reads today label ch dh ah).
Proof.
  intros row acc acc'. unfold hinted_row.
  destruct (extract_total row (hints ch)) as [c Ec].
  destruct (extract_total row (hints dh)) as [d Ed].
  destruct (extract_total row (hints ah)) as [x Ex].
  rewrite Ec, Ed, Ex. cbn [bindE].
  destruct (truthy c && is_today_date today d) eqn:E; intros [= <-]; [|left; reflexivity].
  apply andb_true_iff in E as [E1 E2].
  right. eexists. split; [reflexivity|]. repeat split; assumption.
Qed.

Lemma cell_text_in_range (cells : list node) (i : nat) :
  (i <? List.length cells)%nat = true ->
  exists c, nth_error cells i = Some c /\
            cell_text (i <? List.length cells)%nat cells i = Return (get_text_strip c).
Proof.
  intros H. rewrite H. unfold cell_text, getitem.
  apply Nat.ltb_lt in H. destruct (nth_error cells i) as [c|] eqn:E.
  - exists c. split; reflexivity.
  - apply nth_error_None in E. lia.
Qed.

Lemma cell_text_total (cond : bool) (cells : list node) (i : nat) :
  (cond = true -> (i <? List.length cells)%nat = true) ->
  exists text, cell_text cond cells i = Return text.
Proof.
  intros H. destruct cond; [|exists ""; reflexivity].
  specialize (H eq_refl). destruct (cell_text_in_range cells i H) as (c & _ & E).
  rewrite H in E. eauto.
Qed.

End Provenance.

Section RecordFacts.

Variable today : datetime.

Ltac cell_in_range cells i c Hc Ec :=
  let H := fresh "H" in
  assert (H : (i <? List.length cells)%nat = true) by (apply Nat.ltb_lt; lia);
  destruct (cell_text_in_range cells i H) as (c & Hc & Ec);
  rewrite Ec; clear H.

Lemma acuite_row_emits : emits (acuite_row today) (acuite_reads today).
Proof.
  intros row acc acc'. unfold acuite_row.
  set (cells := find_all "td" row).
  destruct (3 <=? List.length cells)%nat eqn:E3; [|intros [= <-]; left; reflexivity].
  apply Nat.leb_le in E3.
  cell_in_range cells 0 c0 H0 E0. cell_in_range cells 1 c1 H1 E1.
  cell_in_range cells 2 c2 H2 E2. cbn [bindE].
  destruct (truthy (get_text_strip c1) && is_today_date today (get_text_strip c0)) eqn:E;
    intros [= <-]; [|left; reflexivity].
  apply andb_true_iff in E as [Ea Eb].
  right. eexists. split; [reflexivity|].
  repeat split; try assumption; eexists; split; try eassumption; reflexivity.
Qed.

Lemma bse_row_emits (segment : string) :
  In segment segments ->
  emits (bse_row today segment (fmt_dd_mm_yyyy_slash today)) (bse_reads today).
Proof.
  intros Hseg row acc acc'. unfold bse_row.
  set (cells := find_all "td" row).
  destruct (3 <=? List.length cells)%nat eqn:E3; [|intros [= <-]; left; reflexivity].
  apply Nat.leb_le in E3.
  cell_in_range cells 1 c1 H1 E1. cell_in_range cells 2 c2 H2 E2. cbn [bindE].
  destruct (truthy (get_text_strip c1)) eqn:E; intros [= <-]; [|left; reflexivity].
  right. eexists. split; [reflexivity|].
  repeat split; try assumption; try (eexists; split; try eassumption; reflexivity).
Qed.

Lemma sebi_row_emits : emits (sebi_row today) (sebi_reads today).
Proof.
  intros row acc acc'. unfold sebi_row.
  set (cells := find_all "td" row).
  destruct (2 <=? List.length cells)%nat eqn:E3; [|intros [= <-]; left; reflexivity].
  apply Nat.leb_le in E3.
  cell_in_range cells 0 c0 H0 E0. cell_in_range cells 1 c1 H1 E1. cbn [bindE].
  destruct (truthy (get_text_strip c1) && is_today_date today (get_text_strip c0)) eqn:E;
    intros [= <-]; [|left; reflexivity].
  apply andb_true_iff in E as [Ea Eb].
  right. eexists. split; [reflexivity|].
  repeat split; try assumption; eexists; split; try eassumption; reflexivity.
Qed.

Lemma for_each_row_cons body (row : node) (rest : list node) (alerts : list alert) :
  for_each_row body (row :: rest) alerts =
  for_each_row body rest
    (match body row alerts with Return acc' => acc' | Raise _ => alerts end).
Proof. reflexivity. Qed.

(** the record loop only appends, and what it appends was read off one of
    its records *)
Lemma for_each_row_appends body (R : node -> alert -> Prop)
  (rows : list node) (alerts : list alert) :
  emits body R ->
  exists added,
    for_each_row body rows alerts = (alerts ++ added)%list /\
    Forall (fun a => exists row, In row rows /\ R row a) added.
Proof.
  intros Hemit. revert alerts.
  induction rows as [|row rest IH]; intros alerts.
  - exists []. split; [symmetry; apply app_nil_r | constructor].
  - rewrite for_each_row_cons.
    assert (Hstep : exists one,
               match body row alerts with Return acc' => acc' | Raise _ => alerts end
               = (alerts ++ one)%list /\
               Forall (fun a => exists row0, In row0 (row :: rest) /\ R row0 a) one).
    { destruct (body row alerts) as [acc'|e] eqn:E.
      - destruct (Hemit _ _ _ E) as [->|(a & -> & Ha)].
        + exists []. split; [symmetry; apply app_nil_r | constructor].
        + exists [a]. split; [reflexivity|]. constructor; [|constructor].
          exists row. split; [left; reflexivity | exact Ha].
      - exists []. split; [symmetry; apply app_nil_r | constructor]. }
    destruct Hstep as (one & -> & Hone).
    destruct (IH (alerts ++ one)%list) as (more & -> & Hmore).
    exists (one ++ more)%list. split; [now rewrite app_assoc|].
    apply Forall_app. split; [exact Hone|].
    revert Hmore. apply Forall_impl. intros a (row0 & Hin & Ha).
    exists row0. split; [right; exact Hin | exact Ha].
Qed.

End RecordFacts.

(** one step of symbolic execution of a session computation *)
Ltac wp_step :=
  lazymatch goal with
  | |- wp (bindM _ _) _ _ => apply wp_bind
  | |- wp (try_exceptM _ _) _ _ => apply wp_try
  | |- wp (try_except_only _ _ _) _ _ => apply wp_try_only
  | |- wp (call _ _) _ _ =>
      apply wp_call; [intros ? | intros ? [?|?] ? ? ?]; cbv beta iota
  | |- wp (ret _) _ _ => apply wp_ret; cbv beta iota
  | |- wp (sleep _) _ _ => apply wp_sleep; cbv beta iota
  | |- wp no_driver _ _ => apply wp_no_driver; cbv beta iota
  | |- wp (if ?b then _ else _) _ _ => destruct b
  | |- (if exn_eqb ?e ?c then _ else _) => destruct (exn_eqb e c) eqn:?
  end.

Ltac wp_run := repeat wp_step.

Ltac solve_hext :=
  lazymatch goal with
  | |- hext ?h ?h => apply hext_refl
  | |- hext _ (_ :: _) => apply hext_cons; solve_hext
  | |- hext ?h ?h' =>
      first [ eassumption
            | match goal with
              | H : hext ?m h' |- _ =>
                  apply (@hext_trans h m h'); [solve_hext | exact H]
              end ]
  end.

(** the browser has not grown: every answer in the context bounds the size
    of the state it leaves *)
Ltac solve_weight :=
  unfold weight in *; cbn [driver] in *;
  repeat first
    [ match goal with
      | H : Some _ = Some _ |- _ => injection H as H; subst
      end
    | match goal with
      | H : driver ?s = _ |- _ => try rewrite H in *; clear H
      end ];
  repeat match goal with
         | Hst : (forall (A : Type) (q : request A) w a w',
                     ?ans A q w = (Return a, w') -> _ w' < _ w),
           Ha : ?ans _ ?q ?w = (Return _, _) |- _ =>
             let X := fresh "X" in
             pose proof (Hst _ q w _ _ Ha) as X; clear Ha
         end;
  repeat match goal with
         | Hsz : (forall (A : Type) (q : request A) w, _ (snd (?ans A q w)) <= _ w),
           Ha : ?ans _ ?q ?w = (_, _) |- _ =>
             let X := fresh "X" in
             pose proof (Hsz _ q w) as X; rewrite Ha in X; cbn [snd] in X; clear Ha
         end;
  lia.

Ltac solve_ext :=
  unfold ext in *; cbn [history] in *;
  repeat match goal with
         | H : _ /\ _ |- _ => destruct H
         end;
  lazymatch goal with
  | |- _ /\ _ => split; [solve_hext | solve_weight]
  | |- hext _ _ => solve_hext
  | |- _ <= _ => solve_weight
  | |- _ < _ => solve_weight
  end.

(** a leaf of the symbolic execution of a scraper: the history has grown,
    and the outcome is an exception, a lack of fuel or an empty list *)
Ltac leaf :=
  split; [solve_ext | first [discriminate | intros ? [= <-]; constructor]].

Section ScraperFacts.

Variable W : Type.
Variable answer : forall A : Type, request A -> W -> result A * W.
Variable size : W -> nat.
Hypothesis size_answer :
  forall (A : Type) (q : request A) (w : W), size (snd (answer q w)) <= size w.
Variable today : datetime.

Lemma next_page_ext (xpath : string) (s : system W) :
  wp (next_page answer xpath) (fun _ s' => ext size s s') s.
Proof. unfold next_page. wp_run; solve_ext. Qed.

Lemma icra_date_filter_ext (s : system W) :
  wp (icra_date_filter answer today) (fun _ s' => ext size s s') s.
Proof. unfold icra_date_filter. wp_run; solve_ext. Qed.

Lemma sebi_date_filter_ext (s : system W) :
  wp (sebi_date_filter answer today) (fun _ s' => ext size s s') s.
Proof. unfold sebi_date_filter. wp_run; solve_ext. Qed.

Lemma page_rows_from_page candidates body R (h : list event) (soup : node)
  (alerts : list alert) :
  emits body R ->
  Forall (from_page candidates R h) alerts ->
  Forall (from_page candidates R (Called PageSource (Return soup) :: h))
         (for_each_row body (candidates soup) alerts).
Proof.
  intros Hemit Hold.
  destruct (for_each_row_appends (candidates soup) alerts Hemit) as (added & -> & Hadd).
  apply Forall_app. split.
  - eapply Forall_from_page_hext; [|exact Hold]. apply hext_cons, hext_refl.
  - revert Hadd. apply Forall_impl. intros a (row & Hin & Ha).
    exists soup, row. split; [left; reflexivity | auto].
Qed.

Lemma paged_loop_from_page candidates row R (xpath : string) :
  emits row R ->
  forall fuel st s0 s,
    ext size s0 s ->
    Forall (from_page candidates R (history s)) (fst st) ->
    wp (while_true fuel (paged_body answer candidates row xpath) st)
       (fun o s' =>
          ext size s0 s' /\
          forall st', o = Done (Return st') ->
                      Forall (from_page candidates R (history s')) (fst st')) s.
Proof.
  intros Hemit fuel st s0 s He HF.
  apply (wp_while
           (fun st s1 => ext size s0 s1 /\
                         Forall (from_page candidates R (history s1)) (fst st)));
    [| |split; assumption].
  - intros st1 s1 [He1 _]. split; [exact He1 | discriminate].
  - clear st s He HF. intros [alerts page_num] s [He HF]. simpl in HF.
    unfold paged_body. wp_step. wp_step.
    + split; [exact He | discriminate].
    + apply wp_bind. eapply wp_mono; [apply next_page_ext|].
      intros o s2 He2.
      assert (He02 : ext size s0 s2) by solve_ext.
      assert (HF2 : Forall (from_page candidates R (history s2))
                      (for_each_row row (candidates a) alerts)).
      { eapply Forall_from_page_hext; [exact (proj1 He2)|]. cbn [history].
        now apply page_rows_from_page. }
      destruct o as [[[|]|e]|]; cbv beta iota.
      * apply wp_ret. split; assumption.
      * apply wp_ret. split; [assumption|]. intros st' [= <-]. exact HF2.
      * split; [assumption | discriminate].
      * split; [assumption | discriminate].
    + split; [solve_ext | discriminate].
Qed.

Lemma paged_scraper_from_page candidates row R (xpath : string) (fuel : nat)
  (s0 s : system W) :
  emits row R -> ext size s0 s ->
  wp (bindM (while_true fuel (paged_body answer candidates row xpath) ([], 1))
            (fun st => ret (fst st)))
     (fun o s' => match o with
                  | Done (Raise e) => wp (ret []) (returns_all size (from_page candidates R) s0) s'
                  | other => returns_all size (from_page candidates R) s0 other s'
                  end) s.
Proof.
  intros Hemit He. apply wp_bind.
  eapply wp_mono;
    [apply (paged_loop_from_page xpath Hemit fuel ([], 1) He); constructor|].
  intros o s2 [He2 H2]. destruct o as [[st|e]|]; cbv beta iota.
  - wp_step. split; [solve_ext | intros alerts [= <-]; now apply H2].
  - wp_step. leaf.
  - leaf.
Qed.

Lemma scrape_icra_from_page (fuel : nat) (s : system W) :
  wp (scrape_icra_ratings answer today fuel)
     (returns_all size (from_page icra_candidates (icra_reads today)) s) s.
Proof.
  unfold scrape_icra_ratings.
  wp_step. wp_step. wp_step. wp_step; [wp_step; leaf|].
  wp_step. wp_step; [wp_step; leaf| |wp_step; leaf].
  wp_step. wp_step. apply wp_bind. eapply wp_mono; [apply icra_date_filter_ext|].
  intros o s1 He1. destruct o as [[[]|e]|]; cbv beta iota; [|wp_step; leaf|leaf].
  apply paged_scraper_from_page; [apply hinted_row_emits | solve_ext].
Qed.

Lemma scrape_sebi_from_page (fuel : nat) (s : system W) :
  wp (scrape_sebi_announcements answer today fuel)
     (returns_all size (from_page sebi_candidates (sebi_reads today)) s) s.
Proof.
  unfold scrape_sebi_announcements.
  wp_step. wp_step. wp_step. wp_step; [wp_step; leaf|].
  wp_step. wp_step; [wp_step; leaf| |wp_step; leaf].
  wp_step. wp_step. apply wp_bind. eapply wp_mono; [apply sebi_date_filter_ext|].
  intros o s1 He1. destruct o as [[[]|e]|]; cbv beta iota; [|wp_step; leaf|leaf].
  apply paged_scraper_from_page; [apply sebi_row_emits | solve_ext].
Qed.

Lemma scrape_acuite_from_page (fuel : nat) (s : system W) :
  wp (scrape_acuite_ratings answer today fuel)
     (returns_all size (from_page acuite_candidates (acuite_reads today)) s) s.
Proof.
  unfold scrape_acuite_ratings.
  wp_step. wp_step. wp_step. wp_step; [wp_step; leaf|].
  wp_step. wp_step; [wp_step; leaf| |wp_step; leaf].
  wp_step. wp_step.
  apply paged_scraper_from_page; [apply acuite_row_emits | solve_ext].
Qed.

Lemma while_ext {S} (body : S -> M W (ctl S)) :
  (forall st s, wp (body st) (fun _ s' => ext size s s') s) ->
  forall fuel st s, wp (while_true fuel body st) (fun _ s' => ext size s s') s.
Proof.
  intros Hbody fuel st s.
  apply (wp_while (fun _ s1 => ext size s s1)); [auto | | solve_ext].
  intros st1 s1 He. eapply wp_mono; [apply Hbody|].
  intros o s2 He2. destruct o as [[[|]|]|]; solve_ext.
Qed.

Lemma scroll_body_ext (last : jsval) (s : system W) :
  wp (scroll_body answer last) (fun _ s' => ext size s s') s.
Proof. unfold scroll_body. wp_run; solve_ext. Qed.

Lemma load_more_body_ext (st : unit) (s : system W) :
  wp (load_more_body answer st) (fun _ s' => ext size s s') s.
Proof. unfold load_more_body. wp_run; solve_ext. Qed.

Lemma scrape_careedge_from_page (fuel : nat) (s : system W) :
  wp (scrape_careedge_ratings answer today fuel)
     (returns_all size (from_page careedge_candidates (careedge_reads today)) s) s.
Proof.
  unfold scrape_careedge_ratings.
  wp_step. wp_step. wp_step. wp_step; [wp_step; leaf|].
  wp_step. wp_step; [wp_step; leaf| |wp_step; leaf].
  wp_step. wp_step. cbv zeta. wp_step.
  wp_step. wp_step; [wp_step; [wp_step; leaf | wp_step; leaf] | |
                     wp_step; [wp_step; leaf | wp_step; leaf]].
  wp_step. wp_step; [wp_step; [wp_step; leaf | wp_step; leaf] | |
                     wp_step; [wp_step; leaf | wp_step; leaf]].
  apply wp_bind. eapply wp_mono; [apply while_ext, scroll_body_ext|].
  intros o s1 He1. destruct o as [[last|e]|]; cbv beta iota;
    [|wp_step; [wp_step; leaf | wp_step; leaf] | leaf].
  unfold careedge_extract. wp_step.
  wp_step; [wp_step; [wp_step; leaf | wp_step; leaf] | |
            wp_step; [wp_step; leaf | wp_step; leaf]].
  wp_step. split; [solve_ext|]. intros alerts [= <-]. cbn [history].
  apply page_rows_from_page; [apply hinted_row_emits | constructor].
Qed.

Lemma scrape_crisil_from_page (fuel : nat) (s : system W) :
  wp (scrape_crisil_ratings answer today fuel)
     (returns_all size (from_page crisil_candidates (crisil_reads today)) s) s.
Proof.
  unfold scrape_crisil_ratings.
  wp_step. wp_step. wp_step. wp_step; [wp_step; leaf|].
  wp_step. wp_step; [wp_step; leaf| |wp_step; leaf].
  wp_step. wp_step. cbv zeta.
  apply wp_bind. eapply wp_mono; [apply while_ext, load_more_body_ext|].
  intros o s1 He1. destruct o as [[[]|e]|]; cbv beta iota; [|wp_step; leaf|leaf].
  unfold crisil_extract. wp_step.
  wp_step; [wp_step; leaf| |wp_step; leaf].
  wp_step. split; [solve_ext|]. intros alerts [= <-]. cbn [history].
  apply page_rows_from_page; [apply hinted_row_emits | constructor].
Qed.

Lemma select_option_ext (segment : string) (options : list WebElement) (s : system W) :
  wp (select_option answer segment options) (fun _ s' => ext size s s') s.
Proof.
  revert s. induction options as [|option rest IH]; intros s; simpl.
  - wp_run. solve_ext.
  - wp_step. wp_step; [solve_ext| |solve_ext].
    wp_step; [wp_run; solve_ext|].
    eapply wp_mono; [apply IH|]. intros o s' He. solve_ext.
Qed.

Lemma bse_select_segment_ext (segment : string) (s : system W) :
  wp (bse_select_segment answer segment) (fun _ s' => ext size s s') s.
Proof.
  unfold bse_select_segment. wp_step. wp_step.
  wp_step; [wp_run; solve_ext | | wp_run; solve_ext].
  wp_step. wp_step; [wp_run; solve_ext | | wp_run; solve_ext].
  eapply wp_mono; [apply select_option_ext|].
  intros o s' He. destruct o as [[[]|e]|]; [solve_ext | wp_run; solve_ext | solve_ext].
Qed.

Lemma bse_submit_ext (s : system W) :
  wp (bse_submit answer) (fun _ s' => ext size s s') s.
Proof. unfold bse_submit. wp_run; solve_ext. Qed.

Lemma bse_date_fields_ext (current_date : string) (s : system W) :
  wp (bse_date_fields answer current_date) (fun _ s' => ext size s s') s.
Proof. unfold bse_date_fields. wp_run; solve_ext. Qed.

Lemma nse_tab_ext (segment : string) (s : system W) :
  wp (nse_tab answer segment) (fun _ s' => ext size s s') s.
Proof. unfold nse_tab. wp_run; solve_ext. Qed.

Lemma bse_segment_from_page (segment : string) (alerts : list alert) (s0 s : system W) :
  In segment segments ->
  ext size s0 s ->
  Forall (from_page bse_candidates (bse_reads today) (history s)) alerts ->
  wp (bse_segment answer today (fmt_dd_mm_yyyy_slash today) segment alerts)
     (returns_all size (from_page bse_candidates (bse_reads today)) s0) s.
Proof.
  intros Hseg He HF. unfold bse_segment, returns_all.
  assert (Hkeep : forall s', ext size s s' ->
            ext size s0 s' /\
            forall alerts', Done (Return alerts) = Done (Return alerts') ->
              Forall (from_page bse_candidates (bse_reads today) (history s')) alerts').
  { intros s' He'. split; [solve_ext|]. intros alerts' [= <-].
    eapply Forall_from_page_hext; [exact (proj1 He') | exact HF]. }
  wp_step. apply wp_bind. eapply wp_mono; [apply bse_select_segment_ext|].
  intros o s1 He1. destruct o as [[[]|e]|]; cbv beta iota;
    [|wp_step; apply Hkeep; solve_ext | split; [solve_ext | discriminate]].
  apply wp_bind. eapply wp_mono; [apply bse_submit_ext|].
  intros o s2 He2. destruct o as [[[]|e]|]; cbv beta iota;
    [|wp_step; apply Hkeep; solve_ext | split; [solve_ext | discriminate]].
  wp_step. wp_step; [wp_step; apply Hkeep; solve_ext | | wp_step; apply Hkeep; solve_ext].
  wp_step. split; [solve_ext|]. intros alerts' [= <-].
  cbn [history]. apply page_rows_from_page; [now apply bse_row_emits|].
  eapply Forall_from_page_hext; [|exact HF]. solve_ext.
Qed.

Lemma scrape_bse_from_page (s : system W) :
  wp (scrape_bse_announcements answer today)
     (returns_all size (from_page bse_candidates (bse_reads today)) s) s.
Proof.
  unfold scrape_bse_announcements.
  wp_step. wp_step. wp_step. wp_step; [wp_step; leaf|].
  cbv zeta. change (dd_mm_yyyy_slash (get_current_date_str today))
              with (fmt_dd_mm_yyyy_slash today).
  wp_step. wp_step; [wp_step; leaf| |wp_step; leaf].
  wp_step. wp_step. apply wp_bind. eapply wp_mono; [apply bse_date_fields_ext|].
  intros o s1 He1. destruct o as [[[]|e]|]; cbv beta iota; [|wp_step; leaf|leaf].
  apply (wp_for_each
           (fun st s2 => ext size s s2 /\
                         Forall (from_page bse_candidates (bse_reads today) (history s2)) st)).
  - intros st s2 [He2 HF]. split; [exact He2|]. intros alerts [= <-]. exact HF.
  - intros segment st s2 Hseg [He2 HF].
    eapply wp_mono; [apply bse_segment_from_page; eassumption|].
    intros o s3 [He3 H3]. destruct o as [[st'|e]|].
    + split; [exact He3 | now apply H3].
    + wp_step. leaf.
    + leaf.
  - split; [solve_ext | constructor].
Qed.

Lemma nse_inv_hext (h h' : list event) (st : nse_locals * list alert) :
  hext h h' -> nse_inv today h st -> nse_inv today h' st.
Proof.
  intros He [Hb HF]. split.
  - destruct Hb as [->|(c & s & d & soup & row & -> & Hs & Hr & Hv)]; [left; reflexivity|].
    right. exists c, s, d, soup, row. repeat split; auto.
    eapply snapshots_hext; eassumption.
  - eapply Forall_from_page_hext; eassumption.
Qed.

Ltac cell_in_range cells i c Hc Ec :=
  let H := fresh "H" in
  assert (H : (i <? List.length cells)%nat = true) by (apply Nat.ltb_lt; lia);
  destruct (cell_text_in_range cells i H) as (c & Hc & Ec);
  rewrite Ec; clear H.

(** the assignments of one record leave the locals alone or bind all three
    to the values of that record *)
Lemma nse_assign_cases (row : node) (loc : nse_locals) :
  fst (nse_assign row loc) = loc \/
  exists c s d,
    nse_assign row loc =
      ({| company_name := Some c; subject := Some s; date_text := Some d |}, Return tt) /\
    nse_values row c s d.
Proof.
  destruct row as [t|nm cls cs]; [left; reflexivity|].
  unfold nse_assign, nse_values. destruct (String.eqb nm "tr").
  - set (cells := find_all "td" (Tag nm cls cs)).
    destruct (3 <=? List.length cells)%nat eqn:E3; [|left; reflexivity].
    apply Nat.leb_le in E3.
    cell_in_range cells 1 c1 H1 E1. cell_in_range cells 2 c2 H2 E2.
    cell_in_range cells 0 c0 H0 E0.
    right. do 3 eexists. split; [reflexivity|].
    repeat split; eexists; split; try eassumption; reflexivity.
  - destruct (extract_total (Tag nm cls cs) (hints ["company"; "symbol"])) as [c Ec].
    destruct (extract_total (Tag nm cls cs) (hints ["subject"; "title"])) as [s Es].
    destruct (extract_total (Tag nm cls cs) (hints ["date"; "time"])) as [d Ed].
    rewrite Ec, Es, Ed. right. exists c, s, d. repeat split; reflexivity.
Qed.

Lemma nse_row_inv (segment : string) (h : list event) (soup row : node)
  (st : nse_locals * list alert) :
  In segment segments -> In soup (snapshots h) -> In row (nse_candidates soup) ->
  nse_inv today h st -> nse_inv today h (nse_row today segment row st).
Proof.
  intros Hseg Hsoup Hrow [Hb HF]. destruct st as [loc alerts]. simpl in Hb, HF.
  unfold nse_row.
  assert (Hb' : nse_bound h (fst (nse_assign row loc))).
  { destruct (nse_assign_cases row loc) as [->|(c & s & d & -> & Hv)]; [exact Hb|].
    right. exists c, s, d, soup, row. auto. }
  destruct (nse_assign row loc) as [loc' r]. simpl in Hb'.
  destruct r as [[]|e]; [|split; assumption].
  destruct Hb' as [->|(c & s & d & soup0 & row0 & -> & Hs0 & Hr0 & Hv0)].
  - simpl. split; [left; reflexivity | exact HF].
  - assert (Hbd : nse_bound h {| company_name := Some c; subject := Some s;
                                 date_text := Some d |})
      by (right; exists c, s, d, soup0, row0; auto).
    unfold nse_emit. cbn [company_name subject date_text load bindE].
    destruct (truthy c) eqn:Ec; [|split; assumption].
    destruct (is_today_date today d) eqn:Ed; [|split; assumption].
    split; [exact Hbd|]. cbn [snd]. unfold append.
    apply Forall_app. split; [exact HF|]. constructor; [|constructor].
    exists soup0, row0. split; [exact Hs0|]. split; [exact Hr0|].
    split; [exists segment; split; [exact Hseg | reflexivity]|].
    split; [exact Hv0|]. split; assumption.
Qed.

Lemma nse_rows_inv (segment : string) (h : list event) (soup : node)
  (rows : list node) (st : nse_locals * list alert) :
  In segment segments -> In soup (snapshots h) ->
  (forall row, In row rows -> In row (nse_candidates soup)) ->
  nse_inv today h st -> nse_inv today h (nse_rows today segment rows st).
Proof.
  intros Hseg Hsoup. revert st.
  induction rows as [|row rest IH]; intros st Hrows Hinv; [exact Hinv|].
  unfold nse_rows. simpl. apply IH.
  - intros r Hr. apply Hrows. right; exact Hr.
  - eapply nse_row_inv; eauto. apply Hrows. left; reflexivity.
Qed.

Lemma nse_segment_inv (segment : string) (st : nse_locals * list alert)
  (s0 s : system W) :
  In segment segments -> ext size s0 s -> nse_inv today (history s) st ->
  wp (nse_segment answer today segment st)
     (fun o s' => ext size s0 s' /\
                  forall st', o = Done (Return st') -> nse_inv today (history s') st') s.
Proof.
  intros Hseg He Hinv. unfold nse_segment.
  assert (Hkeep : forall s', ext size s s' ->
            ext size s0 s' /\
            forall st', Done (Return st) = Done (Return st') -> nse_inv today (history s') st').
  { intros s' He'. split; [solve_ext|]. intros st' [= <-].
    eapply nse_inv_hext; [exact (proj1 He') | exact Hinv]. }
  wp_step. apply wp_bind. eapply wp_mono; [apply nse_tab_ext|].
  intros o s1 He1. destruct o as [[found|e]|]; cbv beta iota;
    [|wp_step; apply Hkeep; solve_ext | split; [solve_ext | discriminate]].
  destruct found; [|wp_step; apply Hkeep; solve_ext].
  wp_step. wp_step; [wp_step; apply Hkeep; solve_ext | | wp_step; apply Hkeep; solve_ext].
  wp_step. split; [solve_ext|]. intros st' [= <-]. cbn [history].
  apply nse_rows_inv with (soup := a); auto.
  - left; reflexivity.
  - eapply nse_inv_hext; [|exact Hinv]. solve_ext.
Qed.

Lemma scrape_nse_from_page (s : system W) :
  wp (scrape_nse_announcements answer today)
     (returns_all size (from_page nse_candidates (nse_reads today)) s) s.
Proof.
  unfold scrape_nse_announcements.
  wp_step. wp_step. wp_step. wp_step; [wp_step; leaf|].
  cbv zeta. wp_step. wp_step; [wp_step; leaf| |wp_step; leaf].
  wp_step. wp_step. apply wp_bind.
  apply (wp_for_each (fun st s2 => ext size s s2 /\ nse_inv today (history s2) st)).
  - intros st s2 [He2 [_ HF]]. wp_step. split; [exact He2|].
    intros alerts [= <-]. exact HF.
  - intros segment st s2 Hseg [He2 Hinv].
    eapply wp_mono; [apply nse_segment_inv; eassumption|].
    intros o s3 [He3 H3]. destruct o as [[st'|e]|].
    + split; [exact He3 | now apply H3].
    + wp_step. leaf.
    + leaf.
  - split; [solve_ext|]. split; [left; reflexivity | constructor].
Qed.

End ScraperFacts.

(* ================================================================== *)
(** * Every alert of a run *)

Section RunFacts.

Variable today : datetime.

Lemma truthy_nonempty (s : string) : truthy s = true -> s <> "".
Proof. destruct s; [discriminate | discriminate]. Qed.

Lemma hinted_reads_ok label ch dh ah row a :
  label <> "SEBI" -> hinted_reads today label ch dh ah row a -> alert_ok today a.
Proof.
  intros Hl (Ha & _ & _ & _ & Hc & Hd).
  split; [now apply truthy_nonempty|]. split; [exact Hd|]. congruence.
Qed.

Lemma any_source_ok (h : list event) (a : alert) :
  any_source today h a -> alert_ok today a.
Proof.
  intros [H|[H|[H|[H|[H|[H|H]]]]]]; destruct H as (soup & row & _ & _ & H).
  - eapply hinted_reads_ok; [|exact H]. discriminate.
  - eapply hinted_reads_ok; [|exact H]. discriminate.
  - destruct H as (Ha & _ & _ & _ & Hc & Hd).
    split; [now apply truthy_nonempty|]. split; [exact Hd|].
    rewrite Ha; discriminate.
  - eapply hinted_reads_ok; [|exact H]. discriminate.
  - destruct H as ((seg & Hseg & Ha) & _ & _ & Hd & Hc).
    split; [now apply truthy_nonempty|]. split; [rewrite Hd; apply is_today_date_current|].
    rewrite Ha. destruct Hseg as [<-|[<-|[]]]; discriminate.
  - destruct H as ((seg & Hseg & Ha) & _ & Hc & Hd).
    split; [now apply truthy_nonempty|]. split; [exact Hd|].
    rewrite Ha. destruct Hseg as [<-|[<-|[]]]; discriminate.
  - destruct H as (_ & Hc & _ & _ & _ & Hd).
    split; [rewrite Hc; discriminate|]. split; [exact Hd | auto].
Qed.

Variable W : Type.
Variable answer : forall A : Type, request A -> W -> result A * W.
Variable size : W -> nat.
Hypothesis size_answer :
  forall (A : Type) (q : request A) (w : W), size (snd (answer q w)) <= size w.

Lemma returns_all_impl (P P' : list event -> alert -> Prop) (s : system W) o s' :
  (forall h a, P h a -> P' h a) ->
  returns_all size P s o s' -> returns_all size P' s o s'.
Proof.
  intros Himp [He H]. split; [exact He|].
  intros alerts E. eapply Forall_impl; [|exact (H alerts E)]. apply Himp.
Qed.

Lemma scrapers_any_source (fuel : nat) (name : string) (f : M W (list alert))
  (s : system W) :
  In (name, f) (scrapers answer today fuel) ->
  wp f (returns_all size (any_source today) s) s.
Proof.
  unfold scrapers. intros H.
  repeat (destruct H as [[= <- <-]|H]); try contradiction.
  - eapply wp_mono; [apply (@scrape_icra_from_page W answer size size_answer today)|].
    intros o s'. apply returns_all_impl. unfold any_source. tauto.
  - eapply wp_mono; [apply (@scrape_careedge_from_page W answer size size_answer today)|].
    intros o s'. apply returns_all_impl. unfold any_source. tauto.
  - eapply wp_mono; [apply (@scrape_acuite_from_page W answer size size_answer today)|].
    intros o s'. apply returns_all_impl. unfold any_source. tauto.
  - eapply wp_mono; [apply (@scrape_crisil_from_page W answer size size_answer today)|].
    intros o s'. apply returns_all_impl. unfold any_source. tauto.
  - eapply wp_mono; [apply (@scrape_bse_from_page W answer size size_answer today)|].
    intros o s'. apply returns_all_impl. unfold any_source. tauto.
  - eapply wp_mono; [apply (@scrape_nse_from_page W answer size size_answer today)|].
    intros o s'. apply returns_all_impl. unfold any_source. tauto.
  - eapply wp_mono; [apply (@scrape_sebi_from_page W answer size size_answer today)|].
    intros o s'. apply returns_all_impl. unfold any_source. tauto.
Qed.

Lemma any_source_hext (h h' : list event) (a : alert) :
  hext h h' -> any_source today h a -> any_source today h' a.
Proof.
  intros He. unfold any_source.
  intros [H|[H|[H|[H|[H|[H|H]]]]]];
    eapply from_page_hext in H; try exact He; tauto.
Qed.

(** the runner keeps what every scraper keeps *)
Lemma run_scrapers_all (P : list event -> alert -> Prop)
  (l : list (string * M W (list alert))) :
  (forall h h' a, hext h h' -> P h a -> P h' a) ->
  (forall name f s, In (name, f) l -> wp f (returns_all size P s) s) ->
  forall all_alerts s0 s,
    ext size s0 s -> Forall (P (history s)) all_alerts ->
    wp (run_scrapers l all_alerts) (returns_all size P s0) s.
Proof.
  intros Hmono. induction l as [|[name f] rest IH]; intros Hl all_alerts s0 s He HF.
  - simpl. wp_step. split; [exact He|]. intros alerts [= <-]. exact HF.
  - simpl. wp_step. wp_step. wp_step.
    eapply wp_mono; [apply (Hl name f s); left; reflexivity|].
    intros o s1 [He1 H1].
    assert (HF1 : Forall (P (history s1)) all_alerts).
    { eapply Forall_impl; [|exact HF]. intros a. apply Hmono. apply He1. }
    destruct o as [[agency_alerts|e]|]; cbv beta iota.
    + wp_step. wp_step. wp_step.
      apply IH; [intros n0 f0 s2 Hin; apply (Hl n0 f0 s2); right; exact Hin | solve_ext|].
      apply Forall_app. split; [exact HF1 | now apply H1].
    + wp_step. apply IH; [intros n0 f0 s2 Hin; apply (Hl n0 f0 s2); right; exact Hin | solve_ext | exact HF1].
    + split; [solve_ext | discriminate].
Qed.

Lemma run_all_any_source (fuel : nat) (s : system W) :
  wp (run_all_scrapers answer today fuel) (returns_all size (any_source today) s) s.
Proof.
  unfold run_all_scrapers. apply run_scrapers_all.
  - apply any_source_hext.
  - intros name f s1 Hin. now apply scrapers_any_source with (fuel := fuel) (name := name).
  - solve_ext.
  - constructor.
Qed.

End RunFacts.

Section RunTheorems.

Variable W : Type.
Variable answer : forall A : Type, request A -> W -> result A * W.
Variable today : datetime.

Lemma size_zero :
  forall (A : Type) (q : request A) (w : W),
    (fun _ : W => 0) (snd (answer q w)) <= (fun _ : W => 0) w.
Proof. intros; apply le_n. Qed.

Lemma wp_returns {A} (m : M W A) (Q : outcome A -> system W -> Prop)
  (s s' : system W) (o : outcome A) :
  wp m Q s -> m s = (o, s') -> Q o s'.
Proof. unfold wp. intros H E. now rewrite E in H. Qed.

Lemma run_all_alerts_any_source (fuel : nat) (s s' : system W) (alerts : list alert) :
  run_all_scrapers answer today fuel s = (Done (Return alerts), s') ->
  Forall (any_source today (history s')) alerts.
Proof.
  intros E.
  pose proof (@run_all_any_source today W answer (fun _ => 0) size_zero fuel s) as Hwp.
  unfold wp in Hwp. rewrite E in Hwp. destruct Hwp as [_ H]. now apply H.
Qed.

Lemma scraper_alerts (P : list event -> alert -> Prop) (m : M W (list alert))
  (s s' : system W) (alerts : list alert) :
  wp m (returns_all (fun _ => 0) P s) s ->
  m s = (Done (Return alerts), s') ->
  Forall (P (history s')) alerts.
Proof. unfold wp. intros H E. rewrite E in H. destruct H as [_ H]. now apply H. Qed.

End RunTheorems.

(** C1: every alert a scraper returns, and so every alert of a run, has a
    non-empty company and a date that [is_today_date] accepts; the alerts of
    the regulator carry the fixed company "SEBI Announcement". *)
Theorem alerts_have_company_and_today (W : Type)
  (answer : forall A : Type, request A -> W -> result A * W)
  (today : datetime) (fuel : nat) :
  (forall name f s alerts s',
      In (name, f) (scrapers answer today fuel) ->
      f s = (Done (Return alerts), s') ->
      Forall (alert_ok today) alerts) /\
  (forall s alerts s',
      run_all_scrapers answer today fuel s = (Done (Return alerts), s') ->
      Forall (alert_ok today) alerts).
Proof.
  split.
  - intros name f s alerts s' Hin E.
    eapply scraper_alerts in E;
      [|exact (@scrapers_any_source today W answer (fun _ => 0) (@size_zero W answer)
                 fuel name f s Hin)].
    revert E. apply Forall_impl. intros a. apply any_source_ok.
  - intros s alerts s' E.
    apply run_all_alerts_any_source in E.
    revert E. apply Forall_impl. intros a. apply any_source_ok.
Qed.

Example sebi_run_alerts :
  fst (scrape_sebi_announcements Script.answer Sample.nov3 3
         (Script.start Scenario.sebi_script))
  = Done (Return [ {| agency := "SEBI"; company := "SEBI Announcement";
                      date := "03 Nov, 2026"; action := "Circular on margins";
                      timestamp := "2026-11-03T09:30:00" |} ]).
Proof. reflexivity. Qed.

Example bse_run_alerts :
  fst (scrape_bse_announcements Script.answer Sample.nov3
         (Script.start Scenario.bse_script))
  = Done (Return [ {| agency := "BSE (Equity)"; company := "ACME Ltd";
                      date := "03/11/2026"; action := "Board Meeting";
                      timestamp := "2026-11-03T09:30:00" |} ]).
Proof. reflexivity. Qed.

(** C3 fails as stated on the BSE scraper: the pages served hold one
    candidate record, whose first cell is dated 01/01/2020; the scraper
    builds its one alert from that record, taking the company and the action
    from its second and third cells, and dates it 03/11/2026, a text that
    occurs in no string of any page served. *)
Lemma bse_date_not_from_record_counterexample :
  exists a s' row,
    scrape_bse_announcements Script.answer Sample.nov3
      (Script.start Scenario.bse_script) = (Done (Return [a]), s') /\
    flat_map bse_candidates (snapshots (history s')) = [row] /\
    cell row 0 "01/01/2020" /\
    cell row 1 (company a) /\ cell row 2 (action a) /\
    date a = "03/11/2026" /\
    ~ cell row 0 (date a) /\
    (forall soup text, In soup (snapshots (history s')) ->
                       In text (all_strings soup) ->
                       contains (date a) text = false).
Proof.
  eexists. eexists. eexists.
  split; [vm_compute; reflexivity|].
  split; [vm_compute; reflexivity|].
  split; [eexists; split; reflexivity|].
  split; [eexists; split; reflexivity|].
  split; [eexists; split; reflexivity|].
  split; [reflexivity|].
  split.
  - intros (c & Hc & Ht). vm_compute in Hc. injection Hc as <-.
    vm_compute in Ht. discriminate.
  - intros soup text Hs Ht.
    assert (H : forallb (fun soup => forallb (fun text => negb (contains "03/11/2026" text))
                                            (all_strings soup))
                        (snapshots (history (snd (scrape_bse_announcements Script.answer
                            Sample.nov3 (Script.start Scenario.bse_script))))) = true)
      by (vm_compute; reflexivity).
    rewrite forallb_forall in H. specialize (H soup Hs).
    rewrite forallb_forall in H. specialize (H text Ht).
    now apply negb_true_iff in H.
Qed.

(* ================================================================== *)
(** * The stale locals of the NSE scraper *)

Example nse_run_alerts :
  fst (scrape_nse_announcements Script.answer Sample.nov3
         (Script.start NseScenario.nse_script))
  = Done (Return [ {| agency := "NSE (Equity)"; company := "ACME Ltd";
                      date := "03-Nov-2026 10:15";
                      action := "Outcome of Board Meeting";
                      timestamp := "2026-11-03T09:30:00" |};
                   {| agency := "NSE (Debt)"; company := "ACME Ltd";
                      date := "03-Nov-2026 10:15";
                      action := "Outcome of Board Meeting";
                      timestamp := "2026-11-03T09:30:00" |} ]).
Proof. reflexivity. Qed.

(** C10 fails as stated on the first row of the second segment: the header
    row of the Debt table has no cell, it is the first record of its segment,
    and still it is not skipped: the locals hold the values of the last
    Equity record, and one more alert is appended. *)
Lemma nse_first_row_of_segment_counterexample :
  short_tr Scenario.header_row = true /\
  nse_candidates NseScenario.nse_debt_page = [Scenario.header_row] /\
  nse_row Sample.nov3 "Debt" Scenario.header_row
    (nse_rows Sample.nov3 "Equity" (nse_candidates NseScenario.nse_equity_page)
       (nse_unbound, []))
  <> nse_rows Sample.nov3 "Equity" (nse_candidates NseScenario.nse_equity_page)
       (nse_unbound, []).
Proof.
  split; [reflexivity|]. split; [reflexivity|]. vm_compute. discriminate.
Qed.

(* ================================================================== *)
(** * Exceptions stay inside, and the scrapers return *)

Section NoRaise.

Variable W : Type.
Variable answer : forall A : Type, request A -> W -> result A * W.
Variable today : datetime.

(** a body under [except Exception: return a] lets no exception out *)
Lemma try_except_ret_no_raise {A} (c : M W A) (a : A) (s : system W) (e : exn) :
  fst (try_exceptM c (fun _ => ret a) s) <> Done (Raise e).
Proof.
  unfold try_exceptM. destruct (c s) as [[[x|e']|] s']; simpl; discriminate.
Qed.

Lemma scrapers_no_raise (fuel : nat) (name : string) (f : M W (list alert))
  (s : system W) (e : exn) :
  In (name, f) (scrapers answer today fuel) -> fst (f s) <> Done (Raise e).
Proof.
  unfold scrapers. intros H.
  repeat (destruct H as [[= <- <-]|H]); try contradiction;
    apply try_except_ret_no_raise.
Qed.

Lemma scrapers_without_driver (fuel : nat) (name : string) (f : M W (list alert))
  (h : list event) :
  In (name, f) (scrapers answer today fuel) ->
  f {| driver := None; history := h |}
  = (Done (Return []), {| driver := None; history := h |}).
Proof.
  unfold scrapers. intros H.
  repeat (destruct H as [[= <- <-]|H]); try contradiction; reflexivity.
Qed.

(** one turn of the runner: an exception of the scraper is swallowed and the
    remaining scrapers run from the state it left *)
Lemma run_scrapers_step (name : string) (f : M W (list alert))
  (rest : list (string * M W (list alert))) (all_alerts : list alert) (s : system W) :
  run_scrapers ((name, f) :: rest) all_alerts s =
  match f s with
  | (Done (Return agency_alerts), s') =>
      run_scrapers rest (app all_alerts agency_alerts) s'
  | (Done (Raise _), s') => run_scrapers rest all_alerts s'
  | (OutOfFuel, s') => (OutOfFuel, s')
  end.
Proof.
  simpl. unfold bindM, try_exceptM, sleep, ret.
  destruct (f s) as [[[a|e]|] s']; reflexivity.
Qed.

Lemma run_scrapers_no_raise (l : list (string * M W (list alert)))
  (all_alerts : list alert) (s : system W) (e : exn) :
  fst (run_scrapers l all_alerts s) <> Done (Raise e).
Proof.
  revert all_alerts s. induction l as [|[name f] rest IH]; intros all_alerts s.
  - simpl. discriminate.
  - rewrite run_scrapers_step. destruct (f s) as [[[a|e']|] s']; auto. discriminate.
Qed.

End NoRaise.

Section Termination.

Variable W : Type.
Variable answer : forall A : Type, request A -> W -> result A * W.
Variable size : W -> nat.
Hypothesis size_answer :
  forall (A : Type) (q : request A) (w : W), size (snd (answer q w)) <= size w.
(** every answer that is not an exception uses the browser up a little *)
Hypothesis size_return :
  forall (A : Type) (q : request A) (w : W) (a : A) (w' : W),
    answer q w = (Return a, w') -> size w' < size w.
Variable today : datetime.

Ltac ends_leaf := split; [discriminate | solve_ext].

Lemma next_page_ends (xpath : string) (s : system W) :
  wp (next_page answer xpath) (ends size s) s.
Proof. unfold next_page, ends. wp_run; ends_leaf. Qed.

Lemma icra_date_filter_ends (s : system W) :
  wp (icra_date_filter answer today) (ends size s) s.
Proof. unfold icra_date_filter, ends. wp_run; ends_leaf. Qed.

Lemma sebi_date_filter_ends (s : system W) :
  wp (sebi_date_filter answer today) (ends size s) s.
Proof. unfold sebi_date_filter, ends. wp_run; ends_leaf. Qed.

Lemma bse_date_fields_ends (current_date : string) (s : system W) :
  wp (bse_date_fields answer current_date) (ends size s) s.
Proof. unfold bse_date_fields, ends. wp_run; ends_leaf. Qed.

Lemma bse_submit_ends (s : system W) : wp (bse_submit answer) (ends size s) s.
Proof. unfold bse_submit, ends. wp_run; ends_leaf. Qed.

Lemma nse_tab_ends (segment : string) (s : system W) :
  wp (nse_tab answer segment) (ends size s) s.
Proof. unfold nse_tab, ends. wp_run; ends_leaf. Qed.

Lemma select_option_ends (segment : string) (options : list WebElement) (s : system W) :
  wp (select_option answer segment options) (ends size s) s.
Proof.
  revert s. induction options as [|option rest IH]; intros s; simpl.
  - unfold ends. wp_run. ends_leaf.
  - wp_step. wp_step; [ends_leaf| |ends_leaf].
    wp_step; [unfold ends; wp_run; ends_leaf|].
    eapply wp_mono; [apply IH|]. intros o s' [Hn He]. split; [exact Hn | solve_ext].
Qed.

Lemma bse_select_segment_ends (segment : string) (s : system W) :
  wp (bse_select_segment answer segment) (ends size s) s.
Proof.
  unfold bse_select_segment. wp_step. wp_step.
  wp_step; [unfold ends; wp_run; ends_leaf | | unfold ends; wp_run; ends_leaf].
  wp_step. wp_step; [unfold ends; wp_run; ends_leaf | | unfold ends; wp_run; ends_leaf].
  eapply wp_mono; [apply select_option_ends|].
  intros o s' [Hn He]. destruct o as [[[]|e]|];
    [ends_leaf | unfold ends; wp_run; ends_leaf | congruence].
Qed.

(** a loop whose every further turn uses the browser up ends within as many
    turns as the browser has size *)
Lemma while_ends {S} (body : S -> M W (ctl S)) :
  (forall st s,
      wp (body st) (fun o s' => match o with
                                | Done (Return (Continue _)) => weight size s' < weight size s
                                | OutOfFuel => False
                                | _ => weight size s' <= weight size s
                                end /\ ext size s s') s) ->
  forall fuel st s,
    weight size s < fuel -> wp (while_true fuel body st) (ends size s) s.
Proof.
  intros Hbody. induction fuel as [|fuel IH]; intros st s Hlt; [lia|].
  simpl. apply wp_bind. eapply wp_mono; [apply Hbody|].
  intros o s1 [Ho He]. destruct o as [[[st1|st1]|e]|]; cbv beta iota.
  - eapply wp_mono; [apply IH; lia|]. intros o2 s2 [Hn He2].
    split; [exact Hn | solve_ext].
  - wp_step. split; [discriminate | exact He].
  - split; [discriminate | exact He].
  - contradiction.
Qed.

Lemma paged_body_uses candidates row (xpath : string) (st : list alert * nat)
  (s : system W) :
  wp (paged_body answer candidates row xpath st)
     (fun o s' => match o with
                  | Done (Return (Continue _)) => weight size s' < weight size s
                  | OutOfFuel => False
                  | _ => weight size s' <= weight size s
                  end /\ ext size s s') s.
Proof.
  destruct st as [alerts page_num]. unfold paged_body.
  wp_step. wp_step; [split; solve_ext | | split; solve_ext].
  apply wp_bind. eapply wp_mono; [apply next_page_ends|].
  intros o s1 [Hn He]. destruct o as [[[|]|e]|]; cbv beta iota.
  - wp_step. split; solve_ext.
  - wp_step. split; solve_ext.
  - split; solve_ext.
  - congruence.
Qed.

Lemma scroll_body_uses (last : jsval) (s : system W) :
  wp (scroll_body answer last)
     (fun o s' => match o with
                  | Done (Return (Continue _)) => weight size s' < weight size s
                  | OutOfFuel => False
                  | _ => weight size s' <= weight size s
                  end /\ ext size s s') s.
Proof. unfold scroll_body. wp_run; split; solve_ext. Qed.

Lemma load_more_body_uses (st : unit) (s : system W) :
  wp (load_more_body answer st)
     (fun o s' => match o with
                  | Done (Return (Continue _)) => weight size s' < weight size s
                  | OutOfFuel => False
                  | _ => weight size s' <= weight size s
                  end /\ ext size s s') s.
Proof. unfold load_more_body. wp_run; split; solve_ext. Qed.

Lemma paged_scraper_ends candidates row (xpath : string) (fuel : nat)
  (s0 s : system W) :
  weight size s < fuel -> ext size s0 s ->
  wp (bindM (while_true fuel (paged_body answer candidates row xpath) ([], 1))
            (fun st => ret (fst st)))
     (fun o s' => match o with
                  | Done (Raise e) => wp (ret (@nil alert)) (ends size s0) s'
                  | other => ends size s0 other s'
                  end) s.
Proof.
  intros Hlt He. apply wp_bind.
  eapply wp_mono; [apply while_ends; [apply paged_body_uses | exact Hlt]|].
  intros o s1 [Hn He1]. destruct o as [[st|e]|]; cbv beta iota.
  - wp_step. ends_leaf.
  - wp_step. ends_leaf.
  - congruence.
Qed.

Lemma scrape_icra_ends (fuel : nat) (s : system W) :
  weight size s < fuel -> wp (scrape_icra_ratings answer today fuel) (ends size s) s.
Proof.
  intros Hlt. unfold scrape_icra_ratings.
  wp_step. wp_step. wp_step. wp_step; [wp_step; ends_leaf|].
  wp_step. wp_step; [wp_step; ends_leaf| |wp_step; ends_leaf].
  wp_step. wp_step. apply wp_bind. eapply wp_mono; [apply icra_date_filter_ends|].
  intros o s1 [Hn He1]. destruct o as [[[]|e]|]; cbv beta iota;
    [|wp_step; ends_leaf|congruence].
  apply paged_scraper_ends; solve_ext.
Qed.

Lemma scrape_sebi_ends (fuel : nat) (s : system W) :
  weight size s < fuel -> wp (scrape_sebi_announcements answer today fuel) (ends size s) s.
Proof.
  intros Hlt. unfold scrape_sebi_announcements.
  wp_step. wp_step. wp_step. wp_step; [wp_step; ends_leaf|].
  wp_step. wp_step; [wp_step; ends_leaf| |wp_step; ends_leaf].
  wp_step. wp_step. apply wp_bind. eapply wp_mono; [apply sebi_date_filter_ends|].
  intros o s1 [Hn He1]. destruct o as [[[]|e]|]; cbv beta iota;
    [|wp_step; ends_leaf|congruence].
  apply paged_scraper_ends; solve_ext.
Qed.

Lemma scrape_acuite_ends (fuel : nat) (s : system W) :
  weight size s < fuel -> wp (scrape_acuite_ratings answer today fuel) (ends size s) s.
Proof.
  intros Hlt. unfold scrape_acuite_ratings.
  wp_step. wp_step. wp_step. wp_step; [wp_step; ends_leaf|].
  wp_step. wp_step; [wp_step; ends_leaf| |wp_step; ends_leaf].
  wp_step. wp_step.
  apply paged_scraper_ends; solve_ext.
Qed.

Lemma scrape_careedge_ends (fuel : nat) (s : system W) :
  weight size s < fuel -> wp (scrape_careedge_ratings answer today fuel) (ends size s) s.
Proof.
  intros Hlt. unfold scrape_careedge_ratings.
  wp_step. wp_step. wp_step. wp_step; [wp_step; ends_leaf|].
  wp_step. wp_step; [wp_step; ends_leaf| |wp_step; ends_leaf].
  wp_step. wp_step. cbv zeta. wp_step.
  wp_step. wp_step; [wp_step; [wp_step; ends_leaf | wp_step; ends_leaf] | |
                     wp_step; [wp_step; ends_leaf | wp_step; ends_leaf]].
  wp_step. wp_step; [wp_step; [wp_step; ends_leaf | wp_step; ends_leaf] | |
                     wp_step; [wp_step; ends_leaf | wp_step; ends_leaf]].
  apply wp_bind.
  eapply wp_mono; [apply while_ends; [apply scroll_body_uses | solve_ext]|].
  intros o s1 [Hn He1]. destruct o as [[last|e]|]; cbv beta iota;
    [|wp_step; [wp_step; ends_leaf | wp_step; ends_leaf] | congruence].
  unfold careedge_extract. wp_step.
  wp_step; [wp_step; [wp_step; ends_leaf | wp_step; ends_leaf] | |
            wp_step; [wp_step; ends_leaf | wp_step; ends_leaf]].
  wp_step. ends_leaf.
Qed.

Lemma scrape_crisil_ends (fuel : nat) (s : system W) :
  weight size s < fuel -> wp (scrape_crisil_ratings answer today fuel) (ends size s) s.
Proof.
  intros Hlt. unfold scrape_crisil_ratings.
  wp_step. wp_step. wp_step. wp_step; [wp_step; ends_leaf|].
  wp_step. wp_step; [wp_step; ends_leaf| |wp_step; ends_leaf].
  wp_step. wp_step. cbv zeta.
  apply wp_bind.
  eapply wp_mono; [apply while_ends; [apply load_more_body_uses | solve_ext]|].
  intros o s1 [Hn He1]. destruct o as [[[]|e]|]; cbv beta iota;
    [|wp_step; ends_leaf|congruence].
  unfold crisil_extract. wp_step.
  wp_step; [wp_step; ends_leaf| |wp_step; ends_leaf].
  wp_step. ends_leaf.
Qed.

Lemma bse_segment_ends (current_date segment : string) (alerts : list alert)
  (s : system W) :
  wp (bse_segment answer today current_date segment alerts) (ends size s) s.
Proof.
  unfold bse_segment.
  wp_step. apply wp_bind. eapply wp_mono; [apply bse_select_segment_ends|].
  intros o s1 [Hn He1]. destruct o as [[[]|e]|]; cbv beta iota;
    [|wp_step; ends_leaf | congruence].
  apply wp_bind. eapply wp_mono; [apply bse_submit_ends|].
  intros o s2 [Hn2 He2]. destruct o as [[[]|e]|]; cbv beta iota;
    [|wp_step; ends_leaf | congruence].
  wp_step. wp_step; [wp_step; ends_leaf | | wp_step; ends_leaf].
  wp_step. ends_leaf.
Qed.

Lemma nse_segment_ends (segment : string) (st : nse_locals * list alert)
  (s : system W) :
  wp (nse_segment answer today segment st) (ends size s) s.
Proof.
  unfold nse_segment.
  wp_step. apply wp_bind. eapply wp_mono; [apply nse_tab_ends|].
  intros o s1 [Hn He1]. destruct o as [[found|e]|]; cbv beta iota;
    [|wp_step; ends_leaf | congruence].
  destruct found; [|wp_step; ends_leaf].
  wp_step. wp_step; [wp_step; ends_leaf | | wp_step; ends_leaf].
  wp_step. ends_leaf.
Qed.

Lemma for_each_ends {X S} (l : list X) (body : X -> S -> M W S) :
  (forall x st s, wp (body x st) (ends size s) s) ->
  forall st s, wp (for_each l body st) (ends size s) s.
Proof.
  intros Hbody st s.
  apply (wp_for_each (fun _ s1 => ext size s s1)).
  - intros st1 s1 He. split; [discriminate | exact He].
  - intros x st1 s1 _ He. eapply wp_mono; [apply Hbody|].
    intros o s2 [Hn He2]. destruct o as [[st2|e]|]; [|ends_leaf|congruence].
    solve_ext.
  - solve_ext.
Qed.

Lemma scrape_bse_ends (s : system W) :
  wp (scrape_bse_announcements answer today) (ends size s) s.
Proof.
  unfold scrape_bse_announcements.
  wp_step. wp_step. wp_step. wp_step; [wp_step; ends_leaf|].
  cbv zeta. wp_step. wp_step; [wp_step; ends_leaf| |wp_step; ends_leaf].
  wp_step. wp_step. apply wp_bind. eapply wp_mono; [apply bse_date_fields_ends|].
  intros o s1 [Hn He1]. destruct o as [[[]|e]|]; cbv beta iota;
    [|wp_step; ends_leaf|congruence].
  eapply wp_mono; [apply for_each_ends; intros; apply bse_segment_ends|].
  intros o s2 [Hn2 He2]. destruct o as [[st|e]|]; [ends_leaf | wp_step; ends_leaf | congruence].
Qed.

Lemma scrape_nse_ends (s : system W) :
  wp (scrape_nse_announcements answer today) (ends size s) s.
Proof.
  unfold scrape_nse_announcements.
  wp_step. wp_step. wp_step. wp_step; [wp_step; ends_leaf|].
  cbv zeta. wp_step. wp_step; [wp_step; ends_leaf| |wp_step; ends_leaf].
  wp_step. wp_step. apply wp_bind.
  eapply wp_mono; [apply for_each_ends; intros; apply nse_segment_ends|].
  intros o s2 [Hn2 He2]. destruct o as [[st|e]|]; cbv beta iota;
    [wp_step; ends_leaf | wp_step; ends_leaf | congruence].
Qed.

Lemma scrapers_end (fuel : nat) (name : string) (f : M W (list alert)) (s : system W) :
  In (name, f) (scrapers answer today fuel) ->
  weight size s < fuel -> wp f (ends size s) s.
Proof.
  unfold scrapers. intros H Hlt.
  repeat (destruct H as [[= <- <-]|H]); try contradiction;
    auto using scrape_icra_ends, scrape_careedge_ends, scrape_acuite_ends,
               scrape_crisil_ends, scrape_bse_ends, scrape_nse_ends, scrape_sebi_ends.
Qed.

Lemma run_scrapers_end (fuel : nat) (l : list (string * M W (list alert))) :
  (forall name f s, In (name, f) l -> weight size s < fuel -> wp f (ends size s) s) ->
  forall all_alerts s,
    weight size s < fuel -> wp (run_scrapers l all_alerts) (ends size s) s.
Proof.
  induction l as [|[name f] rest IH]; intros Hl all_alerts s Hlt.
  - simpl. wp_step. ends_leaf.
  - simpl. wp_step. wp_step. wp_step.
    eapply wp_mono; [apply (Hl name f s); [left; reflexivity | exact Hlt]|].
    intros o s1 [Hn He1].
    assert (Hlt1 : weight size s1 < fuel) by (destruct He1; lia).
    assert (Hrest : forall n0 f0 s2, In (n0, f0) rest -> weight size s2 < fuel ->
                                     wp f0 (ends size s2) s2)
      by (intros n0 f0 s2 Hin; apply (Hl n0 f0 s2); right; exact Hin).
    destruct o as [[agency_alerts|e]|]; cbv beta iota; [| |congruence].
    + wp_step. wp_step. wp_step.
      eapply wp_mono; [apply (IH Hrest); exact Hlt1|].
      intros o2 s2 [Hn2 He2]. split; [exact Hn2 | solve_ext].
    + wp_step.
      eapply wp_mono; [apply (IH Hrest); exact Hlt1|].
      intros o2 s2 [Hn2 He2]. split; [exact Hn2 | solve_ext].
Qed.

(** with fuel beyond the size of the browser, a scraper returns a list *)
Lemma scrapers_return (fuel : nat) (name : string) (f : M W (list alert)) (s : system W) :
  In (name, f) (scrapers answer today fuel) ->
  weight size s < fuel ->
  exists alerts s', f s = (Done (Return alerts), s').
Proof.
  intros Hin Hlt.
  pose proof (@scrapers_end fuel name f s Hin Hlt) as [Hn _].
  pose proof (fun e => @scrapers_no_raise W answer today fuel name f s e Hin) as Hr.
  destruct (f s) as [[[alerts|e]|] s'] eqn:E; simpl in *.
  - eauto.
  - exfalso. exact (Hr e eq_refl).
  - congruence.
Qed.

Lemma run_all_returns (fuel : nat) (s : system W) :
  weight size s < fuel ->
  exists alerts s', run_all_scrapers answer today fuel s = (Done (Return alerts), s').
Proof.
  intros Hlt. unfold run_all_scrapers.
  pose proof (@run_scrapers_end fuel (scrapers answer today fuel)
                (fun name f s1 Hin => @scrapers_end fuel name f s1 Hin) [] s Hlt)
    as [Hn _].
  pose proof (@run_scrapers_no_raise W (scrapers answer today fuel) [] s) as Hr.
  destruct (run_scrapers (scrapers answer today fuel) [] s) as [[[alerts|e]|] s'];
    simpl in *.
  - eauto.
  - exfalso. exact (Hr e eq_refl).
  - congruence.
Qed.

End Termination.

Lemma script_size_answer (A : Type) (q : request A) (w : list Script.response) :
  List.length (snd (Script.answer q w)) <= List.length w.
Proof. destruct w; simpl; lia. Qed.

Lemma script_size_return (A : Type) (q : request A) (w : list Script.response)
  (a : A) (w' : list Script.response) :
  Script.answer q w = (Return a, w') -> List.length w' < List.length w.
Proof. destruct w; simpl; [discriminate|]. intros [= _ <-]. lia. Qed.

Example icra_navigation_fault :
  fst (scrape_icra_ratings Script.answer Sample.nov3 1
         (Script.start [Script.RRaise WebDriverException]))
  = Done (Return []).
Proof. reflexivity. Qed.

Example run_with_dead_browser :
  fst (run_all_scrapers Script.answer Sample.nov3 1 (Script.start []))
  = Done (Return []).
Proof. reflexivity. Qed.

(** C4: a scraper never lets an exception out, whatever the browser
    answers; without a browser session it returns the empty list at once; in
    the runner an exception of one scraper is swallowed and the scrapers
    after it still run; and on a browser that gives finitely many answers
    every scraper, and the whole run, returns a list. *)
Theorem scrapers_return_and_never_raise :
  (forall W (answer : forall A : Type, request A -> W -> result A * W)
          today fuel name f s e,
      In (name, f) (scrapers answer today fuel) -> fst (f s) <> Done (Raise e)) /\
  (forall W (answer : forall A : Type, request A -> W -> result A * W)
          today fuel name f h,
      In (name, f) (scrapers answer today fuel) ->
      f {| driver := None; history := h |}
      = (Done (Return []), {| driver := None; history := h |})) /\
  (forall W name (f : M W (list alert)) rest all_alerts s,
      run_scrapers ((name, f) :: rest) all_alerts s =
      match f s with
      | (Done (Return agency_alerts), s') =>
          run_scrapers rest (app all_alerts agency_alerts) s'
      | (Done (Raise _), s') => run_scrapers rest all_alerts s'
      | (OutOfFuel, s') => (OutOfFuel, s')
      end) /\
  (forall today script fuel name f,
      List.length script < fuel ->
      In (name, f) (scrapers Script.answer today fuel) ->
      exists alerts s', f (Script.start script) = (Done (Return alerts), s')) /\
  (forall today script fuel,
      List.length script < fuel ->
      exists alerts s',
        run_all_scrapers Script.answer today fuel (Script.start script)
        = (Done (Return alerts), s')).
Proof.
  split; [|split; [|split; [|split]]].
  - intros. eapply scrapers_no_raise; eassumption.
  - intros. eapply scrapers_without_driver; eassumption.
  - intros. apply run_scrapers_step.
  - intros today script fuel name f Hlt Hin.
    eapply (@scrapers_return _ Script.answer (@List.length Script.response));
      [exact script_size_answer | exact script_size_return | exact Hin | exact Hlt].
  - intros today script fuel Hlt.
    eapply (@run_all_returns _ Script.answer (@List.length Script.response));
      [exact script_size_answer | exact script_size_return | exact Hlt].
Qed.

(* ================================================================== *)
(** * The scroll loop of the CareEdge scraper *)

Section ScrollFacts.

Lemma jsval_eqb_eq (a b : jsval) : jsval_eqb a b = true -> a = b.
Proof.
  destruct a as [|x], b as [|y]; simpl; try discriminate; [reflexivity|].
  intros H. apply Z.eqb_eq in H. now subst.
Qed.

Lemma heights_measure (v : jsval) (h : list event) :
  heights (Called (ExecuteScript scroll_height_script) (Return v) :: h) = v :: heights h.
Proof. reflexivity. Qed.

Lemma heights_scroll (r : result jsval) (h : list event) :
  heights (Called (ExecuteScript scroll_to_script) r :: h) = heights h.
Proof. destruct r; reflexivity. Qed.

Variable W : Type.
Variable answer : forall A : Type, request A -> W -> result A * W.

Lemma scroll_loop_heights (fuel : nat) (last : jsval) (s : system W) :
  wp (while_true fuel (scroll_body answer) last)
     (fun o s' =>
        match o with
        | Done (Return _) =>
            exists recent,
              history s' = (recent ++ history s)%list /\
              first_repeat_last (heights recent ++ [last])%list
        | OutOfFuel =>
            exists recent,
              history s' = (recent ++ history s)%list /\
              adjacent_distinct (heights recent ++ [last])%list = true
        | Done (Raise _) => True
        end) s.
Proof.
  apply (wp_while
           (fun last1 s1 =>
              exists recent rest,
                history s1 = (recent ++ history s)%list /\
                (heights recent ++ [last])%list = last1 :: rest /\
                adjacent_distinct (last1 :: rest) = true)).
  - intros last1 s1 (recent & rest & Hh & Hm & Hd).
    exists recent. split; [exact Hh | now rewrite Hm].
  - intros last1 s1 (recent & rest & Hh & Hm & Hd).
    unfold scroll_body. wp_step. wp_step; [exact I| |exact I].
    wp_step. wp_step. wp_step. wp_step; [exact I| |exact I].
    destruct (jsval_eqb a0 last1) eqn:E.
    + wp_step. apply jsval_eqb_eq in E. subst a0.
      eexists (_ :: _ :: recent). cbn [history]. split; [rewrite Hh; reflexivity|].
      exists last1, rest. split; [|exact Hd].
      rewrite heights_measure, heights_scroll. simpl app. now rewrite Hm.
    + wp_step. eexists (_ :: _ :: recent), (last1 :: rest). cbn [history].
      split; [rewrite Hh; reflexivity|]. split.
      * rewrite heights_measure, heights_scroll. simpl app. now rewrite Hm.
      * cbn [adjacent_distinct]. rewrite E. exact Hd.
  - exists [], []. repeat split; reflexivity.
Qed.

End ScrollFacts.

Lemma while_true_step {W S} (fuel : nat) (body : S -> M W (ctl S)) (st : S)
  (s : system W) :
  while_true (Datatypes.S fuel) body st s =
  match body st s with
  | (Done (Return (Continue st')), s') => while_true fuel body st' s'
  | (Done (Return (Break st')), s') => (Done (Return st'), s')
  | (Done (Raise e), s') => (Done (Raise e), s')
  | (OutOfFuel, s') => (OutOfFuel, s')
  end.
Proof.
  simpl. unfold bindM. destruct (body st s) as [[[[st'|st']|e]|] s']; reflexivity.
Qed.

Lemma scroll_body_script (last v : jsval) (tail : list Script.response)
  (h : list event) :
  scroll_body Script.answer last
    {| driver := Some (Script.RJs JsNone :: Script.RJs v :: tail); history := h |}
  = (Done (Return (if jsval_eqb v last then Break last else Continue v)),
     {| driver := Some tail;
        history := Called (ExecuteScript scroll_height_script) (Return v)
                   :: Called (ExecuteScript scroll_to_script) (Return JsNone) :: h |}).
Proof.
  unfold scroll_body, bindM, call, sleep, ret. simpl.
  destruct (jsval_eqb v last); reflexivity.
Qed.

(** the loop on a page that grows [n] times runs out of [n] units of fuel
    and stops with [n + 1] *)
Lemma growing_needs_fuel (n : nat) (k : Z) (tail : list Script.response)
  (h : list event) :
  fst (while_true n (scroll_body Script.answer) (JsNum k)
         {| driver := Some (growing k n ++ tail)%list; history := h |}) = OutOfFuel /\
  fst (while_true (S n) (scroll_body Script.answer) (JsNum k)
         {| driver := Some (growing k n ++ tail)%list; history := h |})
  = Done (Return (JsNum (k + Z.of_nat n))).
Proof.
  revert k h. induction n as [|n IH]; intros k h.
  - split; [reflexivity|].
    rewrite while_true_step. simpl growing. simpl app.
    rewrite scroll_body_script. simpl jsval_eqb. rewrite Z.eqb_refl.
    simpl. now rewrite Z.add_0_r.
  - assert (E : (k + 1 =? k)%Z = false) by (apply Z.eqb_neq; lia).
    replace (k + Z.of_nat (S n))%Z with (k + 1 + Z.of_nat n)%Z by lia.
    split.
    + rewrite while_true_step. simpl growing. simpl app.
      rewrite scroll_body_script. simpl jsval_eqb. rewrite E. apply IH.
    + rewrite while_true_step. simpl growing. simpl app.
      rewrite scroll_body_script. simpl jsval_eqb. rewrite E. apply IH.
Qed.

Lemma for_each_row_app body (rows1 rows2 : list node) (alerts : list alert) :
  for_each_row body (rows1 ++ rows2)%list alerts =
  for_each_row body rows2 (for_each_row body rows1 alerts).
Proof. unfold for_each_row. apply fold_left_app. Qed.

Example scroll_three_times :
  fst (while_true 4 (scroll_body Script.answer) (JsNum 0)
         (Script.start (growing 0 3))) = Done (Return (JsNum 3)) /\
  fst (while_true 3 (scroll_body Script.answer) (JsNum 0)
         (Script.start (growing 0 3))) = OutOfFuel.
Proof. split; reflexivity. Qed.

(** C8: the scroll loop stops exactly at the first measurement that equals
    the one before it: when it has stopped, the two latest heights are equal
    and no two neighbours before them are, and while it has not, no two
    neighbouring heights are equal; no number of turns bounds it, for a page
    that grows [n] times keeps it running for [n] turns and stops it at turn
    [n + 1]; and the records are processed afterwards by a loop that only
    appends, so the number of alerts never goes down. *)
Theorem scroll_loop_stops_at_fixed_point :
  (forall W (answer : forall A : Type, request A -> W -> result A * W)
          fuel last s,
      let '(o, s') := while_true fuel (scroll_body answer) last s in
      match o with
      | Done (Return _) =>
          exists recent,
            history s' = (recent ++ history s)%list /\
            first_repeat_last (heights recent ++ [last])%list
      | OutOfFuel =>
          exists recent,
            history s' = (recent ++ history s)%list /\
            adjacent_distinct (heights recent ++ [last])%list = true
      | Done (Raise _) => True
      end) /\
  (forall n,
      fst (while_true n (scroll_body Script.answer) (JsNum 0)
             (Script.start (growing 0 n))) = OutOfFuel /\
      fst (while_true (S n) (scroll_body Script.answer) (JsNum 0)
             (Script.start (growing 0 n))) = Done (Return (JsNum (Z.of_nat n)))) /\
  (forall today rows1 rows2 alerts,
      exists added,
        for_each_row (careedge_row today) (rows1 ++ rows2)%list alerts
        = (for_each_row (careedge_row today) rows1 alerts ++ added)%list).
Proof.
  split; [|split].
  - intros W answer fuel last s.
    pose proof (scroll_loop_heights answer fuel last s) as H. unfold wp in H.
    destruct (while_true fuel (scroll_body answer) last s) as [o s']. exact H.
  - intros n. unfold Script.start.
    rewrite <- (app_nil_r (growing 0 n)).
    exact (growing_needs_fuel n 0 [] []).
  - intros today rows1 rows2 alerts. rewrite for_each_row_app.
    destruct (for_each_row_appends rows2 (for_each_row (careedge_row today) rows1 alerts)
                (hinted_row_emits today _ _ _ _
                 : emits (careedge_row today) (careedge_reads today)))
      as (added & E & _).
    exists added. exact E.
Qed.

(* ================================================================== *)
(** * The Load More loop of the CRISIL scraper *)

Section LoadMoreFacts.

Lemma exn_eqb_eq (a b : exn) : exn_eqb a b = true -> a = b.
Proof. destruct a, b; simpl; congruence. Qed.

Lemma quiet_refl (h : list event) : quiet h h.
Proof. exists []. split; reflexivity. Qed.

Lemma quiet_cons (h h' : list event) (ev : event) :
  is_page_source ev = false -> quiet h h' -> quiet h (ev :: h').
Proof.
  intros Hev (recent & -> & Hq). exists (ev :: recent). split; [reflexivity|].
  unfold page_calls in *. simpl. now rewrite Hev.
Qed.

Lemma quiet_trans (h1 h2 h3 : list event) : quiet h1 h2 -> quiet h2 h3 -> quiet h1 h3.
Proof.
  intros (r1 & -> & H1) (r2 & -> & H2). exists (r2 ++ r1)%list.
  split; [now rewrite app_assoc|].
  unfold page_calls in *. rewrite filter_app, length_app. lia.
Qed.

Variable W : Type.
Variable answer : forall A : Type, request A -> W -> result A * W.
Variable today : datetime.

Ltac solve_quiet :=
  cbn [history];
  repeat (apply quiet_cons; [reflexivity|]);
  first [ apply quiet_refl | eassumption ].

(** one turn of the loop: it goes on exactly after a click on a control that
    was found, displayed and enabled, and stops exactly on an answer that
    says the control is absent, hidden or disabled *)
Lemma load_more_body_turn (s : system W) :
  wp (load_more_body answer tt)
     (fun o s' =>
        quiet (history s) (history s') /\
        match o with
        | Done (Return (Continue _)) =>
            exists e, history s' = (clicked_once e ++ history s)%list
        | Done (Return (Break _)) =>
            exists ev h, history s' = ev :: h /\ exhausted ev
        | Done (Raise e) => e <> NoSuchElementException
        | OutOfFuel => False
        end) s.
Proof.
  unfold load_more_body. wp_run; (split; [solve_quiet|]); cbn [history];
    try match goal with
        | H : driver {| driver := Some _; history := _ |} = None |- _ => discriminate H
        end;
    try match goal with
        | H : exn_eqb ?a NoSuchElementException = _ |- _ =>
            first [ discriminate H
                  | apply exn_eqb_eq in H; subst
                  | idtac ]
        end.
  all: try (do 2 eexists; split; [reflexivity|];
            first [ left; do 2 eexists; reflexivity
                  | right; left; eexists; reflexivity
                  | right; right; eexists; reflexivity ]).
  all: try discriminate.
  all: try (intros ->; discriminate).
  exists a. destruct a0. reflexivity.
Qed.

Lemma load_more_loop_quiet (fuel : nat) (s : system W) :
  wp (while_true fuel (load_more_body answer) tt)
     (fun _ s' => quiet (history s) (history s')) s.
Proof.
  apply (wp_while (fun _ s1 => quiet (history s) (history s1)));
    [auto | | apply quiet_refl].
  intros [] s1 Hq. eapply wp_mono; [apply load_more_body_turn|].
  intros o s2 [Hq2 _].
  assert (Hq' : quiet (history s) (history s2)) by (eapply quiet_trans; eassumption).
  destruct o as [[[[]|[]]|e]|]; exact Hq'.
Qed.

(** in any session the scraper parses the page at most once, and nothing
    follows the parsing *)
Lemma scrape_crisil_parses_once (fuel : nat) (s : system W) :
  wp (scrape_crisil_ratings answer today fuel)
     (fun _ s' =>
        quiet (history s) (history s') \/
        exists r before,
          history s' = Called PageSource r :: before /\ quiet (history s) before) s.
Proof.
  unfold scrape_crisil_ratings.
  wp_step. wp_step. wp_step. wp_step; [wp_step; left; solve_quiet|].
  wp_step. wp_step; [wp_step; left; solve_quiet| |wp_step; left; solve_quiet].
  wp_step. wp_step. cbv zeta.
  apply wp_bind. eapply wp_mono; [apply load_more_loop_quiet|].
  intros o s1 Hq. cbn [history] in Hq.
  assert (Hq1 : quiet (history s) (history s1)).
  { eapply quiet_trans; [|exact Hq]. apply quiet_cons; [reflexivity | apply quiet_refl]. }
  destruct o as [[[]|e]|]; cbv beta iota;
    [|wp_step; left; exact Hq1 | left; exact Hq1].
  unfold crisil_extract. wp_step.
  wp_step; [wp_step; left; exact Hq1 | |].
  - wp_step. right. cbn [history]. eauto.
  - wp_step. right. cbn [history]. eauto.
Qed.

End LoadMoreFacts.

Lemma call_script {A} (q : request A) (r : Script.response)
  (w : list Script.response) (h : list event) :
  call Script.answer q {| driver := Some (r :: w); history := h |}
  = (Done (Script.decode q r),
     {| driver := Some w; history := Called q (Script.decode q r) :: h |}).
Proof. reflexivity. Qed.

Lemma load_more_body_click (tail : list Script.response) (h : list event) :
  load_more_body Script.answer tt
    {| driver := Some (Script.RElement 7 :: Script.RBool true :: Script.RBool true
                       :: Script.RNone :: tail);
       history := h |}
  = (Done (Return (Continue tt)),
     {| driver := Some tail; history := (clicked_once 7 ++ h)%list |}).
Proof. reflexivity. Qed.

Lemma load_more_body_absent (tail : list Script.response) (h : list event) :
  load_more_body Script.answer tt
    {| driver := Some (Script.RRaise NoSuchElementException :: tail); history := h |}
  = (Done (Return (Break tt)),
     {| driver := Some tail;
        history := Called (FindElement XPATH load_more_xpath)
                          (Raise NoSuchElementException) :: h |}).
Proof. reflexivity. Qed.

(** [n] clicks, then the control is absent: the loop ends, having parsed
    nothing and clicked [n] times *)
Lemma load_more_loop_clicks (n fuel : nat) (tail : list Script.response)
  (h : list event) :
  n < fuel ->
  exists h',
    while_true fuel (load_more_body Script.answer) tt
      {| driver := Some (load_more_clicks n tail); history := h |}
    = (Done (Return tt), {| driver := Some tail; history := h' |}) /\
    page_calls h' = page_calls h /\
    click_calls h' = n + click_calls h.
Proof.
  revert fuel h. induction n as [|n IH]; intros fuel h Hlt;
    (destruct fuel as [|fuel]; [lia|]); rewrite while_true_step; simpl load_more_clicks.
  - rewrite load_more_body_absent. eexists. split; [reflexivity|]. split; reflexivity.
  - rewrite load_more_body_click.
    destruct (IH fuel (clicked_once 7 ++ h)%list) as (h' & E & Hp & Hc); [lia|].
    exists h'. split; [exact E|]. split; [exact Hp|].
    rewrite Hc. unfold click_calls. simpl. lia.
Qed.

Lemma crisil_script_run (today : datetime) (n fuel : nat) (page : node) :
  n < fuel ->
  exists s',
    scrape_crisil_ratings Script.answer today fuel (Script.start (crisil_script n page))
    = (Done (Return (for_each_row (crisil_row today) (crisil_candidates page) [])), s') /\
    page_calls (history s') = 1 /\
    click_calls (history s') = n.
Proof.
  intros Hlt.
  destruct (@load_more_loop_clicks n fuel [Script.RPage page]
              [Called (Get "https://www.crisil.com/en/home/our-businesses/ratings/ratings-actions.html")
                      (Return tt)] Hlt)
    as (h' & E & Hp & Hc).
  eexists. split.
  - unfold scrape_crisil_ratings, crisil_script, Script.start, try_exceptM.
    unfold bindM at 1. unfold no_driver. cbn [driver].
    unfold bindM at 1. rewrite call_script. cbn [Script.decode Script.as_unit].
    unfold bindM at 1. unfold sleep at 1. unfold ret at 1.
    unfold bindM at 1. rewrite E.
    unfold crisil_extract, bindM. rewrite call_script. reflexivity.
  - cbn [history]. unfold page_calls, click_calls in *. simpl. rewrite Hp, Hc. simpl. lia.
Qed.

Section LoadMoreEnd.

Variable W : Type.
Variable answer : forall A : Type, request A -> W -> result A * W.
Variable today : datetime.

Lemma load_more_loop_driver (fuel : nat) (s : system W) :
  wp (while_true fuel (load_more_body answer) tt)
     (fun o s' => o = Done (Return tt) -> driver s' <> None) s.
Proof.
  apply (wp_while (fun _ _ => True)); [discriminate | | exact I].
  intros [] s1 _. unfold load_more_body.
  wp_run; try exact I; try discriminate;
    try (intros _; cbn [driver]; discriminate).
  all: match goal with
       | H : exn_eqb AttributeError NoSuchElementException = true |- _ => discriminate H
       end.
Qed.

(** when the page has opened and the loop has ended, in [s2], the scraper
    parses the page of [s2], once, and returns what its records give *)
Lemma scrape_crisil_after_loop (fuel : nat) (s s2 : system W) (w0 w1 : W) :
  driver s = Some w0 ->
  answer (Get "https://www.crisil.com/en/home/our-businesses/ratings/ratings-actions.html") w0
  = (Return tt, w1) ->
  while_true fuel (load_more_body answer) tt
    {| driver := Some w1;
       history := Called (Get "https://www.crisil.com/en/home/our-businesses/ratings/ratings-actions.html")
                         (Return tt) :: history s |}
  = (Done (Return tt), s2) ->
  exists r s',
    scrape_crisil_ratings answer today fuel s
    = (Done (Return match r with
                    | Return soup =>
                        for_each_row (crisil_row today) (crisil_candidates soup) []
                    | Raise _ => []
                    end), s') /\
    history s' = Called PageSource r :: history s2 /\
    page_calls (history s2) = page_calls (history s).
Proof.
  intros Hd Hget Hloop.
  pose proof (load_more_loop_driver fuel
                {| driver := Some w1;
                   history := Called (Get "https://www.crisil.com/en/home/our-businesses/ratings/ratings-actions.html")
                                     (Return tt) :: history s |}) as Hdrv.
  pose proof (load_more_loop_quiet answer fuel
                {| driver := Some w1;
                   history := Called (Get "https://www.crisil.com/en/home/our-businesses/ratings/ratings-actions.html")
                                     (Return tt) :: history s |}) as Hq.
  unfold wp in Hdrv, Hq. rewrite Hloop in Hdrv, Hq. simpl in Hdrv, Hq.
  specialize (Hdrv eq_refl).
  destruct (driver s2) as [w2|] eqn:Hd2; [clear Hdrv | congruence].
  destruct (answer PageSource w2) as [r w3] eqn:Hpage.
  exists r. eexists. split; [|split].
  - unfold scrape_crisil_ratings, try_exceptM. unfold bindM at 1.
    unfold no_driver. rewrite Hd.
    unfold bindM at 1. unfold call at 1. rewrite Hd, Hget.
    unfold bindM at 1. unfold sleep at 1, ret at 1.
    unfold bindM at 1. rewrite Hloop.
    unfold crisil_extract, bindM, call. rewrite Hd2, Hpage.
    destruct r as [soup|e]; reflexivity.
  - destruct r; reflexivity.
  - destruct Hq as (recent & -> & Hz). unfold page_calls in *.
    rewrite filter_app, length_app, Hz. reflexivity.
Qed.

End LoadMoreEnd.

Example load_more_two_clicks :
  let s' := snd (scrape_crisil_ratings Script.answer Sample.nov3 3
                   (Script.start (crisil_script 2 (Sample.document [Sample.card])))) in
  page_calls (history s') = 1 /\ click_calls (history s') = 2.
Proof. split; reflexivity. Qed.

(** C7: in every session the CRISIL scraper parses the page at most once
    and makes no call after it; a turn of its loop goes on exactly after a
    click on a control that was found, displayed and enabled, and ends the
    loop exactly on an answer that says the control is absent, not displayed
    or disabled; whenever the page has opened and the loop has ended, after
    however many clicks, the page is parsed exactly once, in the state the
    loop ended in, and the alerts are those of its records; so it is when
    the control is clicked [n] times and is then absent, whatever [n] is. *)
Theorem load_more_extracts_once :
  (forall W (answer : forall A : Type, request A -> W -> result A * W)
          today fuel s,
      let s' := snd (scrape_crisil_ratings answer today fuel s) in
      quiet (history s) (history s') \/
      exists r before,
        history s' = Called PageSource r :: before /\ quiet (history s) before) /\
  (forall W (answer : forall A : Type, request A -> W -> result A * W) s,
      let '(o, s') := load_more_body answer tt s in
      match o with
      | Done (Return (Continue _)) =>
          exists e, history s' = (clicked_once e ++ history s)%list
      | Done (Return (Break _)) =>
          exists ev h, history s' = ev :: h /\ exhausted ev
      | Done (Raise e) => e <> NoSuchElementException
      | OutOfFuel => False
      end) /\
  (forall W (answer : forall A : Type, request A -> W -> result A * W)
          today fuel s s2 w0 w1,
      driver s = Some w0 ->
      answer _ (Get "https://www.crisil.com/en/home/our-businesses/ratings/ratings-actions.html") w0
      = (Return tt, w1) ->
      while_true fuel (load_more_body answer) tt
        {| driver := Some w1;
           history := Called (Get "https://www.crisil.com/en/home/our-businesses/ratings/ratings-actions.html")
                             (Return tt) :: history s |}
      = (Done (Return tt), s2) ->
      exists r s',
        scrape_crisil_ratings answer today fuel s
        = (Done (Return match r with
                        | Return soup =>
                            for_each_row (crisil_row today) (crisil_candidates soup) []
                        | Raise _ => []
                        end), s') /\
        history s' = Called PageSource r :: history s2 /\
        page_calls (history s2) = page_calls (history s)) /\
  (forall today n fuel page,
      n < fuel ->
      exists s',
        scrape_crisil_ratings Script.answer today fuel
          (Script.start (crisil_script n page))
        = (Done (Return (for_each_row (crisil_row today) (crisil_candidates page) [])),
           s') /\
        page_calls (history s') = 1 /\
        click_calls (history s') = n).
Proof.
  split; [|split; [|split]]; [| |intros; eapply scrape_crisil_after_loop; eassumption|].
  - intros W answer today fuel s.
    exact (scrape_crisil_parses_once answer today fuel s).
  - intros W answer s.
    pose proof (load_more_body_turn answer s) as H. unfold wp in H.
    destruct (load_more_body answer tt s) as [o s']. apply H.
  - intros today n fuel page Hlt. now apply crisil_script_run.
Qed.

(* ================================================================== *)
(** * The renderings of a date, and the date test on them *)

Section RenderingFacts.

Lemma digit_inj (a b : nat) : a < 10 -> b < 10 -> digit a = digit b -> a = b.
Proof.
  intros Ha Hb. unfold digit.
  rewrite (Nat.mod_small a 10 Ha), (Nat.mod_small b 10 Hb).
  do 10 (destruct a as [|a]; [do 10 (destruct b as [|b]; [first [reflexivity | discriminate]|]); lia|]).
  lia.
Qed.

Lemma digit_mod (n : nat) : digit n = digit (n mod 10).
Proof. unfold digit. now rewrite Nat.Div0.mod_mod. Qed.

Lemma digit_eq_mod (a b : nat) : digit a = digit b -> a mod 10 = b mod 10.
Proof.
  intros H. rewrite digit_mod, (digit_mod b) in H.
  apply digit_inj in H; [exact H | |]; apply Nat.mod_upper_bound; discriminate.
Qed.

Lemma two_digits_inj (a b : nat) :
  a < 100 -> b < 100 -> two_digits a = two_digits b -> a = b.
Proof.
  intros Ha Hb H. unfold two_digits in H.
  assert (H1 : digit (a / 10) = digit (b / 10)) by congruence.
  assert (H0 : digit a = digit b) by congruence. clear H.
  apply digit_eq_mod in H1, H0.
  assert (A1 : a / 10 < 10) by (apply Nat.Div0.div_lt_upper_bound; lia).
  assert (B1 : b / 10 < 10) by (apply Nat.Div0.div_lt_upper_bound; lia).
  rewrite !Nat.mod_small in H1 by assumption.
  pose proof (Nat.div_mod_eq a 10). pose proof (Nat.div_mod_eq b 10). lia.
Qed.

Lemma four_digits_inj (a b : nat) :
  a < 100 * 100 -> b < 100 * 100 -> four_digits a = four_digits b -> a = b.
Proof.
  intros Ha Hb H. unfold four_digits in H.
  assert (H3 : digit (a / 1000) = digit (b / 1000)) by congruence.
  assert (H2 : digit (a / 100) = digit (b / 100)) by congruence.
  assert (H1 : digit (a / 10) = digit (b / 10)) by congruence.
  assert (H0 : digit a = digit b) by congruence. clear H.
  apply digit_eq_mod in H3, H2, H1, H0.
  assert (A3 : a / 1000 < 10) by (apply Nat.Div0.div_lt_upper_bound; lia).
  assert (B3 : b / 1000 < 10) by (apply Nat.Div0.div_lt_upper_bound; lia).
  rewrite !Nat.mod_small in H3 by assumption.
  assert (E : forall n, n / 10 / 10 = n / 100 /\ n / 100 / 10 = n / 1000)
    by (intros n; rewrite !Nat.Div0.div_div; split; reflexivity).
  destruct (E a) as [Ea1 Ea2]. destruct (E b) as [Eb1 Eb2].
  pose proof (Nat.div_mod_eq a 10). pose proof (Nat.div_mod_eq b 10).
  pose proof (Nat.div_mod_eq (a / 10) 10). pose proof (Nat.div_mod_eq (b / 10) 10).
  pose proof (Nat.div_mod_eq (a / 100) 10). pose proof (Nat.div_mod_eq (b / 100) 10).
  lia.
Qed.

Lemma month_name_inj (a b : nat) :
  1 <= a <= 12 -> 1 <= b <= 12 -> month_name a = month_name b -> a = b.
Proof.
  intros Ha Hb.
  do 13 (destruct a as [|a]; [try lia; do 13 (destruct b as [|b]; [try lia; first [reflexivity | discriminate]|]); lia|]).
  lia.
Qed.

Lemma month_abbr_inj (a b : nat) :
  1 <= a <= 12 -> 1 <= b <= 12 -> month_abbr a = month_abbr b -> a = b.
Proof.
  intros Ha Hb.
  do 13 (destruct a as [|a]; [try lia; do 13 (destruct b as [|b]; [try lia; first [reflexivity | discriminate]|]); lia|]).
  lia.
Qed.

End RenderingFacts.

Section RenderingTests.

Lemma length_append (a b : string) :
  String.length (a ++ b) = String.length a + String.length b.
Proof. induction a; simpl; congruence. Qed.

Lemma append_inj_length (a a' b b' : string) :
  String.length a = String.length a' -> a ++ b = a' ++ b' -> a = a' /\ b = b'.
Proof.
  revert a'. induction a as [|c a IH]; intros [|c' a'] Hl H; try discriminate.
  - split; [reflexivity | exact H].
  - simpl in H. injection H as -> H. injection Hl as Hl.
    destruct (IH a' Hl H) as [-> ->]. split; reflexivity.
Qed.

Lemma contains_same_length (v s : string) :
  contains v s = true -> String.length s <= String.length v -> v = s.
Proof.
  intros H Hl. apply contains_split in H as (a & b & ->).
  rewrite !length_append in Hl.
  destruct a; [|simpl in Hl; lia]. destruct b; [|simpl in Hl; lia].
  simpl. now rewrite append_nil_r.
Qed.

Lemma rstrip_fixed (v : string) (c : ascii) :
  last_char v = Some c -> is_space c = false -> rstrip v = v.
Proof.
  intros Hlast Hc. induction v as [|d v IH]; [reflexivity|].
  simpl in Hlast. destruct v as [|e v].
  - injection Hlast as ->. simpl. now rewrite Hc.
  - specialize (IH Hlast). change (rstrip (String d (String e v)))
      with (match rstrip (String e v) with
            | EmptyString => if is_space d then EmptyString else String d EmptyString
            | r => String d r
            end).
    rewrite IH. reflexivity.
Qed.

(** a solid text is what [is_today_date] looks into, unchanged *)
Lemma clean_solid (v : string) : solid v -> remove_char "," (strip v) = v.
Proof.
  intros ((c & r & Hv & Hc) & (d & Hlast & Hd) & Hcomma).
  unfold strip. replace (lstrip v) with v by (rewrite Hv; simpl; now rewrite Hc).
  rewrite (rstrip_fixed _ Hlast Hd). now apply remove_char_absent.
Qed.

Lemma is_today_date_format (today : datetime) (v : string) :
  In v (today_formats today) -> is_today_date today v = true.
Proof.
  intros Hin. rewrite <- (append_nil_r v).
  now apply is_today_date_embedded with (pre := "") (post := "").
Qed.

Lemma digit_not_dash (n : nat) : digit n <> "-"%char.
Proof.
  unfold digit.
  destruct (n mod 10) as [|[|[|[|[|[|[|[|[|k]]]]]]]]]; discriminate.
Qed.

Lemma digit_not_slash (n : nat) : digit n <> "/"%char.
Proof.
  unfold digit.
  destruct (n mod 10) as [|[|[|[|[|[|[|[|[|k]]]]]]]]]; discriminate.
Qed.

Lemma month_abbr_length (m : nat) : 1 <= m <= 12 -> String.length (month_abbr m) = 3.
Proof.
  intros H. do 13 (destruct m as [|m]; [first [lia | reflexivity]|]). lia.
Qed.

Lemma month_name_length (m : nat) : 1 <= m <= 12 -> 3 <= String.length (month_name m).
Proof.
  intros H. do 13 (destruct m as [|m]; [first [lia | simpl; lia]|]). lia.
Qed.

(** on a solid text of ten characters the test is an equality with one of
    the four numeric renderings of today *)
Lemma is_today_date_ten (today : datetime) (t : string) :
  valid_date today -> solid t -> String.length t = 10 ->
  (is_today_date today t = true <->
   t = fmt_dd_mm_yyyy today \/ t = fmt_yyyy_mm_dd today \/
   t = fmt_dd_mm_yyyy_slash today \/ t = fmt_mm_dd_yyyy_slash today).
Proof.
  intros (_ & Hm & _) Hs Hl. split.
  - intros H. apply is_today_date_iff in H as (v & Hin & Hc).
    rewrite (clean_solid Hs) in Hc.
    assert (Hlen : 10 <= String.length v -> v = t).
    { intros Hv. apply contains_same_length; [exact Hc | lia]. }
    assert (Hle : String.length v <= String.length t).
    { apply contains_split in Hc as (a & b & ->). rewrite !length_append. lia. }
    rewrite Hl in Hle.
    pose proof (month_abbr_length Hm) as Ha. pose proof (month_name_length Hm) as Hn.
    simpl in Hin.
    destruct Hin as [<-|[<-|[<-|[<-|[<-|[<-|[<-|[]]]]]]]];
      try (symmetry in Hlen; auto 6 using Nat.le_refl; fail).
    + exfalso. unfold fmt_dd_mmm_yyyy in Hle. rewrite !length_append in Hle.
      cbn -[month_abbr month_name] in Hle. lia.
    + exfalso. unfold fmt_dd_mmm_yyyy_space in Hle. rewrite !length_append in Hle.
      cbn -[month_abbr month_name] in Hle. lia.
    + exfalso. unfold fmt_dd_month_yyyy in Hle. rewrite !length_append in Hle.
      cbn -[month_abbr month_name] in Hle. lia.
  - intros H. apply is_today_date_format. simpl.
    destruct H as [->|[->|[->| ->]]]; auto 8.
Qed.

End RenderingTests.

Section RenderingDecides.

Variables today d : datetime.
Hypothesis valid_today : valid_date today.
Hypothesis valid_d : valid_date d.

Lemma same_day_fmt (f : datetime -> string) :
  In f [fmt_dd_mm_yyyy; fmt_yyyy_mm_dd; fmt_dd_mm_yyyy_slash; fmt_mm_dd_yyyy_slash;
        fmt_dd_mmm_yyyy; fmt_dd_mmm_yyyy_space; fmt_dd_month_yyyy] ->
  same_day d today -> f d = f today.
Proof.
  intros Hf (Hy & Hm & Hd). simpl in Hf.
  repeat (destruct Hf as [<-|Hf]; [unfold fmt_dd_mm_yyyy, fmt_yyyy_mm_dd,
    fmt_dd_mm_yyyy_slash, fmt_mm_dd_yyyy_slash, fmt_dd_mmm_yyyy, fmt_dd_mmm_yyyy_space,
    fmt_dd_month_yyyy; now rewrite Hy, Hm, Hd|]).
  contradiction.
Qed.

Lemma two_digits_length (n : nat) : String.length (two_digits n) = 2.
Proof. reflexivity. Qed.

Lemma four_digits_length (n : nat) : String.length (four_digits n) = 4.
Proof. reflexivity. Qed.

(** two texts of the same layout are equal only field by field *)
Lemma layout_inj (a b c a' b' c' s1 s2 : string) :
  String.length a = String.length a' -> String.length b = String.length b' ->
  a ++ s1 ++ b ++ s2 ++ c = a' ++ s1 ++ b' ++ s2 ++ c' ->
  a = a' /\ b = b' /\ c = c'.
Proof.
  intros Ha Hb H.
  apply append_inj_length in H as [-> H]; [|exact Ha].
  apply append_inj_length in H as [_ H]; [|reflexivity].
  apply append_inj_length in H as [-> H]; [|exact Hb].
  apply append_inj_length in H as [_ ->]; [|reflexivity].
  repeat split.
Qed.

Lemma iso_same_day : fmt_yyyy_mm_dd d = fmt_yyyy_mm_dd today -> same_day d today.
Proof.
  destruct valid_today as (Hy & Hm & Hd), valid_d as (Hy' & Hm' & Hd').
  intros H. apply layout_inj in H as (Ey & Em & Ed); [|reflexivity..].
  apply four_digits_inj in Ey; [|lia..]. apply two_digits_inj in Em; [|lia..].
  apply two_digits_inj in Ed; [|lia..]. repeat split; assumption.
Qed.

Lemma dashes_same_day : fmt_dd_mm_yyyy d = fmt_dd_mm_yyyy today -> same_day d today.
Proof.
  destruct valid_today as (Hy & Hm & Hd), valid_d as (Hy' & Hm' & Hd').
  intros H. apply layout_inj in H as (Ed & Em & Ey); [|reflexivity..].
  apply four_digits_inj in Ey; [|lia..]. apply two_digits_inj in Em; [|lia..].
  apply two_digits_inj in Ed; [|lia..]. repeat split; assumption.
Qed.

Lemma slashes_same_day :
  fmt_dd_mm_yyyy_slash d = fmt_dd_mm_yyyy_slash today -> same_day d today.
Proof.
  destruct valid_today as (Hy & Hm & Hd), valid_d as (Hy' & Hm' & Hd').
  intros H. apply layout_inj in H as (Ed & Em & Ey); [|reflexivity..].
  apply four_digits_inj in Ey; [|lia..]. apply two_digits_inj in Em; [|lia..].
  apply two_digits_inj in Ed; [|lia..]. repeat split; assumption.
Qed.

Lemma slashes_swapped :
  fmt_dd_mm_yyyy_slash d = fmt_mm_dd_yyyy_slash today -> day_month_swapped d today.
Proof.
  destruct valid_today as (Hy & Hm & Hd), valid_d as (Hy' & Hm' & Hd').
  intros H. apply layout_inj in H as (Ed & Em & Ey); [|reflexivity..].
  apply four_digits_inj in Ey; [|lia..]. apply two_digits_inj in Em; [|lia..].
  apply two_digits_inj in Ed; [|lia..]. repeat split; assumption.
Qed.

Lemma month_first_same_day :
  fmt_mm_dd_yyyy_slash d = fmt_mm_dd_yyyy_slash today -> same_day d today.
Proof.
  destruct valid_today as (Hy & Hm & Hd), valid_d as (Hy' & Hm' & Hd').
  intros H. apply layout_inj in H as (Em & Ed & Ey); [|reflexivity..].
  apply four_digits_inj in Ey; [|lia..]. apply two_digits_inj in Em; [|lia..].
  apply two_digits_inj in Ed; [|lia..]. repeat split; assumption.
Qed.

Lemma abbr_dash_same_day :
  fmt_dd_mmm_yyyy d = fmt_dd_mmm_yyyy today -> same_day d today.
Proof.
  destruct valid_today as (Hy & Hm & Hd), valid_d as (Hy' & Hm' & Hd').
  intros H. apply layout_inj in H as (Ed & Em & Ey);
    [|reflexivity | now rewrite !month_abbr_length].
  apply four_digits_inj in Ey; [|lia..]. apply month_abbr_inj in Em; [|lia..].
  apply two_digits_inj in Ed; [|lia..]. repeat split; assumption.
Qed.

Lemma abbr_space_same_day :
  fmt_dd_mmm_yyyy_space d = fmt_dd_mmm_yyyy_space today -> same_day d today.
Proof.
  destruct valid_today as (Hy & Hm & Hd), valid_d as (Hy' & Hm' & Hd').
  intros H. apply layout_inj in H as (Ed & Em & Ey);
    [|reflexivity | now rewrite !month_abbr_length].
  apply four_digits_inj in Ey; [|lia..]. apply month_abbr_inj in Em; [|lia..].
  apply two_digits_inj in Ed; [|lia..]. repeat split; assumption.
Qed.

Lemma swapped_fmt :
  day_month_swapped d today -> fmt_dd_mm_yyyy_slash d = fmt_mm_dd_yyyy_slash today.
Proof.
  intros (Hy & Hd & Hm). unfold fmt_dd_mm_yyyy_slash, fmt_mm_dd_yyyy_slash.
  now rewrite Hy, Hd, Hm.
Qed.

(** the third character tells the layouts apart *)
Lemma third_char (a b : string) : a = b -> String.get 2 a = String.get 2 b.
Proof. now intros ->. Qed.

Ltac layouts_differ H :=
  apply third_char in H; cbn in H; injection H as H;
  first [ discriminate H
        | exact (digit_not_dash _ H) | exact (digit_not_slash _ H)
        | exact (digit_not_dash _ (eq_sym H)) | exact (digit_not_slash _ (eq_sym H)) ].

Lemma iso_decides :
  is_today_date today (fmt_yyyy_mm_dd d) = true <-> same_day d today.
Proof.
  rewrite is_today_date_ten;
    [|exact valid_today | apply today_formats_solid with (today := d); simpl; auto 8 | reflexivity].
  split.
  - intros [H|[H|[H|H]]]; [exfalso; layouts_differ H | now apply iso_same_day
                          | exfalso; layouts_differ H | exfalso; layouts_differ H].
  - intros H. right; left. apply same_day_fmt with (f := fmt_yyyy_mm_dd); simpl; auto 8.
Qed.

Lemma dashes_decide :
  is_today_date today (fmt_dd_mm_yyyy d) = true <-> same_day d today.
Proof.
  rewrite is_today_date_ten;
    [|exact valid_today | apply today_formats_solid with (today := d); simpl; auto 8 | reflexivity].
  split.
  - intros [H|[H|[H|H]]]; [now apply dashes_same_day | exfalso; layouts_differ H
                          | exfalso; layouts_differ H | exfalso; layouts_differ H].
  - intros H. left. apply same_day_fmt with (f := fmt_dd_mm_yyyy); simpl; auto 8.
Qed.

Lemma slashes_decide :
  is_today_date today (fmt_dd_mm_yyyy_slash d) = true <->
  same_day d today \/ day_month_swapped d today.
Proof.
  rewrite is_today_date_ten;
    [|exact valid_today | apply today_formats_solid with (today := d); simpl; auto 8 | reflexivity].
  split.
  - intros [H|[H|[H|H]]]; [exfalso; layouts_differ H | exfalso; layouts_differ H
                          | left; now apply slashes_same_day
                          | right; now apply slashes_swapped].
  - intros [H|H]; [right; right; left | right; right; right].
    + apply same_day_fmt with (f := fmt_dd_mm_yyyy_slash); simpl; auto 8.
    + now apply swapped_fmt.
Qed.

End RenderingDecides.

(** the date test on the numeric renderings of a date: an ISO or a
    DD-MM-YYYY text passes on its own day only; a DD/MM/YYYY text passes on
    its own day and on the day whose day and month are its month and day *)
Theorem is_today_date_on_renderings (today d : datetime) :
  valid_date today -> valid_date d ->
  (is_today_date today (fmt_yyyy_mm_dd d) = true <-> same_day d today) /\
  (is_today_date today (fmt_dd_mm_yyyy d) = true <-> same_day d today) /\
  (is_today_date today (fmt_dd_mm_yyyy_slash d) = true <->
   same_day d today \/ day_month_swapped d today).
Proof.
  intros Ht Hd. split; [|split].
  - now apply iso_decides.
  - now apply dashes_decide.
  - now apply slashes_decide.
Qed.

Lemma is_today_date_on_renderings_witness :
  let march11 := {| year := 2026; month := 3; day := 11;
                    hour := 0; minute := 0; second := 0 |} in
  valid_date Sample.nov3 /\ valid_date march11 /\
  is_today_date Sample.nov3 (fmt_dd_mm_yyyy_slash march11) = true /\
  is_today_date Sample.nov3 (fmt_yyyy_mm_dd march11) = false.
Proof.
  intros march11.
  assert (Ht : valid_date Sample.nov3) by (unfold valid_date; simpl; lia).
  assert (Hd : valid_date march11) by (unfold valid_date; simpl; lia).
  destruct (is_today_date_on_renderings Ht Hd) as (Hiso & _ & Hslash).
  split; [exact Ht|]. split; [exact Hd|]. split.
  - apply Hslash. right. repeat split.
  - reflexivity.
Defined.

(** [get_current_date_str]: each of the six renderings alone tells the
    calendar day, and the whole dictionary depends on the day only *)
Theorem get_current_date_str_tells_day (a b : datetime) :
  valid_date a -> valid_date b ->
  (forall key, In key current_date_values ->
               key (get_current_date_str a) = key (get_current_date_str b) ->
               same_day a b) /\
  (same_day a b -> get_current_date_str a = get_current_date_str b).
Proof.
  intros Ha Hb. split.
  - intros key Hkey H. simpl in Hkey.
    destruct Hkey as [<-|[<-|[<-|[<-|[<-|[<-|[]]]]]]]; simpl in H.
    + now apply dashes_same_day.
    + now apply iso_same_day.
    + now apply slashes_same_day.
    + now apply month_first_same_day.
    + now apply abbr_dash_same_day.
    + now apply abbr_space_same_day.
  - intros (Hy & Hm & Hd).
    unfold get_current_date_str, fmt_dd_mm_yyyy, fmt_yyyy_mm_dd, fmt_dd_mm_yyyy_slash,
      fmt_mm_dd_yyyy_slash, fmt_dd_mmm_yyyy, fmt_dd_mmm_yyyy_space.
    now rewrite Hy, Hm, Hd.
Qed.

Lemma get_current_date_str_tells_day_witness :
  valid_date Sample.nov3 /\
  same_day Sample.nov3 {| year := 2026; month := 11; day := 3;
                          hour := 23; minute := 59; second := 59 |}.
Proof.
  assert (Ht : valid_date Sample.nov3) by (unfold valid_date; simpl; lia).
  split; [exact Ht|].
  refine (proj1 (@get_current_date_str_tells_day Sample.nov3 _ Ht _) dd_mmm_yyyy _ _).
  - unfold valid_date; simpl; lia.
  - simpl; auto 8.
  - reflexivity.
Defined.

(* ================================================================== *)
(** * More on the field extractor *)

Section TrimmedFacts.

Lemma trimmed_ends_fixed (s : string) : trimmed_ends s -> strip s = s.
Proof.
  intros [->|((c & r & Hs & Hc) & (d & Hlast & Hd))]; [reflexivity|].
  unfold strip. replace (lstrip s) with s by (rewrite Hs; simpl; now rewrite Hc).
  exact (rstrip_fixed _ Hlast Hd).
Qed.

Lemma lstrip_head (s : string) :
  lstrip s = "" \/ exists c r, lstrip s = String c r /\ is_space c = false.
Proof.
  induction s as [|c s IH]; simpl; [left; reflexivity|].
  destruct (is_space c) eqn:Hc; [exact IH|]. right. now exists c, s.
Qed.

Lemma rstrip_last (s : string) :
  rstrip s = "" \/ exists c, last_char (rstrip s) = Some c /\ is_space c = false.
Proof.
  induction s as [|c s IH]; simpl; [left; reflexivity|].
  destruct (rstrip s) as [|e r] eqn:E.
  - destruct (is_space c) eqn:Hc; [left; reflexivity|].
    right. exists c. split; [reflexivity | exact Hc].
  - right. destruct IH as [IH|(d & Hd & Hsp)]; [discriminate|].
    exists d. split; [|exact Hsp]. simpl in Hd. simpl. exact Hd.
Qed.

Lemma rstrip_head (c : ascii) (r : string) :
  is_space c = false -> exists r', rstrip (String c r) = String c r'.
Proof.
  intros Hc. destruct (rstrip_keeps "" r c Hc) as [post' H]. now exists post'.
Qed.

Lemma strip_trimmed (s : string) : trimmed_ends (strip s).
Proof.
  unfold strip. destruct (lstrip_head s) as [->|(c & r & -> & Hc)]; [left; reflexivity|].
  right. destruct (@rstrip_head c r Hc) as [r' E]. split.
  - exists c, r'. split; [exact E | exact Hc].
  - destruct (rstrip_last (String c r)) as [H|H]; [|exact H].
    rewrite E in H. discriminate.
Qed.

Lemma last_char_append (a b : string) :
  truthy b = true -> last_char (a ++ b) = last_char b.
Proof.
  intros Hb. induction a as [|c a IH]; [reflexivity|].
  simpl. rewrite IH. destruct (a ++ b) eqn:E; [|reflexivity].
  destruct a; simpl in E; [subst; discriminate | discriminate].
Qed.

(** pieces without blanks at their ends, none of them empty, put together *)
Lemma join_trimmed (l : list string) :
  Forall (fun x => trimmed_ends x /\ truthy x = true) l -> trimmed_ends (join "" l).
Proof.
  induction l as [|x rest IH]; intros H; [left; reflexivity|].
  inversion H as [|? ? [Hx Hnx] Hrest]; subst.
  destruct rest as [|y rest']; [exact Hx|].
  specialize (IH Hrest).
  change (join "" (x :: y :: rest')) with (x ++ "" ++ join "" (y :: rest')).
  change ("" ++ join "" (y :: rest')) with (join "" (y :: rest')).
  assert (Hj : truthy (join "" (y :: rest')) = true).
  { inversion Hrest as [|? ? [_ Hy] _]; subst.
    destruct y; [discriminate|]. destruct rest'; reflexivity. }
  destruct Hx as [->|((c & r & -> & Hc) & _)]; [discriminate|].
  right. split.
  - exists c, (r ++ join "" (y :: rest')). split; [reflexivity | exact Hc].
  - rewrite last_char_append by exact Hj.
    destruct IH as [E|[_ IH]]; [rewrite E in Hj; discriminate | exact IH].
Qed.

Lemma get_text_strip_trimmed (n : node) : trimmed_ends (get_text_strip n).
Proof.
  unfold get_text_strip. apply join_trimmed.
  apply Forall_forall. intros x Hx. apply filter_In in Hx as [Hx Ht].
  split; [|exact Ht]. apply in_map_iff in Hx as (y & <- & _). apply strip_trimmed.
Qed.

Lemma try_tags_trimmed (tags : list string) (selector : pyobj) (element : node)
  (text : string) :
  try_tags tags selector element = Return (Some text) -> trimmed_ends text.
Proof.
  induction tags as [|tag rest IH]; simpl; [discriminate|].
  destruct (find_by_tag_string tag selector element) as [[f|]|e]; simpl;
    [|exact IH | discriminate].
  destruct (node_truthy f); [|exact IH].
  intros [= <-]. apply get_text_strip_trimmed.
Qed.

Lemma try_selector_trimmed (element : node) (selector : pyobj) (text : string) :
  try_selector element selector = Return (Some text) -> trimmed_ends text.
Proof.
  unfold try_selector. destruct element as [s|nm cls cs]; [discriminate|].
  destruct (find_by_class selector (Tag nm cls cs)) as [found|e]; [|discriminate].
  unfold bindE at 1.
  destruct (match found with
            | Some f => if node_truthy f then Some f else None
            | None => None
            end) as [f|].
  - intros [= <-]. apply get_text_strip_trimmed.
  - destruct (find_by_string selector (Tag nm cls cs)) as [found2|e]; [|discriminate].
    unfold bindE at 1.
    destruct (match found2 with
              | Some (NavigableString s) => if truthy s then Some s else None
              | _ => None
              end) as [s|].
    + intros [= <-]. apply strip_trimmed.
    + apply try_tags_trimmed.
Qed.

End TrimmedFacts.

(** the field extractor returns a trimmed text: stripping what it returns
    changes nothing, whatever the fragment and the hints *)
Theorem extract_text_is_trimmed (element : node) (selectors : list pyobj) :
  exists text,
    extract_text_from_element element selectors = Return text /\
    strip text = text /\
    lstrip text = text /\ rstrip text = text.
Proof.
  assert (H : exists text, extract_text_from_element element selectors = Return text /\
                           trimmed_ends text).
  { induction selectors as [|selector rest IH]; simpl.
    - exists "". split; [reflexivity | left; reflexivity].
    - destruct (try_selector element selector) as [[text|]|e] eqn:E; [|exact IH..].
      exists text. split; [reflexivity|]. eapply try_selector_trimmed; exact E. }
  destruct H as (text & E & Ht). exists text. split; [exact E|].
  split; [now apply trimmed_ends_fixed|].
  destruct Ht as [->|((c & r & Hs & Hc) & (d & Hlast & Hd))]; [split; reflexivity|].
  split; [rewrite Hs; simpl; now rewrite Hc | exact (rstrip_fixed _ Hlast Hd)].
Qed.

Section HintLists.

Lemma extract_app_falls_through (element : node) (l1 l2 : list pyobj) :
  (forall selector text, In selector l1 ->
                         try_selector element selector <> Return (Some text)) ->
  extract_text_from_element element (l1 ++ l2)%list
  = extract_text_from_element element l2.
Proof.
  induction l1 as [|selector rest IH]; intros H; [reflexivity|].
  simpl. destruct (try_selector element selector) as [[text|]|e] eqn:E.
  - exfalso. exact (H selector text (or_introl eq_refl) E).
  - apply IH. intros s t Hin. apply H. now right.
  - apply IH. intros s t Hin. apply H. now right.
Qed.

Lemma extract_app_found (element : node) (l1 l2 : list pyobj) (text : string) :
  extract_text_from_element element l1 = Return text -> text <> "" ->
  extract_text_from_element element (l1 ++ l2)%list = Return text.
Proof.
  induction l1 as [|selector rest IH]; simpl; intros H Hne.
  - injection H as <-. contradiction.
  - destruct (try_selector element selector) as [[t|]|e]; [exact H | auto..].
Qed.

(** a test that never says yes finds nothing *)
Lemma find_first_never (p : node -> result bool) (l : list node) (d : node) :
  (forall x, p x <> Return true) -> find_first p l <> Return (Some d).
Proof.
  intros Hp. induction l as [|x r IH]; simpl; [discriminate|].
  destruct (p x) as [[|]|e] eqn:E; simpl; [|exact IH | discriminate].
  exfalso. exact (Hp x E).
Qed.

Lemma exists_first_never (p : string -> result bool) (l : list string) :
  (forall x, p x <> Return true) -> exists_first p l <> Return true.
Proof.
  intros Hp. induction l as [|x r IH]; simpl; [discriminate|].
  destruct (p x) as [[|]|e] eqn:E; simpl; [|exact IH | discriminate].
  exfalso. exact (Hp x E).
Qed.

Lemma hint_lambda_not_string (selector : pyobj) (x : string) :
  (forall h, selector <> PyString h) -> hint_lambda selector x <> Return true.
Proof.
  intros Hs. unfold hint_lambda. destruct (truthy x); [|discriminate].
  destruct selector as [|z|h]; simpl; try discriminate.
  exfalso. exact (Hs h eq_refl).
Qed.

Lemma try_tags_not_string (element : node) (tags : list string) (selector : pyobj)
  (text : string) :
  (forall h, selector <> PyString h) ->
  try_tags tags selector element <> Return (Some text).
Proof.
  intros Hs. induction tags as [|tag rest IH]; simpl; [discriminate|].
  destruct (find_by_tag_string tag selector element) as [[f|]|e] eqn:E; simpl;
    [|exact IH | discriminate].
  exfalso. revert E. apply find_first_never.
  intros [s|nm cls cs]; [discriminate|].
  destruct (String.eqb nm tag); [|discriminate].
  destruct (tag_string (Tag nm cls cs)); simpl;
    [now apply hint_lambda_not_string | discriminate].
Qed.

Lemma try_selector_not_string (element : node) (selector : pyobj) (text : string) :
  (forall h, selector <> PyString h) ->
  try_selector element selector <> Return (Some text).
Proof.
  intros Hs. unfold try_selector. destruct element as [s|nm cls cs]; [discriminate|].
  destruct (find_by_class selector (Tag nm cls cs)) as [[f|]|e] eqn:E1;
    [| |discriminate].
  - exfalso. revert E1. apply find_first_never.
    intros [s|nm' cls' cs']; [discriminate|].
    unfold class_matches.
    pose proof (@exists_first_never (hint_lambda selector) cls'
                  (fun x => hint_lambda_not_string x Hs)) as Hex.
    destruct (exists_first (hint_lambda selector) cls') as [[|]|e]; simpl;
      [now elim Hex | now apply hint_lambda_not_string | discriminate].
  - unfold bindE at 1. cbv beta iota.
    destruct (find_by_string selector (Tag nm cls cs)) as [[f|]|e] eqn:E2;
      [| |discriminate].
    + exfalso. revert E2. apply find_first_never.
      intros [s|nm' cls' cs']; [now apply hint_lambda_not_string | discriminate].
    + unfold bindE at 1. cbv beta iota. now apply try_tags_not_string.
Qed.

End HintLists.

(** hint lists compose: hints that find nothing may be dropped from the
    front, and hints appended to a list that found a text change nothing *)
Theorem extract_text_hint_lists (element : node) (l1 l2 : list pyobj) :
  ((forall selector text, In selector l1 ->
                          try_selector element selector <> Return (Some text)) ->
   extract_text_from_element element (l1 ++ l2)%list
   = extract_text_from_element element l2) /\
  (forall text, extract_text_from_element element l1 = Return text -> text <> "" ->
                extract_text_from_element element (l1 ++ l2)%list = Return text).
Proof.
  split; [apply extract_app_falls_through | intros text; apply extract_app_found].
Qed.

Example extract_text_hint_lists_card :
  extract_text_from_element Sample.card (hints ["entity"; "company"; "name"])
  = Return "ACME Ltd" /\
  extract_text_from_element Sample.card (hints ["company"]) = Return "ACME Ltd" /\
  try_selector Sample.card (PyString "entity") = Return None.
Proof. repeat split. Qed.

(** a hint that is not a string decides nothing: the extractor returns what
    it returns without it, wherever the hint stands in the list *)
Theorem extract_text_skips_non_string (element : node) (selector : pyobj)
  (before after : list pyobj) :
  (forall h, selector <> PyString h) ->
  (forall s t, In s before -> try_selector element s <> Return (Some t)) ->
  extract_text_from_element element (before ++ selector :: after)%list
  = extract_text_from_element element after.
Proof.
  intros Hs Hb. rewrite extract_app_falls_through by exact Hb.
  simpl. pose proof (@try_selector_not_string element selector) as H.
  destruct (try_selector element selector) as [[t|]|e]; [|reflexivity..].
  exfalso. exact (H t Hs eq_refl).
Qed.

Lemma extract_text_skips_non_string_witness :
  extract_text_from_element Sample.card [PyNone; PyString "company"]
  = Return "ACME Ltd".
Proof.
  refine (eq_trans (@extract_text_skips_non_string Sample.card PyNone []
                      [PyString "company"] _ _) _).
  - discriminate.
  - intros s t [].
  - reflexivity.
Defined.

(* ================================================================== *)
(** * More on the report *)

Section GroupingKeepsAlerts.

Lemma flatten_dict_append (k : string) (a : alert) (d : agency_dict) :
  dict_mem k d = true ->
  Permutation (List.concat (map snd (dict_append k a d))) (a :: List.concat (map snd d)).
Proof.
  unfold dict_mem. induction d as [|[k' v'] r IH]; simpl; [discriminate|].
  destruct (String.eqb k' k) eqn:E; simpl.
  - intros _. unfold append. rewrite <- app_assoc. simpl.
    apply Permutation_sym, Permutation_middle.
  - intros H. specialize (IH H).
    eapply Permutation_trans; [apply Permutation_app_head; exact IH|].
    apply Permutation_sym, Permutation_middle.
Qed.

Lemma flatten_dict_set_new (k : string) (d : agency_dict) :
  List.concat (map snd (dict_set k [] d)) =
  if dict_mem k d then List.concat (map snd (dict_set k [] d)) else List.concat (map snd d).
Proof.
  destruct (dict_mem k d) eqn:Hm; [reflexivity|].
  unfold dict_mem in Hm. induction d as [|[k' v'] r IH]; simpl; [reflexivity|].
  simpl in Hm. apply orb_false_iff in Hm as [E Hm]. rewrite E. simpl.
  now rewrite IH.
Qed.

Lemma dict_mem_set_new (k : string) (d : agency_dict) :
  dict_mem k (dict_set k [] d) = true.
Proof.
  unfold dict_mem. induction d as [|[k' v'] r IH]; simpl.
  - now rewrite String.eqb_refl.
  - destruct (String.eqb k' k) eqn:E; simpl; rewrite E; [reflexivity | exact IH].
Qed.

Lemma flatten_group_step (d : agency_dict) (a : alert) :
  Permutation (List.concat (map snd (group_step d a))) (a :: List.concat (map snd d)).
Proof.
  unfold group_step. destruct (dict_mem (agency a) d) eqn:Hm; simpl negb; cbv iota.
  - now apply flatten_dict_append.
  - eapply Permutation_trans; [apply flatten_dict_append, dict_mem_set_new|].
    rewrite flatten_dict_set_new, Hm. reflexivity.
Qed.

Lemma flatten_fold (alerts : list alert) (d : agency_dict) :
  Permutation (List.concat (map snd (fold_left group_step alerts d)))
              (List.concat (map snd d) ++ alerts).
Proof.
  revert d. induction alerts as [|a r IH]; intros d; simpl.
  - now rewrite app_nil_r.
  - eapply Permutation_trans; [apply IH|].
    eapply Permutation_trans; [apply Permutation_app_tail, flatten_group_step|].
    simpl. apply Permutation_middle.
Qed.

End GroupingKeepsAlerts.

(** the grouping of the report loses no alert and repeats none: the groups,
    put one after the other, are a rearrangement of the input *)
Theorem group_by_agency_permutation (alerts : list alert) :
  Permutation (List.concat (map snd (group_by_agency alerts))) alerts.
Proof. exact (flatten_fold alerts []). Qed.

Section ReportLines.

Lemma join_after (sep : string) (P X : list string) :
  X <> [] -> exists pre, join sep (P ++ X)%list = pre ++ join sep X.
Proof.
  intros HX. induction P as [|p P IH]; [exists ""; reflexivity|].
  destruct IH as [pre IH]. exists (p ++ sep ++ pre).
  change ((p :: P) ++ X)%list with (p :: (P ++ X))%list.
  destruct (P ++ X)%list as [|y r] eqn:E.
  - destruct P; [simpl in E; contradiction | discriminate].
  - change (join sep (p :: y :: r)) with (p ++ sep ++ join sep (y :: r)).
    now rewrite IH, !append_assoc.
Qed.

Lemma report_alert_joined (a : alert) (Q : list string) :
  join newline (app (report_alert a) Q)
  = "Company: " ++ company a ++ newline ++ "Date: " ++ date a ++ newline ++
    "Action: " ++ action a ++ newline ++ join newline ("" :: Q).
Proof.
  unfold report_alert.
  change (join newline (app ["Company: " ++ company a; "Date: " ++ date a;
                              "Action: " ++ action a; ""] Q))
    with (("Company: " ++ company a) ++ newline ++ ("Date: " ++ date a) ++ newline ++
          ("Action: " ++ action a) ++ newline ++ join newline ("" :: Q)).
  now rewrite !append_assoc.
Qed.

Lemma flat_map_split {A B} (f : A -> list B) (l : list A) (x : A) :
  In x l -> exists l1 l2, flat_map f l = (l1 ++ f x ++ l2)%list.
Proof.
  intros H. apply in_split in H as (a & b & ->).
  exists (flat_map f a), (flat_map f b). now rewrite flat_map_app.
Qed.

Lemma report_lines_alert (alerts : list alert) (a : alert) :
  In a alerts ->
  exists P Q, flat_map report_group (group_by_agency alerts)
              = (P ++ report_alert a ++ Q)%list.
Proof.
  intros Hin. rewrite group_by_agency_spec. unfold spec_groups.
  assert (Hk : In (agency a) (first_seen (map agency alerts)))
    by (apply first_seen_In, in_map, Hin).
  assert (Hg : In (agency a, alerts_of (agency a) alerts)
                  (map (fun k => (k, alerts_of k alerts))
                       (first_seen (map agency alerts))))
    by (apply in_map_iff; exists (agency a); auto).
  destruct (flat_map_split report_group _ _ Hg) as (G1 & G2 & ->).
  assert (Ha : In a (alerts_of (agency a) alerts)).
  { unfold alerts_of. apply filter_In. split; [exact Hin | apply String.eqb_refl]. }
  destruct (flat_map_split report_alert _ _ Ha) as (A1 & A2 & E).
  unfold report_group at 1. cbn [fst snd]. rewrite E.
  generalize (report_alert a) as RA. intros RA.
  eexists (app G1 (_ :: _ :: A1)), (app A2 ("" :: G2)).
  rewrite <- !app_assoc. cbn [app]. rewrite <- !app_assoc. reflexivity.
Qed.

End ReportLines.

(** the report lists every alert: its company, its date and its action
    stand in it on three lines that follow one another *)
Theorem report_lists_every_alert (today : datetime) (alerts : list alert) (a : alert) :
  In a alerts ->
  exists before after,
    generate_alert_report today alerts
    = before ++ "Company: " ++ company a ++ newline ++
      "Date: " ++ date a ++ newline ++
      "Action: " ++ action a ++ newline ++ after.
Proof.
  intros Hin. destruct (report_lines_alert _ _ Hin) as (P & Q & E).
  unfold generate_alert_report. destruct alerts as [|a0 rest]; [contradiction|].
  rewrite E, app_assoc.
  destruct (@join_after newline (report_header today ++ P)%list (report_alert a ++ Q)%list)
    as [pre Hpre]; [discriminate|].
  rewrite Hpre, report_alert_joined. eauto.
Qed.

Lemma report_lists_every_alert_witness :
  exists before after,
    generate_alert_report Sample.nov3 two_sources
    = before ++ "Company: B" ++ newline ++ "Date: 03/11/2026" ++ newline ++
      "Action: y" ++ newline ++ after.
Proof.
  apply (@report_lists_every_alert Sample.nov3 two_sources
           {| agency := "SEBI"; company := "B"; date := "03/11/2026";
              action := "y"; timestamp := "" |}).
  simpl. auto.
Defined.

(* ================================================================== *)
(** * The paged scrapers on a scripted browser *)

Section PagedScripts.

Variable candidates : node -> list node.
Variable row : node -> list alert -> result (list alert).
Variable xpath : string.

Lemma paged_body_next (page : node) (alerts : list alert) (k : nat)
  (tail : list Script.response) (h : list event) :
  paged_body Script.answer candidates row xpath (alerts, k)
    {| driver := Some (Script.RPage page :: Script.RElement 5 :: Script.RBool true
                       :: Script.RNone :: tail);
       history := h |}
  = (Done (Return (Continue (for_each_row row (candidates page) alerts, k + 1))),
     {| driver := Some tail;
        history := Called (Click 5) (Return tt)
                   :: Called (IsEnabled 5) (Return true)
                   :: Called (FindElement XPATH xpath) (Return 5)
                   :: Called PageSource (Return page) :: h |}).
Proof. reflexivity. Qed.

Lemma paged_body_last (disabled : bool) (page : node) (alerts : list alert) (k : nat)
  (tail : list Script.response) (h : list event) :
  exists h',
    paged_body Script.answer candidates row xpath (alerts, k)
      {| driver := Some (app (Script.RPage page :: last_page disabled) tail);
         history := h |}
    = (Done (Return (Break (for_each_row row (candidates page) alerts, k))),
       {| driver := Some tail; history := h' |}) /\
    page_calls h' = S (page_calls h) /\ click_calls h' = click_calls h /\
    typed_texts h' = typed_texts h.
Proof.
  destruct disabled.
  - exists (Called (IsEnabled 5) (Return false)
            :: Called (FindElement XPATH xpath) (Return 5)
            :: Called PageSource (Return page) :: h).
    repeat split.
  - exists (Called (FindElement XPATH xpath) (Raise NoSuchElementException)
            :: Called PageSource (Return page) :: h).
    repeat split.
Qed.

Lemma paged_body_fault (e : exn) (page : node) (alerts : list alert) (k : nat)
  (tail : list Script.response) (h : list event) :
  e <> NoSuchElementException ->
  paged_body Script.answer candidates row xpath (alerts, k)
    {| driver := Some (Script.RPage page :: Script.RRaise e :: tail); history := h |}
  = (Done (Raise e),
     {| driver := Some tail;
        history := Called (FindElement XPATH xpath) (Raise e)
                   :: Called PageSource (Return page) :: h |}).
Proof. intros He. destruct e; try reflexivity. contradiction. Qed.

(** the loop over the pages of a paged session: every page is parsed once,
    in order, and the records of all of them are processed in page order *)
Lemma paged_loop_script (disabled : bool) (more : list node) :
  forall (page : node) (fuel : nat) (alerts : list alert) (k : nat)
         (tail : list Script.response) (h : list event),
    List.length more < fuel ->
    exists h',
      while_true fuel (paged_body Script.answer candidates row xpath) (alerts, k)
        {| driver := Some (app (paged_script disabled page more) tail); history := h |}
      = (Done (Return (for_each_row row (flat_map candidates (page :: more)) alerts,
                       k + List.length more)),
         {| driver := Some tail; history := h' |}) /\
      page_calls h' = S (List.length more) + page_calls h /\
      click_calls h' = List.length more + click_calls h /\
      typed_texts h' = typed_texts h.
Proof.
  induction more as [|next rest IH]; intros page fuel alerts k tail h Hlt;
    (destruct fuel as [|fuel]; [simpl in Hlt; lia|]); rewrite while_true_step.
  - destruct (paged_body_last disabled page alerts k tail h) as (h' & E & Hp & Hc & Ht).
    cbn [paged_script]. rewrite E. exists h'.
    cbn [flat_map]. rewrite app_nil_r, Nat.add_0_r. cbn [List.length].
    repeat split; [lia | lia | exact Ht].
  - cbn [paged_script app]. rewrite paged_body_next.
    destruct (IH next fuel (for_each_row row (candidates page) alerts) (k + 1) tail
                (Called (Click 5) (Return tt)
                 :: Called (IsEnabled 5) (Return true)
                 :: Called (FindElement XPATH xpath) (Return 5)
                 :: Called PageSource (Return page) :: h))
      as (h' & E & Hp & Hc & Ht); [simpl in Hlt; lia|].
    exists h'. rewrite E. cbn [List.length].
    replace (k + 1 + List.length rest) with (k + S (List.length rest)) by lia.
    change (flat_map candidates (page :: next :: rest))
      with (app (candidates page) (flat_map candidates (next :: rest))).
    rewrite for_each_row_app.
    split; [reflexivity|]. rewrite Hp, Hc, Ht. unfold page_calls, click_calls.
    cbn. repeat split; lia.
Qed.

(** the same pages, a fault after the last one: the loop raises *)
Lemma paged_loop_fault (e : exn) (more : list node) :
  e <> NoSuchElementException ->
  forall (page : node) (fuel : nat) (alerts : list alert) (k : nat) (h : list event),
    List.length more < fuel ->
    exists h',
      while_true fuel (paged_body Script.answer candidates row xpath) (alerts, k)
        {| driver := Some (paged_fault_script e page more); history := h |}
      = (Done (Raise e), {| driver := Some []; history := h' |}) /\
      page_calls h' = S (List.length more) + page_calls h.
Proof.
  intros He. induction more as [|next rest IH]; intros page fuel alerts k h Hlt;
    (destruct fuel as [|fuel]; [simpl in Hlt; lia|]); rewrite while_true_step.
  - cbn [paged_fault_script]. rewrite paged_body_fault by exact He.
    eexists. split; [reflexivity|]. reflexivity.
  - cbn [paged_fault_script]. rewrite paged_body_next.
    destruct (IH next fuel (for_each_row row (candidates page) alerts) (k + 1)
                (Called (Click 5) (Return tt)
                 :: Called (IsEnabled 5) (Return true)
                 :: Called (FindElement XPATH xpath) (Return 5)
                 :: Called PageSource (Return page) :: h))
      as (h' & E & Hp); [simpl in Hlt; lia|].
    exists h'. rewrite E. split; [reflexivity|]. rewrite Hp.
    unfold page_calls. cbn. lia.
Qed.

End PagedScripts.

(** [scrape_acuite_ratings] on a paged session: every page is parsed once,
    the control is clicked once between two pages, and the alerts are those
    of the records of all the pages, in page order *)
Theorem scrape_acuite_pages (today : datetime) (disabled : bool) (page : node)
  (more : list node) (fuel : nat) :
  List.length more < fuel ->
  exists s',
    scrape_acuite_ratings Script.answer today fuel
      (Script.start (Script.RNone :: paged_script disabled page more))
    = (Done (Return (for_each_row (acuite_row today)
                       (flat_map acuite_candidates (page :: more)) [])), s') /\
    page_calls (history s') = S (List.length more) /\
    click_calls (history s') = List.length more.
Proof.
  intros Hlt.
  destruct (@paged_loop_script acuite_candidates (acuite_row today) next_xpath_button
              disabled more page fuel [] 1 []
              [Called (Get "https://connect.acuite.in/liveratings") (Return tt)] Hlt)
    as (h' & E & Hp & Hc & _).
  rewrite app_nil_r in E.
  eexists. split.
  - unfold scrape_acuite_ratings, Script.start, try_exceptM.
    unfold bindM at 1. unfold no_driver. cbn [driver].
    unfold bindM at 1. rewrite call_script. cbn [Script.decode Script.as_unit].
    unfold bindM at 1. unfold sleep at 1. unfold ret at 1.
    unfold bindM at 1. rewrite E. reflexivity.
  - cbn [history]. rewrite Hp, Hc. unfold page_calls, click_calls. simpl. lia.
Qed.

Lemma scrape_acuite_pages_witness :
  exists s',
    scrape_acuite_ratings Script.answer Sample.nov3 2
      (Script.start (Script.RNone :: paged_script false Scenario.sebi_page
                                       [Scenario.bse_page]))
    = (Done (Return (for_each_row (acuite_row Sample.nov3)
                       (flat_map acuite_candidates
                                 [Scenario.sebi_page; Scenario.bse_page]) [])), s') /\
    page_calls (history s') = 2 /\ click_calls (history s') = 1.
Proof.
  apply (@scrape_acuite_pages Sample.nov3 false Scenario.sebi_page [Scenario.bse_page] 2).
  simpl. lia.
Defined.

(** a fault of the browser after the last page, other than a control that is
    not there: the scraper returns no alert at all, whatever the pages held *)
Theorem scrape_acuite_fault_drops_alerts (today : datetime) (e : exn) (page : node)
  (more : list node) (fuel : nat) :
  e <> NoSuchElementException ->
  List.length more < fuel ->
  exists s',
    scrape_acuite_ratings Script.answer today fuel
      (Script.start (Script.RNone :: paged_fault_script e page more))
    = (Done (Return []), s') /\
    page_calls (history s') = S (List.length more).
Proof.
  intros He Hlt.
  destruct (@paged_loop_fault acuite_candidates (acuite_row today) next_xpath_button
              e more He page fuel [] 1
              [Called (Get "https://connect.acuite.in/liveratings") (Return tt)] Hlt)
    as (h' & E & Hp).
  eexists. split.
  - unfold scrape_acuite_ratings, Script.start, try_exceptM.
    unfold bindM at 1. unfold no_driver. cbn [driver].
    unfold bindM at 1. rewrite call_script. cbn [Script.decode Script.as_unit].
    unfold bindM at 1. unfold sleep at 1. unfold ret at 1.
    unfold bindM at 1. rewrite E. reflexivity.
  - cbn [history]. rewrite Hp. unfold page_calls. simpl. lia.
Qed.

Example acuite_page_has_alert :
  for_each_row (acuite_row Sample.nov3)
    (acuite_candidates NseScenario.nse_equity_page) [] <> [].
Proof. vm_compute. discriminate. Qed.

Lemma scrape_acuite_fault_drops_alerts_witness :
  exists s',
    scrape_acuite_ratings Script.answer Sample.nov3 1
      (Script.start (Script.RNone
                     :: paged_fault_script WebDriverException
                          NseScenario.nse_equity_page []))
    = (Done (Return []), s') /\
    page_calls (history s') = 1.
Proof.
  apply (@scrape_acuite_fault_drops_alerts Sample.nov3 WebDriverException
           NseScenario.nse_equity_page [] 1).
  - discriminate.
  - simpl. lia.
Defined.

Section DateFilters.

Variable today : datetime.

Lemma icra_date_filter_script (present : bool) (tail : list Script.response)
  (h : list event) :
  exists h',
    icra_date_filter Script.answer today
      {| driver := Some (app (filter_script present) tail); history := h |}
    = (Done (Return tt), {| driver := Some tail; history := h' |}) /\
    page_calls h' = page_calls h /\
    click_calls h' = (if present then 1 else 0) + click_calls h /\
    typed_texts h' = app (if present
                          then [fmt_dd_mm_yyyy_slash today; fmt_dd_mm_yyyy_slash today]
                          else []) (typed_texts h).
Proof.
  destruct present; eexists; (split; [reflexivity|]); repeat split.
Qed.

Lemma sebi_date_filter_script (present : bool) (tail : list Script.response)
  (h : list event) :
  exists h',
    sebi_date_filter Script.answer today
      {| driver := Some (app (filter_script present) tail); history := h |}
    = (Done (Return tt), {| driver := Some tail; history := h' |}) /\
    page_calls h' = page_calls h /\
    click_calls h' = (if present then 1 else 0) + click_calls h /\
    typed_texts h' = app (if present
                          then [fmt_dd_mm_yyyy today; fmt_dd_mm_yyyy today]
                          else []) (typed_texts h).
Proof.
  destruct present; eexists; (split; [reflexivity|]); repeat split.
Qed.

End DateFilters.

(** [scrape_icra_ratings] and [scrape_sebi_announcements] on a paged session:
    a date filter that is there is filled with today's date in both fields,
    as DD/MM/YYYY for ICRA and as DD-MM-YYYY for SEBI, and nothing else is
    typed; with or without the filter, every page is parsed once and the
    alerts are those of the records of all the pages, in page order *)
Theorem scrape_icra_sebi_pages (today : datetime) (present disabled : bool)
  (page : node) (more : list node) (fuel : nat) :
  List.length more < fuel ->
  (exists s',
     scrape_icra_ratings Script.answer today fuel
       (Script.start (Script.RNone :: app (filter_script present)
                                          (paged_script disabled page more)))
     = (Done (Return (for_each_row (icra_row today)
                        (flat_map icra_candidates (page :: more)) [])), s') /\
     page_calls (history s') = S (List.length more) /\
     typed_texts (history s')
     = if present then [fmt_dd_mm_yyyy_slash today; fmt_dd_mm_yyyy_slash today]
       else []) /\
  (exists s',
     scrape_sebi_announcements Script.answer today fuel
       (Script.start (Script.RNone :: app (filter_script present)
                                          (paged_script disabled page more)))
     = (Done (Return (for_each_row (sebi_row today)
                        (flat_map sebi_candidates (page :: more)) [])), s') /\
     page_calls (history s') = S (List.length more) /\
     typed_texts (history s')
     = if present then [fmt_dd_mm_yyyy today; fmt_dd_mm_yyyy today] else []).
Proof.
  intros Hlt. split.
  - destruct (icra_date_filter_script today present (paged_script disabled page more)
                [Called (Get "https://www.icra.in/Rating/RatingList.aspx") (Return tt)])
      as (h1 & E1 & Hp1 & _ & Ht1).
    destruct (@paged_loop_script icra_candidates (icra_row today) next_xpath_input
                disabled more page fuel [] 1 [] h1 Hlt)
      as (h' & E & Hp & _ & Ht).
    rewrite app_nil_r in E.
    eexists. split.
    + unfold scrape_icra_ratings, Script.start, try_exceptM.
      unfold bindM at 1. unfold no_driver. cbn [driver].
      unfold bindM at 1. rewrite call_script. cbn [Script.decode Script.as_unit].
      unfold bindM at 1. unfold sleep at 1. unfold ret at 1.
      unfold bindM at 1. rewrite E1.
      unfold bindM at 1. rewrite E. reflexivity.
    + cbn [history]. rewrite Hp, Hp1, Ht, Ht1. unfold page_calls. simpl.
      split; [lia | now rewrite app_nil_r].
  - destruct (sebi_date_filter_script today present (paged_script disabled page more)
                [Called (Get "https://www.sebi.gov.in/sebiweb/home/HomeAction.do?doListing=yes&sid=1&ssid=1&smid=1")
                        (Return tt)])
      as (h1 & E1 & Hp1 & _ & Ht1).
    destruct (@paged_loop_script sebi_candidates (sebi_row today) next_xpath_input
                disabled more page fuel [] 1 [] h1 Hlt)
      as (h' & E & Hp & _ & Ht).
    rewrite app_nil_r in E.
    eexists. split.
    + unfold scrape_sebi_announcements, Script.start, try_exceptM.
      unfold bindM at 1. unfold no_driver. cbn [driver].
      unfold bindM at 1. rewrite call_script. cbn [Script.decode Script.as_unit].
      unfold bindM at 1. unfold sleep at 1. unfold ret at 1.
      unfold bindM at 1. rewrite E1.
      unfold bindM at 1. rewrite E. reflexivity.
    + cbn [history]. rewrite Hp, Hp1, Ht, Ht1. unfold page_calls. simpl.
      split; [lia | now rewrite app_nil_r].
Qed.

Lemma scrape_icra_sebi_pages_witness :
  exists s',
    scrape_sebi_announcements Script.answer Sample.nov3 2
      (Script.start (Script.RNone :: app (filter_script true)
                                         (paged_script true Scenario.sebi_page
                                            [Scenario.sebi_page])))
    = (Done (Return (for_each_row (sebi_row Sample.nov3)
                       (flat_map sebi_candidates
                          [Scenario.sebi_page; Scenario.sebi_page]) [])), s') /\
    page_calls (history s') = 2 /\
    typed_texts (history s') = ["03-11-2026"; "03-11-2026"].
Proof.
  apply (@scrape_icra_sebi_pages Sample.nov3 true true Scenario.sebi_page
           [Scenario.sebi_page] 2).
  simpl. lia.
Defined.

(* ================================================================== *)
(** * The segments of the BSE scraper *)

Section BseSegments.

Variable today : datetime.

Lemma bse_row_record (segment current_date : string) (row : node) (alerts : list alert) :
  bse_row today segment current_date row alerts
  = Return (app alerts (map (bse_alert today segment current_date) (bse_record row))).
Proof.
  unfold bse_row, bse_record.
  destruct (find_all "td" row) as [|c0 [|c1 [|c2 rest]]];
    try (simpl; now rewrite app_nil_r).
  cbn [List.length Nat.leb Nat.ltb cell_text getitem nth_error bindE].
  destruct (truthy (get_text_strip c1)); simpl; [reflexivity | now rewrite app_nil_r].
Qed.

Lemma for_each_row_bse (segment current_date : string) (rows : list node)
  (alerts : list alert) :
  for_each_row (bse_row today segment current_date) rows alerts
  = app alerts (map (bse_alert today segment current_date) (flat_map bse_record rows)).
Proof.
  revert alerts. induction rows as [|row rest IH]; intros alerts.
  - simpl. now rewrite app_nil_r.
  - rewrite for_each_row_cons, bse_row_record, IH.
    cbn [flat_map]. now rewrite map_app, app_assoc.
Qed.

Lemma silent_refl (h : list event) : silent h h.
Proof. now exists []. Qed.

Lemma silent_cons (h h' : list event) (ev : event) :
  snapshot_of ev = None -> silent h h' -> silent h (ev :: h').
Proof.
  intros Hev (recent & -> & Hs). exists (ev :: recent). split; [reflexivity|].
  unfold snapshots in *. simpl. now rewrite Hev, Hs.
Qed.

Lemma silent_trans (h1 h2 h3 : list event) : silent h1 h2 -> silent h2 h3 -> silent h1 h3.
Proof.
  intros (r1 & -> & H1) (r2 & -> & H2). exists (r2 ++ r1)%list.
  split; [now rewrite app_assoc|].
  unfold snapshots in *. now rewrite flat_map_app, H1, H2.
Qed.

Variable W : Type.
Variable answer : forall A : Type, request A -> W -> result A * W.

Ltac solve_silent :=
  cbn [history];
  repeat (apply silent_cons; [reflexivity|]);
  first [ apply silent_refl | eassumption ].

Ltac silent_leaf := split; [discriminate | solve_silent].

Lemma select_option_silent (segment : string) (options : list WebElement)
  (s0 s : system W) :
  silent (history s0) (history s) ->
  wp (select_option answer segment options) (ends_silently s0) s.
Proof.
  revert s. induction options as [|o rest IH]; intros s Hq; simpl.
  - wp_run. silent_leaf.
  - wp_step. wp_step; [silent_leaf | | silent_leaf].
    destruct (contains (lower segment) (lower a)).
    + wp_run; silent_leaf.
    + apply IH. solve_silent.
Qed.

Lemma bse_select_segment_silent (segment : string) (s : system W) :
  wp (bse_select_segment answer segment) (ends_silently s) s.
Proof.
  unfold bse_select_segment.
  wp_step. wp_step. wp_step; [silent_leaf | | wp_run; silent_leaf].
  wp_step. wp_step; [silent_leaf | | wp_run; silent_leaf].
  eapply wp_mono; [apply (@select_option_silent segment a0 s); solve_silent|].
  intros [[[]|e]|] s' [Hne Hq]; [split; assumption | | contradiction].
  destruct (exn_eqb e NoSuchElementException); [wp_run|]; split;
    first [discriminate | assumption].
Qed.

Lemma bse_submit_silent (s : system W) :
  wp (bse_submit answer) (ends_silently s) s.
Proof. unfold bse_submit. wp_run; silent_leaf. Qed.

Lemma bse_date_fields_silent (current_date : string) (s : system W) :
  wp (bse_date_fields answer current_date) (ends_silently s) s.
Proof. unfold bse_date_fields. wp_run; silent_leaf. Qed.

(** one segment: it ends, it parses at most one page, and it appends the
    alerts of the records of that page *)
Lemma bse_segment_reads (segment : string) (alerts : list alert) (s : system W) :
  wp (bse_segment answer today (fmt_dd_mm_yyyy_slash today) segment alerts)
     (fun o s' =>
        exists recent page,
          history s' = app recent (history s) /\
          snapshots recent = option_list page /\
          o = Done (Return (app alerts (bse_segment_alerts today segment page)))) s.
Proof.
  assert (Hkeep : forall s' : system W, silent (history s) (history s') ->
            exists recent page,
              history s' = app recent (history s) /\
              snapshots recent = option_list page /\
              Done (Return alerts)
              = Done (Return (app alerts (bse_segment_alerts today segment page)))).
  { intros s' (recent & E & Hs).
    exists recent, None. simpl. now rewrite app_nil_r. }
  unfold bse_segment.
  wp_step. apply wp_bind. eapply wp_mono; [apply bse_select_segment_silent|].
  intros o s1 [Hne1 Hq1]. destruct o as [[[]|e]|]; cbv beta iota;
    [|wp_step; now apply Hkeep | contradiction].
  apply wp_bind. eapply wp_mono; [apply bse_submit_silent|].
  intros o s2 [Hne2 Hq2]. destruct o as [[[]|e]|]; cbv beta iota;
    [|wp_step; apply Hkeep; eapply silent_trans; eassumption | contradiction].
  assert (Hq : silent (history s) (history s2)) by (eapply silent_trans; eassumption).
  wp_step. wp_step; [wp_step; now apply Hkeep | | ].
  - wp_step. destruct Hq as (recent & E & Hs).
    exists (Called PageSource (Return a) :: recent), (Some a).
    cbn [history]. rewrite E. split; [reflexivity|].
    split; [unfold snapshots in *; simpl; now rewrite Hs|].
    now rewrite for_each_row_bse.
  - wp_step. apply Hkeep. solve_silent.
Qed.

End BseSegments.

Section BseScraper.

Variable today : datetime.
Variable W : Type.
Variable answer : forall A : Type, request A -> W -> result A * W.

Ltac solve_silent :=
  cbn [history];
  repeat (apply silent_cons; [reflexivity|]);
  first [ apply silent_refl | eassumption ].

Lemma scrape_bse_pages (s : system W) :
  wp (scrape_bse_announcements answer today) (bse_outcome today s) s.
Proof.
  assert (Hnone : forall s' : system W, silent (history s) (history s') ->
                    bse_outcome today s (Done (Return [])) s').
  { intros s' (recent & E & Hs). exists recent, None, None. auto. }
  unfold scrape_bse_announcements.
  wp_step. wp_step. wp_step. wp_step; [wp_step; apply Hnone; solve_silent|].
  cbv zeta. wp_step. wp_step; [wp_step; apply Hnone; solve_silent | |
                               wp_step; apply Hnone; solve_silent].
  wp_step. wp_step.
  apply wp_bind. eapply wp_mono; [apply bse_date_fields_silent|].
  intros o s1 [Hne1 Hq1]. cbn [history] in Hq1.
  assert (Hs1 : silent (history s) (history s1)).
  { eapply silent_trans; [|exact Hq1]. solve_silent. }
  destruct o as [[[]|e]|]; cbv beta iota;
    [|wp_step; now apply Hnone | contradiction].
  unfold segments. cbn [for_each].
  apply wp_bind. eapply wp_mono; [apply bse_segment_reads|].
  intros o s2 (r2 & equity & E2 & Hp2 & ->). cbv beta iota.
  apply wp_bind. eapply wp_mono; [apply bse_segment_reads|].
  intros o s3 (r3 & debt & E3 & Hp3 & ->). cbv beta iota.
  wp_step.
  destruct Hs1 as (r1 & E1 & Hp1).
  exists (app r3 (app r2 r1)), equity, debt.
  split; [reflexivity|]. split.
  - now rewrite E3, E2, E1, !app_assoc.
  - unfold snapshots in *. rewrite !flat_map_app, Hp3, Hp2, Hp1. now rewrite app_nil_r.
Qed.

End BseScraper.

(** [scrape_bse_announcements] in every browser: it returns, it parses at
    most one page for the Equity pass and one for the Debt pass, and its
    alerts are the records of the page of the Equity pass under the label
    "BSE (Equity)", then those of the page of the Debt pass under the label
    "BSE (Debt)", all dated today as DD/MM/YYYY; a pass that parsed no page
    gives no alert *)
Theorem scrape_bse_reads_pages (W : Type)
  (answer : forall A : Type, request A -> W -> result A * W)
  (today : datetime) (s : system W) :
  exists recent equity debt s',
    scrape_bse_announcements answer today s
    = (Done (Return (app (bse_segment_alerts today "Equity" equity)
                         (bse_segment_alerts today "Debt" debt))), s') /\
    history s' = app recent (history s) /\
    snapshots recent = app (option_list debt) (option_list equity).
Proof.
  pose proof (scrape_bse_pages today answer s) as H. unfold wp in H.
  destruct (scrape_bse_announcements answer today s) as [o s'].
  cbn [fst snd] in H. destruct H as (recent & equity & debt & -> & E & Hp).
  now exists recent, equity, debt, s'.
Qed.

(** when the two passes parse the same page, as they do where the segment
    cannot be selected, every announcement is reported twice: once as
    Equity and once as Debt *)
Theorem scrape_bse_same_page_twice (W : Type)
  (answer : forall A : Type, request A -> W -> result A * W)
  (today : datetime) (s s' : system W) (o : outcome (list alert))
  (recent : list event) (page : node) :
  scrape_bse_announcements answer today s = (o, s') ->
  history s' = app recent (history s) ->
  snapshots recent = [page; page] ->
  o = Done (Return
        (app (map (bse_alert today "Equity" (fmt_dd_mm_yyyy_slash today))
                  (flat_map bse_record (bse_candidates page)))
             (map (bse_alert today "Debt" (fmt_dd_mm_yyyy_slash today))
                  (flat_map bse_record (bse_candidates page))))).
Proof.
  intros Hrun Hh Hp.
  pose proof (scrape_bse_pages today answer s) as H. unfold wp in H.
  rewrite Hrun in H. cbn [fst snd] in H.
  destruct H as (recent' & equity & debt & -> & E & Hp').
  rewrite Hh in E. apply app_inv_tail in E. subst recent'.
  rewrite Hp in Hp'.
  destruct equity as [pe|], debt as [pd|]; try discriminate.
  injection Hp' as -> ->. reflexivity.
Qed.

Lemma scrape_bse_same_page_twice_witness :
  fst (scrape_bse_announcements Script.answer Sample.nov3
         (Script.start (bse_same_page_script Scenario.bse_page)))
  = Done (Return
      [ {| agency := "BSE (Equity)"; company := "ACME Ltd"; date := "03/11/2026";
           action := "Board Meeting"; timestamp := "2026-11-03T09:30:00" |};
        {| agency := "BSE (Debt)"; company := "ACME Ltd"; date := "03/11/2026";
           action := "Board Meeting"; timestamp := "2026-11-03T09:30:00" |} ]).
Proof.
  refine (eq_trans
            (@scrape_bse_same_page_twice _ Script.answer Sample.nov3
               (Script.start (bse_same_page_script Scenario.bse_page))
               (snd (scrape_bse_announcements Script.answer Sample.nov3
                       (Script.start (bse_same_page_script Scenario.bse_page))))
               _ (history (snd (scrape_bse_announcements Script.answer Sample.nov3
                       (Script.start (bse_same_page_script Scenario.bse_page)))))
               Scenario.bse_page (surjective_pairing _) _ _) _).
  - exact (eq_sym (app_nil_r _)).
  - reflexivity.
  - reflexivity.
Defined.

(* ================================================================== *)
(** * The segments of the NSE scraper *)

Section NseSegments.

Variable today : datetime.

Lemma nse_row_appends (segment : string) (row : node) (st : nse_locals * list alert) :
  exists added,
    snd (nse_row today segment row st) = app (snd st) added /\
    Forall (fun a => agency a = "NSE (" ++ segment ++ ")") added.
Proof.
  destruct st as [loc alerts]. unfold nse_row.
  destruct (nse_assign row loc) as [loc' [[]|e]];
    [|exists []; split; [symmetry; apply app_nil_r | constructor]].
  unfold nse_emit.
  destruct (load (company_name loc')) as [c|e]; cbn [bindE];
    [|exists []; split; [symmetry; apply app_nil_r | constructor]].
  destruct (truthy c);
    [|exists []; split; [symmetry; apply app_nil_r | constructor]].
  destruct (load (date_text loc')) as [d|e]; cbn [bindE];
    [|exists []; split; [symmetry; apply app_nil_r | constructor]].
  destruct (is_today_date today d);
    [|exists []; split; [symmetry; apply app_nil_r | constructor]].
  destruct (load (subject loc')) as [sj|e]; cbn [bindE];
    [|exists []; split; [symmetry; apply app_nil_r | constructor]].
  eexists [_]. split; [reflexivity|]. constructor; [reflexivity | constructor].
Qed.

Lemma nse_rows_appends (segment : string) (rows : list node)
  (st : nse_locals * list alert) :
  exists added,
    snd (nse_rows today segment rows st) = app (snd st) added /\
    Forall (fun a => agency a = "NSE (" ++ segment ++ ")") added.
Proof.
  unfold nse_rows. revert st. induction rows as [|row rest IH]; intros st.
  - exists []. split; [symmetry; apply app_nil_r | constructor].
  - cbn [fold_left].
    destruct (nse_row_appends segment row st) as (a1 & E1 & H1).
    destruct (IH (nse_row today segment row st)) as (a2 & E2 & H2).
    exists (app a1 a2). split; [now rewrite E2, E1, app_assoc | now apply Forall_app].
Qed.

Variable W : Type.
Variable answer : forall A : Type, request A -> W -> result A * W.

(** one segment: it ends, and it only appends alerts under its own label *)
Lemma nse_segment_appends (segment : string) (st : nse_locals * list alert)
  (s : system W) :
  wp (nse_segment answer today segment st)
     (fun o _ =>
        exists st' added,
          o = Done (Return st') /\ snd st' = app (snd st) added /\
          Forall (fun a => agency a = "NSE (" ++ segment ++ ")") added) s.
Proof.
  assert (Hkeep : exists st' added,
            Done (Return st) = Done (Return st') /\ snd st' = app (snd st) added /\
            Forall (fun a => agency a = "NSE (" ++ segment ++ ")") added).
  { exists st, []. split; [reflexivity|]. split; [symmetry; apply app_nil_r | constructor]. }
  unfold nse_segment, nse_tab. wp_run; try exact Hkeep.
  destruct (nse_rows_appends segment (nse_candidates a1) st) as (added & Eadd & Hadd).
  now exists (nse_rows today segment (nse_candidates a1) st), added.
Qed.

Lemma scrape_nse_labels (s : system W) :
  wp (scrape_nse_announcements answer today)
     (fun o _ =>
        exists equity debt,
          o = Done (Return (app equity debt)) /\
          Forall (fun a => agency a = "NSE (Equity)") equity /\
          Forall (fun a => agency a = "NSE (Debt)") debt) s.
Proof.
  assert (Hnone : exists equity debt,
            Done (Return (@nil alert)) = Done (Return (app equity debt)) /\
            Forall (fun a => agency a = "NSE (Equity)") equity /\
            Forall (fun a => agency a = "NSE (Debt)") debt).
  { exists [], []. repeat split; constructor. }
  unfold scrape_nse_announcements.
  wp_step. wp_step. wp_step. wp_step; [wp_step; exact Hnone|].
  cbv zeta. wp_step. wp_step; [wp_step; exact Hnone | | wp_step; exact Hnone].
  wp_step. wp_step. wp_step.
  unfold segments. cbn [for_each].
  apply wp_bind. eapply wp_mono; [apply nse_segment_appends|].
  intros o s2 (st2 & a2 & -> & E2 & H2). cbv beta iota.
  apply wp_bind. eapply wp_mono; [apply nse_segment_appends|].
  intros o s3 (st3 & a3 & -> & E3 & H3). cbv beta iota.
  wp_step. wp_step. exists a2, a3. rewrite E3, E2. auto.
Qed.

End NseSegments.

(** [scrape_nse_announcements] in every browser: it returns, and its alerts
    are those of the Equity pass, labelled "NSE (Equity)", followed by those
    of the Debt pass, labelled "NSE (Debt)" *)
Theorem scrape_nse_returns_by_segment (W : Type)
  (answer : forall A : Type, request A -> W -> result A * W)
  (today : datetime) (s : system W) :
  exists equity debt s',
    scrape_nse_announcements answer today s = (Done (Return (app equity debt)), s') /\
    Forall (fun a => agency a = "NSE (Equity)") equity /\
    Forall (fun a => agency a = "NSE (Debt)") debt.
Proof.
  pose proof (scrape_nse_labels today answer s) as H. unfold wp in H.
  destruct (scrape_nse_announcements answer today s) as [o s'].
  cbn [fst snd] in H. destruct H as (equity & debt & -> & He & Hd).
  now exists equity, debt, s'.
Qed.

(* ================================================================== *)
(** * The order of the alerts of a run *)

Section RunOrder.

Variable W : Type.
Variable answer : forall A : Type, request A -> W -> result A * W.
Variable today : datetime.

Lemma from_page_label (candidates : node -> list node) (R : node -> alert -> Prop)
  (label : string) (h : list event) (alerts : list alert) :
  (forall row a, R row a -> agency a = label) ->
  Forall (from_page candidates R h) alerts -> labelled label alerts.
Proof.
  intros HR. apply Forall_impl. intros a (soup & row & _ & _ & Ha). eauto.
Qed.

Lemma scrape_icra_labelled (fuel : nat) (s s' : system W) (alerts : list alert) :
  scrape_icra_ratings answer today fuel s = (Done (Return alerts), s') ->
  labelled "ICRA" alerts.
Proof.
  intros E. eapply scraper_alerts in E;
    [|exact (@scrape_icra_from_page W answer (fun _ => 0) (@size_zero W answer) today fuel s)].
  revert E. apply from_page_label. intros row a Ha. apply Ha.
Qed.

Lemma scrape_careedge_labelled (fuel : nat) (s s' : system W) (alerts : list alert) :
  scrape_careedge_ratings answer today fuel s = (Done (Return alerts), s') ->
  labelled "CareEdge" alerts.
Proof.
  intros E. eapply scraper_alerts in E;
    [|exact (@scrape_careedge_from_page W answer (fun _ => 0) (@size_zero W answer) today fuel s)].
  revert E. apply from_page_label. intros row a Ha. apply Ha.
Qed.

Lemma scrape_acuite_labelled (fuel : nat) (s s' : system W) (alerts : list alert) :
  scrape_acuite_ratings answer today fuel s = (Done (Return alerts), s') ->
  labelled "Acuite" alerts.
Proof.
  intros E. eapply scraper_alerts in E;
    [|exact (@scrape_acuite_from_page W answer (fun _ => 0) (@size_zero W answer) today fuel s)].
  revert E. apply from_page_label. intros row a Ha. apply Ha.
Qed.

Lemma scrape_crisil_labelled (fuel : nat) (s s' : system W) (alerts : list alert) :
  scrape_crisil_ratings answer today fuel s = (Done (Return alerts), s') ->
  labelled "CRISIL" alerts.
Proof.
  intros E. eapply scraper_alerts in E;
    [|exact (@scrape_crisil_from_page W answer (fun _ => 0) (@size_zero W answer) today fuel s)].
  revert E. apply from_page_label. intros row a Ha. apply Ha.
Qed.

Lemma scrape_sebi_labelled (fuel : nat) (s s' : system W) (alerts : list alert) :
  scrape_sebi_announcements answer today fuel s = (Done (Return alerts), s') ->
  labelled "SEBI" alerts.
Proof.
  intros E. eapply scraper_alerts in E;
    [|exact (@scrape_sebi_from_page W answer (fun _ => 0) (@size_zero W answer) today fuel s)].
  revert E. apply from_page_label. intros row a Ha. apply Ha.
Qed.

Lemma bse_segment_alerts_labelled (segment : string) (page : option node) :
  labelled ("BSE (" ++ segment ++ ")") (bse_segment_alerts today segment page).
Proof.
  destruct page as [soup|]; [|constructor]. unfold bse_segment_alerts, labelled.
  apply Forall_forall. intros a Ha. apply in_map_iff in Ha as (r & <- & _). reflexivity.
Qed.

Lemma scrape_bse_labelled (s s' : system W) (alerts : list alert) :
  scrape_bse_announcements answer today s = (Done (Return alerts), s') ->
  exists equity debt,
    alerts = app equity debt /\
    labelled "BSE (Equity)" equity /\ labelled "BSE (Debt)" debt.
Proof.
  intros E. pose proof (scrape_bse_pages today answer s) as H. unfold wp in H.
  rewrite E in H. cbn [fst snd] in H.
  destruct H as (recent & equity & debt & [= ->] & _ & _).
  do 2 eexists. split; [reflexivity|].
  split; [apply (bse_segment_alerts_labelled "Equity") | apply (bse_segment_alerts_labelled "Debt")].
Qed.

Lemma scrape_nse_labelled (s s' : system W) (alerts : list alert) :
  scrape_nse_announcements answer today s = (Done (Return alerts), s') ->
  exists equity debt,
    alerts = app equity debt /\
    labelled "NSE (Equity)" equity /\ labelled "NSE (Debt)" debt.
Proof.
  intros E. pose proof (scrape_nse_labels today answer s) as H. unfold wp in H.
  rewrite E in H. cbn [fst snd] in H.
  destruct H as (equity & debt & [= ->] & He & Hd). now exists equity, debt.
Qed.

(** the runner puts the results of the scrapers one after the other *)
Lemma run_scrapers_groups (l : list (string * M W (list alert)))
  (Ps : list (list alert -> Prop)) :
  Forall2 (fun nf P => forall s r s', snd nf s = (Done (Return r), s') -> P r) l Ps ->
  (forall name f s e, In (name, f) l -> fst (f s) <> Done (Raise e)) ->
  forall acc s alerts s',
    run_scrapers l acc s = (Done (Return alerts), s') ->
    exists rs, alerts = app acc (List.concat rs) /\ Forall2 (fun P r => P r) Ps rs.
Proof.
  induction 1 as [|[name f] P l Ps Hf _ IH]; intros Hno acc s alerts s' E.
  - simpl in E. injection E as <- <-. exists []. split; [now rewrite app_nil_r | constructor].
  - rewrite run_scrapers_step in E.
    destruct (f s) as [[[r|e]|] s1] eqn:Ef; [| |discriminate].
    + destruct (IH (fun n g s0 e0 Hin => Hno n g s0 e0 (or_intror Hin)) _ _ _ _ E) as (rs & -> & Hrs).
      exists (r :: rs). split; [simpl; now rewrite app_assoc|].
      constructor; [|exact Hrs]. exact (Hf s r s1 Ef).
    + exfalso. apply (Hno name f s e (or_introl eq_refl)). now rewrite Ef.
Qed.

End RunOrder.

Lemma run_groups (W : Type)
  (answer : forall A : Type, request A -> W -> result A * W)
  (today : datetime) (fuel : nat) (s s' : system W) (alerts : list alert) :
  run_all_scrapers answer today fuel s = (Done (Return alerts), s') ->
  exists groups,
    alerts = List.concat groups /\ Forall2 labelled source_labels groups.
Proof.
  intros E. unfold run_all_scrapers in E.
  apply (@run_scrapers_groups W _
           [ labelled "ICRA"; labelled "CareEdge"; labelled "Acuite"; labelled "CRISIL";
             (fun r => exists equity debt, r = app equity debt /\
                         labelled "BSE (Equity)" equity /\ labelled "BSE (Debt)" debt);
             (fun r => exists equity debt, r = app equity debt /\
                         labelled "NSE (Equity)" equity /\ labelled "NSE (Debt)" debt);
             labelled "SEBI" ]) in E.
  - destruct E as (rs & -> & Hrs).
    inversion Hrs as [|? r1 ? rs1 H1 Hrs1]; subst.
    inversion Hrs1 as [|? r2 ? rs2 H2 Hrs2]; subst.
    inversion Hrs2 as [|? r3 ? rs3 H3 Hrs3]; subst.
    inversion Hrs3 as [|? r4 ? rs4 H4 Hrs4]; subst.
    inversion Hrs4 as [|? r5 ? rs5 H5 Hrs5]; subst.
    inversion Hrs5 as [|? r6 ? rs6 H6 Hrs6]; subst.
    inversion Hrs6 as [|? r7 ? rs7 H7 Hrs7]; subst.
    inversion Hrs7; subst.
    destruct H5 as (e5 & d5 & -> & He5 & Hd5). destruct H6 as (e6 & d6 & -> & He6 & Hd6).
    exists [r1; r2; r3; r4; e5; d5; e6; d6; r7]. split.
    + simpl. now rewrite <- !app_assoc.
    + unfold source_labels. repeat (constructor; [assumption|]). constructor.
  - unfold scrapers. repeat constructor; cbn [snd]; intros s0 r s1 Er.
    + eapply scrape_icra_labelled; exact Er.
    + eapply scrape_careedge_labelled; exact Er.
    + eapply scrape_acuite_labelled; exact Er.
    + eapply scrape_crisil_labelled; exact Er.
    + eapply scrape_bse_labelled; exact Er.
    + eapply scrape_nse_labelled; exact Er.
    + eapply scrape_sebi_labelled; exact Er.
  - intros name f s0 e Hin. eapply scrapers_no_raise; exact Hin.
Qed.

Section SectionOrder.

Lemma filter_id {A} (p : A -> bool) (l : list A) :
  (forall x, In x l -> p x = true) -> filter p l = l.
Proof.
  induction l as [|x r IH]; intros H; simpl; [reflexivity|].
  rewrite (H x (or_introl eq_refl)), IH; [reflexivity|]. intros; apply H; now right.
Qed.

Lemma filter_idem {A} (p : A -> bool) (l : list A) :
  filter p (filter p l) = filter p l.
Proof.
  apply filter_id. intros x Hx. now apply filter_In in Hx.
Qed.

Lemma first_seen_without (k : string) (ks : list string) :
  ~ In k ks -> filter (fun y => negb (String.eqb y k)) (first_seen ks) = first_seen ks.
Proof.
  intros Hk. apply filter_id. intros x Hx. apply (proj1 (first_seen_In _ _)) in Hx.
  apply negb_true_iff, String.eqb_neq. intros E. apply Hk. now rewrite <- E.
Qed.

Lemma first_seen_repeat (k : string) (n : nat) (rest : list string) :
  ~ In k rest ->
  first_seen (app (repeat k n) rest)
  = app (match n with 0 => [] | S _ => [k] end) (first_seen rest).
Proof.
  intros Hk.
  assert (H : forall m, filter (fun y => negb (String.eqb y k))
                          (first_seen (app (repeat k m) rest)) = first_seen rest).
  { induction m as [|m IH]; simpl; [now apply first_seen_without|].
    rewrite String.eqb_refl. simpl. now rewrite filter_idem. }
  destruct n as [|n]; simpl; [reflexivity|]. now rewrite H.
Qed.

Lemma labelled_agencies (k : string) (g : list alert) :
  labelled k g -> map agency g = repeat k (List.length g).
Proof.
  induction 1 as [|a g Ha _ IH]; simpl; [reflexivity|]. now rewrite Ha, IH.
Qed.

Lemma labelled_groups_agencies (ks : list string) (gs : list (list alert)) (k : string) :
  Forall2 labelled ks gs -> In k (map agency (List.concat gs)) -> In k ks.
Proof.
  induction 1 as [|k0 g ks gs Hg _ IH]; simpl; [auto|].
  rewrite map_app, in_app_iff. intros [H|H]; [left | right; auto].
  rewrite (labelled_agencies Hg) in H. now apply repeat_spec in H.
Qed.

(** groups that carry distinct labels: the labels seen, in first-seen order,
    are the labels of the groups that are not empty, in the order of the
    groups *)
Lemma first_seen_groups (ks : list string) (gs : list (list alert)) :
  NoDup ks -> Forall2 labelled ks gs ->
  first_seen (map agency (List.concat gs))
  = filter (fun k => existsb (String.eqb k) (map agency (List.concat gs))) ks.
Proof.
  intros Hnd H. induction H as [|k g ks gs Hg Hgs IH]; [reflexivity|].
  inversion Hnd as [|? ? Hk Hnd']; subst. specialize (IH Hnd').
  assert (Hrest : ~ In k (map agency (List.concat gs))).
  { intros Hin. apply Hk. eapply labelled_groups_agencies; eassumption. }
  cbn [List.concat]. rewrite map_app, (labelled_agencies Hg).
  rewrite first_seen_repeat by exact Hrest. cbn [filter].
  assert (Hks : filter (fun k0 => existsb (String.eqb k0)
                                    (app (repeat k (List.length g))
                                         (map agency (List.concat gs)))) ks
                = filter (fun k0 => existsb (String.eqb k0)
                                      (map agency (List.concat gs))) ks).
  { apply filter_ext_in. intros k' Hk'. rewrite existsb_app.
    replace (existsb (String.eqb k') (repeat k (List.length g))) with false;
      [reflexivity|].
    symmetry. apply not_true_iff_false. intros Hex.
    apply existsb_exists in Hex as (x & Hx & Ex). apply repeat_spec in Hx.
    apply String.eqb_eq in Ex. subst. contradiction. }
  rewrite Hks, <- IH. rewrite existsb_app.
  destruct g as [|a g']; simpl.
  - replace (existsb (String.eqb k) (map agency (List.concat gs))) with false;
      [reflexivity|].
    symmetry. apply not_true_iff_false. intros Hex.
    apply existsb_exists in Hex as (x & Hx & Ex). apply String.eqb_eq in Ex.
    subst. contradiction.
  - now rewrite String.eqb_refl.
Qed.

Lemma source_labels_NoDup : NoDup source_labels.
Proof.
  unfold source_labels.
  repeat (constructor; [simpl; intros H; repeat (destruct H as [H|H]; [discriminate H|]); exact H|]).
  constructor.
Qed.

End SectionOrder.


(** the alerts of a run come source by source, in the order the scrapers are
    run, Equity before Debt: they are nine groups put one after the other,
    the alerts of each group carrying its label *)
Theorem run_alerts_by_source (W : Type)
  (answer : forall A : Type, request A -> W -> result A * W)
  (today : datetime) (fuel : nat) (s s' : system W) (alerts : list alert) :
  run_all_scrapers answer today fuel s = (Done (Return alerts), s') ->
  exists groups,
    alerts = List.concat groups /\ Forall2 labelled source_labels groups.
Proof. apply run_groups. Qed.

Example run_script_alerts :
  map agency (returned (fst (run_all_scrapers Script.answer Sample.nov3 2
                               (Script.start run_script))))
  = ["BSE (Equity)"; "BSE (Debt)"; "NSE (Equity)"; "NSE (Debt)"; "SEBI"].
Proof. reflexivity. Qed.

Lemma run_alerts_by_source_witness :
  exists groups,
    returned (fst (run_all_scrapers Script.answer Sample.nov3 2
                     (Script.start run_script)))
    = List.concat groups /\
    Forall2 labelled source_labels groups.
Proof.
  apply (@run_alerts_by_source _ Script.answer Sample.nov3 2 (Script.start run_script)
           (snd (run_all_scrapers Script.answer Sample.nov3 2 (Script.start run_script)))).
  reflexivity.
Defined.

(** the sections of the report of a run stand in the order of the sources:
    the agencies of the report are the labels that occur among the alerts,
    in the order ICRA, CareEdge, Acuite, CRISIL, BSE (Equity), BSE (Debt),
    NSE (Equity), NSE (Debt), SEBI *)
Theorem run_report_sections (W : Type)
  (answer : forall A : Type, request A -> W -> result A * W)
  (today : datetime) (fuel : nat) (s s' : system W) (alerts : list alert) :
  run_all_scrapers answer today fuel s = (Done (Return alerts), s') ->
  map fst (group_by_agency alerts)
  = filter (fun k => existsb (String.eqb k) (map agency alerts)) source_labels.
Proof.
  intros E. apply run_groups in E as (groups & -> & Hg).
  rewrite group_by_agency_spec, spec_groups_keys.
  apply first_seen_groups; [apply source_labels_NoDup | exact Hg].
Qed.

Lemma run_report_sections_witness :
  map fst (group_by_agency
             (returned (fst (run_all_scrapers Script.answer Sample.nov3 2
                               (Script.start run_script)))))
  = ["BSE (Equity)"; "BSE (Debt)"; "NSE (Equity)"; "NSE (Debt)"; "SEBI"].
Proof.
  refine (eq_trans
            (@run_report_sections _ Script.answer Sample.nov3 2 (Script.start run_script)
               (snd (run_all_scrapers Script.answer Sample.nov3 2
                       (Script.start run_script))) _ _) _).
  - reflexivity.
  - reflexivity.
Defined.

(* ================================================================== *)
(** * What every run of a computation keeps *)

Section Stepwise.

Variable W : Type.
Variable answer : forall A : Type, request A -> W -> result A * W.
Variable R : system W -> system W -> Prop.
Hypothesis R_refl : forall s, R s s.
Hypothesis R_trans : forall s1 s2 s3, R s1 s2 -> R s2 s3 -> R s1 s3.

Lemma stepwise_ret {A} (a : A) : stepwise R (@ret W A a).
Proof. intros s. apply R_refl. Qed.

Lemma stepwise_sleep (n : nat) : stepwise R (@sleep W n).
Proof. intros s. apply R_refl. Qed.

Lemma stepwise_no_driver : stepwise R (@no_driver W).
Proof. intros s. apply R_refl. Qed.

Lemma stepwise_call {A} (q : request A) :
  (forall s w r w', driver s = Some w ->
     R s {| driver := Some w'; history := Called q r :: history s |}) ->
  stepwise R (call answer q).
Proof.
  intros Hq s. unfold call. destruct (driver s) as [w|] eqn:E; [|apply R_refl].
  destruct (answer q w) as [r w']. cbn [snd]. now apply (Hq s w).
Qed.

Lemma stepwise_bind {A B} (c : M W A) (k : A -> M W B) :
  stepwise R c -> (forall a, stepwise R (k a)) -> stepwise R (bindM c k).
Proof.
  intros Hc Hk s. unfold bindM. specialize (Hc s).
  destruct (c s) as [[[a|e]|] s1]; cbn [snd] in *; [|exact Hc..].
  eapply R_trans; [exact Hc | apply Hk].
Qed.

Lemma stepwise_try {A} (c : M W A) (h : exn -> M W A) :
  stepwise R c -> (forall e, stepwise R (h e)) -> stepwise R (try_exceptM c h).
Proof.
  intros Hc Hh s. unfold try_exceptM. specialize (Hc s).
  destruct (c s) as [[[a|e]|] s1]; cbn [snd] in *; [exact Hc | | exact Hc].
  eapply R_trans; [exact Hc | apply Hh].
Qed.

Lemma stepwise_try_only {A} (cls : exn) (c h : M W A) :
  stepwise R c -> stepwise R h -> stepwise R (try_except_only cls c h).
Proof.
  intros Hc Hh s. unfold try_except_only. specialize (Hc s).
  destruct (c s) as [[[a|e]|] s1]; cbn [snd] in *; [exact Hc | | exact Hc].
  destruct (exn_eqb e cls); [|exact Hc].
  eapply R_trans; [exact Hc | apply Hh].
Qed.

Lemma stepwise_while {S} (body : S -> M W (ctl S)) (fuel : nat) (st : S) :
  (forall st, stepwise R (body st)) -> stepwise R (while_true fuel body st).
Proof.
  intros Hbody. revert st. induction fuel as [|fuel IH]; intros st.
  - intros s. apply R_refl.
  - simpl. apply stepwise_bind; [apply Hbody|].
    intros [st'|st']; [apply IH | apply stepwise_ret].
Qed.

Lemma stepwise_for_each {X S} (l : list X) (body : X -> S -> M W S) (st : S) :
  (forall x st, In x l -> stepwise R (body x st)) -> stepwise R (for_each l body st).
Proof.
  revert st. induction l as [|x r IH]; intros st Hbody; simpl.
  - apply stepwise_ret.
  - apply stepwise_bind; [apply Hbody; now left|].
    intros st'. apply IH. intros y st0 Hy. apply Hbody. now right.
Qed.

Lemma stepwise_run_scrapers (l : list (string * M W (list alert))) (acc : list alert) :
  (forall name f, In (name, f) l -> stepwise R f) -> stepwise R (run_scrapers l acc).
Proof.
  revert acc. induction l as [|[name f] rest IH]; intros acc Hl; simpl.
  - apply stepwise_ret.
  - apply stepwise_bind.
    + apply stepwise_try; [|intros e; apply stepwise_ret].
      apply stepwise_bind; [apply (Hl name f); now left|].
      intros a. apply stepwise_bind; [apply stepwise_sleep | intros ?; apply stepwise_ret].
    + intros acc'. apply IH. intros n g Hin. apply (Hl n g). now right.
Qed.

End Stepwise.

(** the structure of a computation decides what its runs keep: [Hr] and
    [Ht] say that the relation is reflexive and transitive, [tac] proves it
    of one call *)
Ltac stepwise_step Hr Ht tac :=
  lazymatch goal with
  | |- stepwise _ (bindM _ _) => eapply stepwise_bind; [exact Ht | | intros ?]
  | |- stepwise _ (try_exceptM _ _) => eapply stepwise_try; [exact Ht | | intros ?]
  | |- stepwise _ (try_except_only _ _ _) => eapply stepwise_try_only; [exact Ht | | ]
  | |- stepwise _ (ret _) => eapply stepwise_ret; exact Hr
  | |- stepwise _ (sleep _) => eapply stepwise_sleep; exact Hr
  | |- stepwise _ no_driver => eapply stepwise_no_driver; exact Hr
  | |- stepwise _ (while_true _ _ _) =>
      eapply stepwise_while; [exact Hr | exact Ht | intros ?]
  | |- stepwise _ (for_each _ _ _) =>
      eapply stepwise_for_each; [exact Hr | exact Ht | intros ? ? ?]
  | |- stepwise _ (call _ _) =>
      eapply stepwise_call; [exact Hr | intros ? ? ? ? ?; tac]
  | |- stepwise _ (if ?b then _ else _) => destruct b
  | |- stepwise _ (let (_, _) := ?st in _) => destruct st
  | |- stepwise _ (match ?st with pair _ _ => _ end) => destruct st
  end.

(** the scrapers, by their structure *)
Ltac stepwise_scrapers Hr Ht tac :=
  unfold scrape_icra_ratings, scrape_careedge_ratings, scrape_acuite_ratings,
    scrape_crisil_ratings, scrape_bse_announcements, scrape_nse_announcements,
    scrape_sebi_announcements, icra_date_filter, sebi_date_filter, paged_body,
    next_page, scroll_body, careedge_extract, load_more_body, crisil_extract,
    bse_date_fields, bse_segment, bse_select_segment, bse_submit, nse_segment,
    nse_tab;
  repeat stepwise_step Hr Ht tac.

(* ================================================================== *)
(** * The calls a run makes *)

Section Calls.

Variable P : event -> Prop.

Lemma only_refl (h : list event) : only P h h.
Proof. exists []. split; [reflexivity | constructor]. Qed.

Lemma only_cons (h h' : list event) (ev : event) :
  P ev -> only P h h' -> only P h (ev :: h').
Proof.
  intros Hev (recent & -> & H). exists (ev :: recent).
  split; [reflexivity | now constructor].
Qed.

Lemma only_trans (h1 h2 h3 : list event) : only P h1 h2 -> only P h2 h3 -> only P h1 h3.
Proof.
  intros (r1 & -> & H1) (r2 & -> & H2). exists (app r2 r1).
  split; [now rewrite app_assoc | now apply Forall_app].
Qed.

End Calls.

Section AllowedCalls.

Variable W : Type.
Variable answer : forall A : Type, request A -> W -> result A * W.
Variable today : datetime.

Lemma allowed_refl (s : system W) : allowed_steps today s s.
Proof. apply only_refl. Qed.

Lemma allowed_trans (s1 s2 s3 : system W) :
  allowed_steps today s1 s2 -> allowed_steps today s2 s3 -> allowed_steps today s1 s3.
Proof. apply only_trans. Qed.

Ltac allowed_call :=
  apply only_cons; [cbn; auto 20 | apply only_refl].

Lemma select_option_allowed (segment : string) (options : list WebElement) :
  keeps (allowed today) (select_option answer segment options).
Proof.
  change (stepwise (allowed_steps today) (select_option answer segment options)).
  induction options as [|o rest IH]; simpl;
    repeat stepwise_step allowed_refl allowed_trans allowed_call.
  exact IH.
Qed.

Lemma scrapers_allowed (fuel : nat) (name : string) (f : M W (list alert)) :
  In (name, f) (scrapers answer today fuel) -> keeps (allowed today) f.
Proof.
  unfold scrapers. intros H.
  change (stepwise (allowed_steps today) f).
  repeat (destruct H as [[= <- <-]|H]); try contradiction;
    stepwise_scrapers allowed_refl allowed_trans allowed_call;
    try apply select_option_allowed.
  match goal with
  | H : In _ segments |- _ => destruct H as [<-|[<-|[]]]; cbn; auto 20
  end.
Qed.

Lemma run_allowed (fuel : nat) :
  keeps (allowed today) (run_all_scrapers answer today fuel).
Proof.
  change (stepwise (allowed_steps today) (run_all_scrapers answer today fuel)).
  eapply stepwise_run_scrapers; [exact allowed_refl | exact allowed_trans |].
  intros name f Hin. eapply scrapers_allowed; exact Hin.
Qed.

End AllowedCalls.

(** whatever the browser answers, a run opens no page but the seven of the
    sources, looks up no control but the sixteen the scrapers name, types
    nothing but today's date, as DD/MM/YYYY or DD-MM-YYYY, and runs no script
    but the two that measure and scroll the list of recent ratings *)
Theorem run_makes_allowed_calls (W : Type)
  (answer : forall A : Type, request A -> W -> result A * W)
  (today : datetime) (fuel : nat) (s : system W) :
  exists recent,
    history (snd (run_all_scrapers answer today fuel s)) = app recent (history s) /\
    Forall (allowed today) recent.
Proof. exact (run_allowed answer today fuel s). Qed.

(* ================================================================== *)
(** * The driver of a session *)

Section SameDriver.

Variable W : Type.
Variable answer : forall A : Type, request A -> W -> result A * W.
Variable today : datetime.

Lemma same_driver_refl (s : system W) : same_driver s s.
Proof. unfold same_driver. tauto. Qed.

Lemma same_driver_trans (s1 s2 s3 : system W) :
  same_driver s1 s2 -> same_driver s2 s3 -> same_driver s1 s3.
Proof. unfold same_driver. tauto. Qed.

Ltac driver_call :=
  unfold same_driver; cbn [driver]; split; intros; congruence.

Lemma select_option_same_driver (segment : string) (options : list WebElement) :
  stepwise same_driver (select_option answer segment options).
Proof.
  induction options as [|o rest IH]; simpl;
    repeat stepwise_step same_driver_refl same_driver_trans driver_call.
  exact IH.
Qed.

Lemma scrapers_same_driver (fuel : nat) (name : string) (f : M W (list alert)) :
  In (name, f) (scrapers answer today fuel) -> stepwise same_driver f.
Proof.
  unfold scrapers. intros H.
  repeat (destruct H as [[= <- <-]|H]); try contradiction;
    stepwise_scrapers same_driver_refl same_driver_trans driver_call;
    try apply select_option_same_driver.
Qed.

(** a run neither loses the driver nor gets one *)
Lemma run_same_driver (fuel : nat) :
  stepwise same_driver (run_all_scrapers answer today fuel).
Proof.
  eapply stepwise_run_scrapers; [exact same_driver_refl | exact same_driver_trans |].
  intros name f Hin. eapply scrapers_same_driver; exact Hin.
Qed.

End SameDriver.

(* ================================================================== *)
(** * The program around the scrapers *)

Section FileNames.

Lemma digit_not_letter (n : nat) : digit n <> "r"%char.
Proof.
  unfold digit.
  destruct (n mod 10) as [|[|[|[|[|[|[|[|[|k]]]]]]]]]; discriminate.
Qed.

Lemma fmt_timestamp_inj (a b : datetime) :
  valid_date a -> valid_date b -> valid_time a -> valid_time b ->
  fmt_timestamp a = fmt_timestamp b -> same_second a b.
Proof.
  intros (Hy & Hm & Hd) (Hy' & Hm' & Hd') (Hh & Hmi & Hs) (Hh' & Hmi' & Hs') H.
  unfold fmt_timestamp in H.
  apply append_inj_length in H as [Ey H]; [|reflexivity].
  apply append_inj_length in H as [Em H]; [|reflexivity].
  apply append_inj_length in H as [Ed H]; [|reflexivity].
  apply append_inj_length in H as [_ H]; [|reflexivity].
  apply append_inj_length in H as [Eh H]; [|reflexivity].
  apply append_inj_length in H as [Emi Es]; [|reflexivity].
  apply four_digits_inj in Ey; [|lia..].
  apply two_digits_inj in Em; [|lia..]. apply two_digits_inj in Ed; [|lia..].
  apply two_digits_inj in Eh; [|lia..]. apply two_digits_inj in Emi; [|lia..].
  apply two_digits_inj in Es; [|lia..].
  repeat split; assumption.
Qed.

Lemma same_second_timestamp (a b : datetime) :
  same_second a b -> fmt_timestamp a = fmt_timestamp b.
Proof.
  intros ((Hy & Hm & Hd) & Hh & Hmi & Hs). unfold fmt_timestamp.
  now rewrite Hy, Hm, Hd, Hh, Hmi, Hs.
Qed.

End FileNames.

(** the file names of a run: two runs write the same JSON file exactly when
    they save in the same second, likewise for the report file, and a report
    file is never a JSON file *)
Theorem filenames_tell_the_second (a b : datetime) :
  valid_date a -> valid_date b -> valid_time a -> valid_time b ->
  (alerts_filename a = alerts_filename b <-> same_second a b) /\
  (report_filename a = report_filename b <-> same_second a b) /\
  alerts_filename a <> report_filename b.
Proof.
  intros Ha Hb Hta Htb. split; [|split].
  - split.
    + unfold alerts_filename. intros H.
      apply append_inj_length in H as [_ H]; [|reflexivity].
      apply append_inj_length in H as [H _]; [|reflexivity].
      now apply fmt_timestamp_inj.
    + intros H. unfold alerts_filename. now rewrite (same_second_timestamp H).
  - split.
    + unfold report_filename. intros H.
      apply append_inj_length in H as [_ H]; [|reflexivity].
      apply append_inj_length in H as [H _]; [|reflexivity].
      now apply fmt_timestamp_inj.
    + intros H. unfold report_filename. now rewrite (same_second_timestamp H).
  - unfold alerts_filename, report_filename, fmt_timestamp, four_digits. intros H.
    apply (f_equal (String.get 14)) in H. cbn in H. injection H as H.
    exact (digit_not_letter (year a / 1000) H).
Qed.

Lemma filenames_tell_the_second_witness :
  alerts_filename Sample.nov3 = "rating_alerts_20261103_093000.json" /\
  alerts_filename Sample.nov3
  <> report_filename {| year := 2026; month := 11; day := 3;
                        hour := 9; minute := 30; second := 1 |}.
Proof.
  split; [reflexivity|].
  refine (proj2 (proj2 (@filenames_tell_the_second Sample.nov3
                          {| year := 2026; month := 11; day := 3;
                             hour := 9; minute := 30; second := 1 |} _ _ _ _)));
    unfold valid_date, valid_time; simpl; lia.
Defined.

Section MainFacts.

Variable W : Type.
Variable answer : forall A : Type, request A -> W -> result A * W.
Variable quit : W -> result unit * W.
Variable O : Type.
Variable write_file : string -> string -> O -> bool * O.
Variable print : string -> O -> bool * O.
Variable json_dump : list alert -> string.
Variable today : datetime.

Lemma setup_selenium_driver (chrome : result W) :
  driver (setup_selenium chrome) = None <-> exists e, chrome = Raise e.
Proof.
  unfold setup_selenium. destruct chrome as [w|e]; cbn [driver]; split.
  - discriminate.
  - intros [e E]. discriminate.
  - intros _. now exists e.
  - reflexivity.
Qed.

(** the run inside [main]: it does not raise, and it ends with the driver
    it started with, or without one *)
Lemma main_run (chrome : result W) (fuel : nat) :
  exists o s1,
    run_all_scrapers answer today fuel (setup_selenium chrome) = (o, s1) /\
    (forall e, o <> Done (Raise e)) /\
    (driver s1 = None <-> exists e, chrome = Raise e).
Proof.
  pose proof (run_same_driver answer today fuel (setup_selenium chrome)) as Hd.
  pose proof (fun e => @run_scrapers_no_raise W (scrapers answer today fuel) []
                         (setup_selenium chrome) e) as Hno.
  fold (run_all_scrapers answer today fuel) in Hno.
  destruct (run_all_scrapers answer today fuel (setup_selenium chrome)) as [o s1].
  exists o, s1. split; [reflexivity|]. split; [exact Hno|].
  cbn [snd] in Hd. unfold same_driver in Hd. rewrite <- Hd. apply setup_selenium_driver.
Qed.

Ltac run_main :=
  unfold main, run_all_scrapers_file, io_finally, io_try, io_bind, on_browser,
    with_open_write, print_, io_ret, cleanup;
  cbn [alert_system os effects].

Ltac io_cases :=
  repeat (cbn [alert_system os effects fst snd driver history];
          match goal with
          | |- context [write_file ?a ?b ?c] =>
              destruct (write_file a b c) as [[|] ?]
          | |- context [print ?a ?b] => destruct (print a b) as [[|] ?]
          | |- context [quit ?w] => destruct (quit w) as [[[]|?] ?]
          | |- context [match driver ?s with _ => _ end] =>
              destruct (driver s) eqn:?
          end);
  cbn [alert_system os effects fst snd driver history].

Lemma main_cleanup (chrome : result W) (saved_at reported_at : datetime) (fuel : nat)
  (o : O) :
  match fst (main answer chrome quit write_file print json_dump today
               saved_at reported_at fuel o) with
  | Forever =>
      fst (run_all_scrapers answer today fuel (setup_selenium chrome)) = OutOfFuel /\
      effects (snd (main answer chrome quit write_file print json_dump today
                      saved_at reported_at fuel o)) = []
  | Finished _ =>
      match chrome with
      | Return _ =>
          exists before,
            effects (snd (main answer chrome quit write_file print json_dump today
                            saved_at reported_at fuel o))
            = Quit (Return tt) :: before /\
            quits before = []
      | Raise _ =>
          quits (effects (snd (main answer chrome quit write_file print json_dump
                                 today saved_at reported_at fuel o))) = []
      end
  | Failed f =>
      exists e before,
        f = BrowserFault e /\
        effects (snd (main answer chrome quit write_file print json_dump today
                        saved_at reported_at fuel o))
        = Quit (Raise e) :: before /\
        quits before = []
  end.
Proof.
  destruct (main_run chrome fuel) as (o1 & s1 & E & Hno & Hd).
  run_main. rewrite E.
  destruct o1 as [[alerts|e]|]; [| exfalso; exact (Hno e eq_refl) |];
    cbn [fst snd alert_system os effects]; [|split; reflexivity].
  io_cases.
  all: try (do 2 eexists; repeat split; reflexivity).
  all: destruct chrome as [w1|e1];
    first [ eexists; split; reflexivity
          | reflexivity
          | exfalso; destruct (proj1 Hd eq_refl); discriminate
          | exfalso; discriminate (proj2 Hd (ex_intro _ e1 eq_refl)) ].
Qed.

Lemma main_outputs (chrome : result W) (saved_at reported_at : datetime) (fuel : nat)
  (o : O) (alerts : list alert) (s1 : system W) :
  run_all_scrapers answer today fuel (setup_selenium chrome) = (Done (Return alerts), s1) ->
  let report := generate_alert_report today alerts in
  let saved := Wrote (alerts_filename saved_at) (json_dump alerts) in
  let done := rev (outputs (effects (snd (main answer chrome quit write_file print
                                            json_dump today saved_at reported_at
                                            fuel o)))) in
  done = [saved false] \/
  done = [saved true; Printed report false] \/
  exists ok,
    done = [saved true; Printed report true;
            Wrote (report_filename reported_at) report ok].
Proof.
  intros E report saved done. subst done saved report.
  unfold alerts_filename, report_filename.
  run_main. rewrite E. cbn [fst snd alert_system os effects].
  io_cases; cbn [outputs filter rev app]; eauto.
Qed.

Lemma run_without_driver (fuel : nat) (h : list event) :
  run_all_scrapers answer today fuel {| driver := None; history := h |}
  = (Done (Return []), {| driver := None; history := h |}).
Proof. reflexivity. Qed.

Lemma main_no_browser (e : exn) (saved_at reported_at : datetime) (fuel : nat)
  (o o1 o2 o3 : O) :
  write_file (alerts_filename saved_at) (json_dump []) o = (true, o1) ->
  print no_alerts_message o1 = (true, o2) ->
  write_file (report_filename reported_at) no_alerts_message o2 = (true, o3) ->
  main answer (Raise e) quit write_file print json_dump today saved_at reported_at fuel o
  = (Finished tt,
     {| alert_system := {| driver := None; history := [] |};
        os := o3;
        effects := [ Wrote (report_filename reported_at) no_alerts_message true;
                     Printed no_alerts_message true;
                     Wrote (alerts_filename saved_at) (json_dump []) true ] |}).
Proof.
  unfold alerts_filename, report_filename. intros E1 E2 E3.
  run_main. unfold setup_selenium. rewrite run_without_driver.
  cbn [fst snd alert_system os effects].
  rewrite E1. cbn [fst snd alert_system os effects].
  change (generate_alert_report today []) with no_alerts_message.
  rewrite E2. cbn [fst snd alert_system os effects].
  rewrite E3. reflexivity.
Qed.

End MainFacts.

(** [main] always closes the browser it opened: unless the scrapers never
    end, [driver.quit()] is called exactly once when Chrome had started, as
    the last thing the program does, and never when it had not; and no
    exception leaves [main] but one raised by that call *)
Theorem main_closes_the_browser (W : Type)
  (answer : forall A : Type, request A -> W -> result A * W)
  (chrome : result W) (quit : W -> result unit * W)
  (O : Type) (write_file : string -> string -> O -> bool * O)
  (print : string -> O -> bool * O) (json_dump : list alert -> string)
  (today saved_at reported_at : datetime) (fuel : nat) (o : O) :
  match fst (main answer chrome quit write_file print json_dump today
               saved_at reported_at fuel o) with
  | Forever =>
      fst (run_all_scrapers answer today fuel (setup_selenium chrome)) = OutOfFuel /\
      effects (snd (main answer chrome quit write_file print json_dump today
                      saved_at reported_at fuel o)) = []
  | Finished _ =>
      match chrome with
      | Return _ =>
          exists before,
            effects (snd (main answer chrome quit write_file print json_dump today
                            saved_at reported_at fuel o))
            = Quit (Return tt) :: before /\
            quits before = []
      | Raise _ =>
          quits (effects (snd (main answer chrome quit write_file print json_dump
                                 today saved_at reported_at fuel o))) = []
      end
  | Failed f =>
      exists e before,
        f = BrowserFault e /\
        effects (snd (main answer chrome quit write_file print json_dump today
                        saved_at reported_at fuel o))
        = Quit (Raise e) :: before /\
        quits before = []
  end.
Proof. apply main_cleanup. Qed.

(** what [main] writes and prints, in order: the JSON file of the alerts of
    the run first; the report only when that file was written, printed
    first and then written to its own file, with the same text; nothing
    after a step that failed *)
Theorem main_saves_then_reports (W : Type)
  (answer : forall A : Type, request A -> W -> result A * W)
  (chrome : result W) (quit : W -> result unit * W)
  (O : Type) (write_file : string -> string -> O -> bool * O)
  (print : string -> O -> bool * O) (json_dump : list alert -> string)
  (today saved_at reported_at : datetime) (fuel : nat) (o : O)
  (alerts : list alert) (s1 : system W) :
  run_all_scrapers answer today fuel (setup_selenium chrome) = (Done (Return alerts), s1) ->
  let report := generate_alert_report today alerts in
  let saved := Wrote (alerts_filename saved_at) (json_dump alerts) in
  let done := rev (outputs (effects (snd (main answer chrome quit write_file print
                                            json_dump today saved_at reported_at
                                            fuel o)))) in
  done = [saved false] \/
  done = [saved true; Printed report false] \/
  exists ok,
    done = [saved true; Printed report true;
            Wrote (report_filename reported_at) report ok].
Proof. apply main_outputs. Qed.

Lemma main_saves_then_reports_witness :
  exists alerts ok,
    map agency alerts
    = ["BSE (Equity)"; "BSE (Debt)"; "NSE (Equity)"; "NSE (Debt)"; "SEBI"] /\
    rev (outputs (effects (snd (main Script.answer (Return run_script) Disk.quit
                                  Disk.write_file Disk.print Disk.json_dump
                                  Sample.nov3 Sample.nov3 Sample.nov3 2 tt))))
    = [ Wrote "rating_alerts_20261103_093000.json" (Disk.json_dump alerts) true;
        Printed (generate_alert_report Sample.nov3 alerts) true;
        Wrote "rating_alerts_report_20261103_093000.txt"
              (generate_alert_report Sample.nov3 alerts) ok ].
Proof.
  exists (returned (fst (run_all_scrapers Script.answer Sample.nov3 2
                           (setup_selenium (Return run_script))))).
  destruct (@main_saves_then_reports _ Script.answer (Return run_script) Disk.quit
              unit Disk.write_file Disk.print Disk.json_dump
              Sample.nov3 Sample.nov3 Sample.nov3 2 tt
              (returned (fst (run_all_scrapers Script.answer Sample.nov3 2
                                (setup_selenium (Return run_script)))))
              (snd (run_all_scrapers Script.answer Sample.nov3 2
                      (setup_selenium (Return run_script)))) eq_refl)
    as [H|[H|[ok H]]].
  - lazy in H; discriminate H.
  - lazy in H; discriminate H.
  - exists ok. split; [reflexivity | exact H].
Defined.

(** when Chrome does not start and the files can be written, [main] makes
    no call on a browser, saves the empty list of alerts, prints the fixed
    message "No alerts found for today." and writes it to the report file *)
Theorem main_without_browser (W : Type)
  (answer : forall A : Type, request A -> W -> result A * W)
  (quit : W -> result unit * W)
  (O : Type) (write_file : string -> string -> O -> bool * O)
  (print : string -> O -> bool * O) (json_dump : list alert -> string)
  (today saved_at reported_at : datetime) (fuel : nat) (e : exn) (o o1 o2 o3 : O) :
  write_file (alerts_filename saved_at) (json_dump []) o = (true, o1) ->
  print "No alerts found for today." o1 = (true, o2) ->
  write_file (report_filename reported_at) "No alerts found for today." o2 = (true, o3) ->
  main answer (Raise e) quit write_file print json_dump today saved_at reported_at fuel o
  = (Finished tt,
     {| alert_system := {| driver := None; history := [] |};
        os := o3;
        effects := [ Wrote (report_filename reported_at) "No alerts found for today." true;
                     Printed "No alerts found for today." true;
                     Wrote (alerts_filename saved_at) (json_dump []) true ] |}).
Proof. apply main_no_browser. Qed.

Lemma main_without_browser_witness :
  main Script.answer (Raise WebDriverException) Disk.quit Disk.write_file Disk.print
       Disk.json_dump Sample.nov3 Sample.nov3 Sample.nov3 0 tt
  = (Finished tt,
     {| alert_system := Script.no_session;
        os := tt;
        effects := [ Wrote "rating_alerts_report_20261103_093000.txt"
                           "No alerts found for today." true;
                     Printed "No alerts found for today." true;
                     Wrote "rating_alerts_20261103_093000.json" "" true ] |}).
Proof.
  exact (@main_without_browser _ Script.answer Disk.quit unit Disk.write_file
           Disk.print Disk.json_dump Sample.nov3 Sample.nov3 Sample.nov3 0
           WebDriverException tt tt tt tt eq_refl eq_refl eq_refl).
Defined.

(* ================================================================== *)
(** * The texts of the alerts *)

Section TrimmedAlerts.

Variable today : datetime.

Lemma extract_trimmed_ends (element : node) (selectors : list pyobj) (text : string) :
  extract_text_from_element element selectors = Return text -> trimmed_ends text.
Proof.
  induction selectors as [|selector rest IH]; simpl.
  - intros [= <-]. left; reflexivity.
  - destruct (try_selector element selector) as [[t|]|e] eqn:E; [|exact IH..].
    intros [= <-]. eapply try_selector_trimmed; exact E.
Qed.

Lemma cell_trimmed (row : node) (i : nat) (text : string) :
  cell row i text -> trimmed_ends text.
Proof. intros (c & _ & ->). apply get_text_strip_trimmed. Qed.

Lemma solid_trimmed (v : string) : solid v -> trimmed_ends v.
Proof. intros (H1 & H2 & _). right. split; assumption. Qed.

Lemma hinted_reads_trimmed (label : string) (ch dh ah : list string) (row : node)
  (a : alert) :
  hinted_reads today label ch dh ah row a -> trimmed_alert a.
Proof.
  intros (_ & Hc & Hd & Ha & _).
  repeat split; apply trimmed_ends_fixed; eapply extract_trimmed_ends; eassumption.
Qed.

Lemma any_source_trimmed (h : list event) (a : alert) :
  any_source today h a -> trimmed_alert a.
Proof.
  intros [H|[H|[H|[H|[H|[H|H]]]]]]; destruct H as (soup & row & _ & _ & H).
  - eapply hinted_reads_trimmed; exact H.
  - eapply hinted_reads_trimmed; exact H.
  - destruct H as (_ & Hd & Hc & Ha & _).
    repeat split; apply trimmed_ends_fixed; eapply cell_trimmed; eassumption.
  - eapply hinted_reads_trimmed; exact H.
  - destruct H as (_ & Hc & Ha & Hd & _).
    repeat split; apply trimmed_ends_fixed;
      [eapply cell_trimmed; eassumption | | eapply cell_trimmed; eassumption].
    rewrite Hd. apply solid_trimmed, today_formats_solid with (today := today).
    simpl; auto.
  - destruct H as (_ & Hv & _). unfold nse_values in Hv.
    destruct row as [t|nm cls cs]; [contradiction|].
    destruct (String.eqb nm "tr"); destruct Hv as (Hc & Ha & Hd);
      repeat split; apply trimmed_ends_fixed;
      first [ eapply cell_trimmed; eassumption
            | eapply extract_trimmed_ends; eassumption ].
  - destruct H as (_ & Hc & Hd & Ha & _).
    repeat split; apply trimmed_ends_fixed;
      [rewrite Hc; right; split; [do 2 eexists | eexists]; split; reflexivity
      | eapply cell_trimmed; eassumption..].
Qed.

End TrimmedAlerts.

(** the alerts of a run carry trimmed texts: stripping the company, the date
    or the action of an alert changes nothing *)
Theorem run_alerts_are_trimmed (W : Type)
  (answer : forall A : Type, request A -> W -> result A * W)
  (today : datetime) (fuel : nat) (s s' : system W) (alerts : list alert) :
  run_all_scrapers answer today fuel s = (Done (Return alerts), s') ->
  Forall trimmed_alert alerts.
Proof.
  intros E. apply run_all_alerts_any_source in E.
  revert E. apply Forall_impl. intros a. apply any_source_trimmed.
Qed.

Lemma run_alerts_are_trimmed_witness :
  Forall trimmed_alert
    (returned (fst (run_all_scrapers Script.answer Sample.nov3 2
                      (Script.start run_script)))) /\
  List.length (returned (fst (run_all_scrapers Script.answer Sample.nov3 2
                                (Script.start run_script)))) = 5.
Proof.
  split; [|reflexivity].
  apply (@run_alerts_are_trimmed _ Script.answer Sample.nov3 2 (Script.start run_script)
           (snd (run_all_scrapers Script.answer Sample.nov3 2 (Script.start run_script)))).
  reflexivity.
Defined.

(* ================================================================== *)
(** * The CareEdge scraper on a scripted browser *)

Section CareEdgeScript.

Lemma scroll_loop_script (n : nat) :
  forall (fuel : nat) (k : Z) (tail : list Script.response) (h : list event),
    n < fuel ->
    exists h',
      while_true fuel (scroll_body Script.answer) (JsNum k)
        {| driver := Some (app (growing k n) tail); history := h |}
      = (Done (Return (JsNum (k + Z.of_nat n))),
         {| driver := Some tail; history := h' |}) /\
      page_calls h' = page_calls h /\
      List.length (heights h') = S n + List.length (heights h).
Proof.
  induction n as [|n IH]; intros fuel k tail h Hlt;
    (destruct fuel as [|fuel]; [lia|]); rewrite while_true_step;
    simpl growing; simpl app; rewrite scroll_body_script; simpl jsval_eqb.
  - rewrite Z.eqb_refl. eexists. split; [now rewrite Z.add_0_r|].
    split; reflexivity.
  - replace (k + 1 =? k)%Z with false by (symmetry; apply Z.eqb_neq; lia).
    destruct (IH fuel (k + 1)%Z tail
                (Called (ExecuteScript scroll_height_script) (Return (JsNum (k + 1)))
                 :: Called (ExecuteScript scroll_to_script) (Return JsNone) :: h))
      as (h' & E & Hp & Hh); [lia|].
    exists h'. rewrite E. split; [f_equal; f_equal; f_equal; f_equal; lia|].
    split; [exact Hp|]. rewrite Hh. unfold heights. simpl. lia.
Qed.

End CareEdgeScript.

(** [scrape_careedge_ratings] on a list that grows [n] times: the height is
    measured [n + 2] times, the page is parsed once, after the scrolling,
    and the alerts are those of its records; and when the list of recent
    ratings does not appear, or the wait for it fails otherwise, the scraper
    returns no alert and parses nothing *)
Theorem scrape_careedge_scrolls (today : datetime) (n : nat) (k : Z) (page : node)
  (fuel : nat) :
  n < fuel ->
  (exists s',
     scrape_careedge_ratings Script.answer today fuel
       (Script.start (careedge_script n k page))
     = (Done (Return (for_each_row (careedge_row today)
                        (careedge_candidates page) [])), s') /\
     page_calls (history s') = 1 /\
     List.length (heights (history s')) = n + 2) /\
  (forall e tail,
     exists s',
       scrape_careedge_ratings Script.answer today fuel
         (Script.start (Script.RNone :: Script.RRaise e :: tail))
       = (Done (Return []), s') /\
       page_calls (history s') = 0).
Proof.
  intros Hlt. split.
  - destruct (@scroll_loop_script n fuel k [Script.RPage page]
                [ Called (ExecuteScript scroll_height_script) (Return (JsNum k));
                  Called (WaitPresence CLASS_NAME "recent-ratings") (Return 4);
                  Called (Get "https://www.careratings.com/") (Return tt) ] Hlt)
      as (h' & E & Hp & Hh).
    eexists. split.
    + unfold scrape_careedge_ratings, careedge_script, Script.start, try_exceptM.
      unfold bindM at 1. unfold no_driver. cbn [driver].
      unfold bindM at 1. rewrite call_script. cbn [Script.decode Script.as_unit].
      unfold bindM at 1. unfold sleep at 1. unfold ret at 1.
      unfold try_except_only.
      unfold bindM at 1. rewrite call_script. cbn [Script.decode Script.as_element].
      unfold bindM at 1. rewrite call_script. cbn [Script.decode Script.as_js].
      unfold bindM at 1.
      match goal with
      | |- context [while_true _ _ _ ?s] =>
          match type of E with
          | while_true _ _ _ ?s' = _ => change s with s'
          end
      end.
      rewrite E.
      unfold careedge_extract, bindM. rewrite call_script. reflexivity.
    + cbn [history]. unfold page_calls in *. cbn [filter is_page_source List.length].
      rewrite Hp. split; [reflexivity|].
      unfold heights in *. cbn [flat_map measured app]. cbn [List.length].
      rewrite Hh. simpl. lia.
  - intros e tail. eexists. split; [destruct e; reflexivity|].
    destruct e; reflexivity.
Qed.

Lemma scrape_careedge_scrolls_witness :
  exists s',
    scrape_careedge_ratings Script.answer Sample.nov3 3
      (Script.start (careedge_script 2 100 (Sample.document [Sample.card])))
    = (Done (Return (for_each_row (careedge_row Sample.nov3)
                       (careedge_candidates (Sample.document [Sample.card])) [])), s') /\
    page_calls (history s') = 1 /\
    List.length (heights (history s')) = 4.
Proof.
  apply (proj1 (@scrape_careedge_scrolls Sample.nov3 2 100
                  (Sample.document [Sample.card]) 3 ltac:(lia))).
Defined.

(* ================================================================== *)
(** * The locals of the NSE scraper, across records and segments *)

Section NseLocals.

Variable today : datetime.

Lemma short_tr_assigns_nothing (row : node) (loc : nse_locals) :
  short_tr row = true -> nse_assign row loc = (loc, Return tt).
Proof.
  intros Hshort. destruct row as [t|nm cls cs]; [discriminate|].
  simpl in Hshort. apply andb_true_iff in Hshort as [Htr Hlen].
  unfold nse_assign. rewrite Htr.
  apply Nat.ltb_lt in Hlen.
  destruct (3 <=? List.length (find_all "td" (Tag nm cls cs)))%nat eqn:E;
    [apply Nat.leb_le in E; lia | reflexivity].
Qed.

Lemma nse_emit_bound (segment c s d : string) (alerts : list alert) :
  nse_emit today segment (bound_locals c s d) alerts
  = Return (if truthy c && is_today_date today d
            then append alerts (nse_alert today segment c s d)
            else alerts).
Proof.
  unfold nse_emit, bound_locals. cbn [company_name subject date_text load bindE].
  destruct (truthy c); [|reflexivity].
  destruct (is_today_date today d); reflexivity.
Qed.

Lemma short_rows_unbound (segment : string) (rows : list node) (alerts : list alert) :
  forallb short_tr rows = true ->
  nse_rows today segment rows (nse_unbound, alerts) = (nse_unbound, alerts).
Proof.
  unfold nse_rows. induction rows as [|row rest IH]; intros H; [reflexivity|].
  simpl in H. apply andb_true_iff in H as [Hrow Hrest].
  cbn [fold_left]. unfold nse_row at 2.
  rewrite (short_tr_assigns_nothing _ _ Hrow). cbn. exact (IH Hrest).
Qed.

Lemma repeat_snoc {A} (x : A) (n : nat) : app (repeat x n) [x] = x :: repeat x n.
Proof. induction n as [|n IH]; simpl; [reflexivity | now rewrite IH]. Qed.

Lemma short_rows_bound (segment : string) (rows : list node) (c s d : string)
  (alerts : list alert) :
  forallb short_tr rows = true ->
  nse_rows today segment rows (bound_locals c s d, alerts)
  = (bound_locals c s d,
     if truthy c && is_today_date today d
     then app alerts (repeat (nse_alert today segment c s d) (List.length rows))
     else alerts).
Proof.
  unfold nse_rows. revert alerts.
  induction rows as [|row rest IH]; intros alerts H.
  - simpl. destruct (truthy c && is_today_date today d); [now rewrite app_nil_r | reflexivity].
  - simpl in H. apply andb_true_iff in H as [Hrow Hrest].
    cbn [fold_left]. unfold nse_row at 2.
    rewrite (short_tr_assigns_nothing _ _ Hrow), nse_emit_bound.
    rewrite (IH _ Hrest).
    destruct (truthy c && is_today_date today d); [|reflexivity].
    unfold append. cbn [List.length repeat]. now rewrite <- app_assoc.
Qed.

Lemma cell_nth (row : node) (i : nat) (text : string) :
  cell row i text ->
  (i <? List.length (find_all "td" row))%nat = true /\
  cell_text true (find_all "td" row) i = Return text.
Proof.
  intros (c & Hc & ->). split.
  - apply Nat.ltb_lt. apply nth_error_Some. congruence.
  - unfold cell_text, getitem. rewrite Hc. reflexivity.
Qed.

Lemma data_row_binds (segment : string) (row : node) (c s d : string)
  (loc : nse_locals) (alerts : list alert) :
  nse_values row c s d ->
  nse_row today segment row (loc, alerts)
  = (bound_locals c s d,
     if truthy c && is_today_date today d
     then append alerts (nse_alert today segment c s d)
     else alerts).
Proof.
  intros Hv. destruct row as [t|nm cls cs]; [contradiction|].
  unfold nse_values in Hv. unfold nse_row, nse_assign.
  destruct (String.eqb nm "tr").
  - destruct Hv as (H1 & H2 & H0).
    apply cell_nth in H1 as [L1 T1], H2 as [L2 T2], H0 as [L0 T0].
    rewrite L1, L2, L0, T1, T2, T0.
    replace (3 <=? List.length (find_all "td" (Tag nm cls cs)))%nat with true
      by (symmetry; apply Nat.leb_le; apply Nat.ltb_lt in L2; lia).
    change {| company_name := Some c; subject := Some s; date_text := Some d |}
      with (bound_locals c s d).
    now rewrite nse_emit_bound.
  - destruct Hv as (H1 & H2 & H0). rewrite H1, H2, H0.
    change {| company_name := Some c; subject := Some s; date_text := Some d |}
      with (bound_locals c s d).
    now rewrite nse_emit_bound.
Qed.

Variable W : Type.
Variable answer : forall A : Type, request A -> W -> result A * W.

Ltac solve_silent :=
  cbn [history];
  repeat (apply silent_cons; [reflexivity|]);
  first [ apply silent_refl | eassumption ].

(** one segment: it ends, it parses at most one page, and it runs the
    records of that page from the locals and the alerts it was given *)
Lemma nse_segment_reads (segment : string) (st : nse_locals * list alert)
  (s : system W) :
  wp (nse_segment answer today segment st)
     (fun o s' =>
        exists recent page,
          history s' = app recent (history s) /\
          snapshots recent = option_list page /\
          o = Done (Return (nse_pass today segment page st))) s.
Proof.
  assert (Hkeep : forall s' : system W, silent (history s) (history s') ->
            exists recent page,
              history s' = app recent (history s) /\
              snapshots recent = option_list page /\
              Done (Return st) = Done (Return (nse_pass today segment page st))).
  { intros s' (recent & E & Hs). exists recent, None. auto. }
  unfold nse_segment, nse_tab. wp_run; try (apply Hkeep; solve_silent).
  cbn [history].
  match goal with
  | |- exists recent page, Called PageSource (Return ?p) :: ?h = _ /\ _ =>
      assert (Hq : silent (history s) h) by solve_silent
  end.
  destruct Hq as (recent & E & Hs).
  exists (Called PageSource (Return a1) :: recent), (Some a1).
  rewrite E. split; [reflexivity|].
  split; [unfold snapshots in *; simpl; now rewrite Hs | reflexivity].
Qed.

Lemma scrape_nse_passes (s : system W) :
  wp (scrape_nse_announcements answer today) (nse_outcome today s) s.
Proof.
  assert (Hnone : forall s' : system W, silent (history s) (history s') ->
                    nse_outcome today s (Done (Return [])) s').
  { intros s' (recent & E & Hs). exists recent, None, None. auto. }
  unfold scrape_nse_announcements.
  wp_step. wp_step. wp_step. wp_step; [wp_step; apply Hnone; solve_silent|].
  cbv zeta. wp_step. wp_step; [wp_step; apply Hnone; solve_silent | |
                               wp_step; apply Hnone; solve_silent].
  wp_step. wp_step. wp_step.
  unfold segments. cbn [for_each].
  apply wp_bind. eapply wp_mono; [apply nse_segment_reads|].
  intros o s2 (r2 & equity & E2 & Hp2 & ->). cbv beta iota.
  apply wp_bind. eapply wp_mono; [apply nse_segment_reads|].
  intros o s3 (r3 & debt & E3 & Hp3 & ->). cbv beta iota.
  wp_step. wp_step.
  cbn [history] in E2.
  match type of E2 with
  | _ = app r2 ?h => assert (Hs1 : silent (history s) h) by solve_silent
  end.
  destruct Hs1 as (r1 & E1 & Hp1).
  exists (app r3 (app r2 r1)), equity, debt.
  split; [reflexivity|]. split.
  - rewrite E3, E2, E1. now rewrite !app_assoc.
  - unfold snapshots in *. rewrite !flat_map_app, Hp3, Hp2, Hp1. now rewrite app_nil_r.
Qed.

End NseLocals.

(** C10, as amended: the three locals of the NSE scraper live through the
    whole call.  The scraper starts with the locals unbound and no alert,
    runs the records of the Equity page, then runs the records of the Debt
    page from the locals and the alerts the Equity pass left; a pass that
    parsed no page changes nothing.  A table row with fewer than three cells
    assigns none of the locals.  While no record of the call has bound them,
    reading them raises [UnboundLocalError], which is caught, and such rows
    are skipped, in whatever segment.  A record with data binds the locals
    to its own values.  From then on every row with fewer than three cells,
    in this segment or in the next, tests the stale values again and, when
    the company is not empty and the stale date is today, appends one more
    alert carrying them under the label of the segment being processed: a
    Debt page of such rows alone yields one stale alert per row, labelled
    "NSE (Debt)", from the last record of the Equity page. *)
Theorem nse_short_row_reuses_locals (W : Type)
  (answer : forall A : Type, request A -> W -> result A * W)
  (today : datetime) :
  (forall s : system W,
      exists recent equity debt s',
        scrape_nse_announcements answer today s
        = (Done (Return (snd (nse_pass today "Debt" debt
                                (nse_pass today "Equity" equity (nse_unbound, []))))),
           s') /\
        history s' = app recent (history s) /\
        snapshots recent = app (option_list debt) (option_list equity)) /\
  (forall row loc, short_tr row = true -> nse_assign row loc = (loc, Return tt)) /\
  (forall segment alerts,
      nse_emit today segment nse_unbound alerts = Raise UnboundLocalError) /\
  (forall segment rows alerts,
      forallb short_tr rows = true ->
      nse_rows today segment rows (nse_unbound, alerts) = (nse_unbound, alerts)) /\
  (forall segment row c s d loc alerts,
      nse_values row c s d ->
      nse_row today segment row (loc, alerts)
      = (bound_locals c s d,
         if truthy c && is_today_date today d
         then append alerts (nse_alert today segment c s d)
         else alerts)) /\
  (forall segment rows c s d alerts,
      forallb short_tr rows = true ->
      nse_rows today segment rows (bound_locals c s d, alerts)
      = (bound_locals c s d,
         if truthy c && is_today_date today d
         then app alerts (repeat (nse_alert today segment c s d) (List.length rows))
         else alerts)) /\
  (forall equity debt c s d alerts,
      nse_pass today "Equity" (Some equity) (nse_unbound, [])
      = (bound_locals c s d, alerts) ->
      truthy c = true -> is_today_date today d = true ->
      forallb short_tr (nse_candidates debt) = true ->
      snd (nse_pass today "Debt" (Some debt)
             (nse_pass today "Equity" (Some equity) (nse_unbound, [])))
      = app alerts (repeat (nse_alert today "Debt" c s d)
                           (List.length (nse_candidates debt)))).
Proof.
  split.
  { intros s. pose proof (scrape_nse_passes today answer s) as H. unfold wp in H.
    destruct (scrape_nse_announcements answer today s) as [o s'].
    cbn [fst snd] in H. destruct H as (recent & equity & debt & -> & E & Hp).
    now exists recent, equity, debt, s'. }
  split; [intros row loc; apply short_tr_assigns_nothing|].
  split; [reflexivity|].
  split; [intros segment rows alerts; apply short_rows_unbound|].
  split; [intros segment row c s d loc alerts; apply data_row_binds|].
  split; [intros segment rows c s d alerts; apply short_rows_bound|].
  intros equity debt c s d alerts E Hc Hd Hshort.
  rewrite E. cbn [nse_pass]. rewrite short_rows_bound by exact Hshort.
  now rewrite Hc, Hd.
Qed.

Lemma nse_short_row_reuses_locals_witness :
  forallb short_tr (nse_candidates NseScenario.nse_debt_page) = true /\
  snd (nse_pass Sample.nov3 "Debt" (Some NseScenario.nse_debt_page)
         (nse_pass Sample.nov3 "Equity" (Some NseScenario.nse_equity_page)
            (nse_unbound, [])))
  = [ nse_alert Sample.nov3 "Equity" "ACME Ltd" "Outcome of Board Meeting"
        "03-Nov-2026 10:15";
      nse_alert Sample.nov3 "Debt" "ACME Ltd" "Outcome of Board Meeting"
        "03-Nov-2026 10:15" ].
Proof.
  split; [reflexivity|].
  exact (proj2 (proj2 (proj2 (proj2 (proj2 (proj2
           (nse_short_row_reuses_locals Script.answer Sample.nov3))))))
           NseScenario.nse_equity_page NseScenario.nse_debt_page
           "ACME Ltd" "Outcome of Board Meeting" "03-Nov-2026 10:15"
           [ nse_alert Sample.nov3 "Equity" "ACME Ltd" "Outcome of Board Meeting"
               "03-Nov-2026 10:15" ]
           eq_refl eq_refl eq_refl eq_refl).
Defined.

(* ================================================================== *)
(** * The history is written, never read *)

Section Framed.

Variable W : Type.
Variable answer : forall A : Type, request A -> W -> result A * W.

Lemma framed_ret {A} (a : A) : framed (@ret W A a).
Proof. intros s h. reflexivity. Qed.

Lemma framed_sleep (n : nat) : framed (@sleep W n).
Proof. intros s h. reflexivity. Qed.

Lemma framed_no_driver : framed (@no_driver W).
Proof. intros s h. reflexivity. Qed.

Lemma framed_call {A} (q : request A) : framed (call answer q).
Proof.
  intros [[w|] hs] h; unfold call, rebase; cbn [driver history]; [|reflexivity].
  destruct (answer q w) as [r w']. reflexivity.
Qed.

Lemma framed_bind {A B} (c : M W A) (k : A -> M W B) :
  framed c -> (forall a, framed (k a)) -> framed (bindM c k).
Proof.
  intros Hc Hk s h. unfold bindM. rewrite (Hc s h).
  destruct (c s) as [[[a|e]|] s1]; cbn [fst snd]; [apply Hk | reflexivity..].
Qed.

Lemma framed_try {A} (c : M W A) (handler : exn -> M W A) :
  framed c -> (forall e, framed (handler e)) -> framed (try_exceptM c handler).
Proof.
  intros Hc Hh s h. unfold try_exceptM. rewrite (Hc s h).
  destruct (c s) as [[[a|e]|] s1]; cbn [fst snd]; [reflexivity | apply Hh | reflexivity].
Qed.

Lemma framed_try_only {A} (cls : exn) (c handler : M W A) :
  framed c -> framed handler -> framed (try_except_only cls c handler).
Proof.
  intros Hc Hh s h. unfold try_except_only. rewrite (Hc s h).
  destruct (c s) as [[[a|e]|] s1]; cbn [fst snd]; [reflexivity | | reflexivity].
  destruct (exn_eqb e cls); [apply Hh | reflexivity].
Qed.

Lemma framed_while {S} (body : S -> M W (ctl S)) (fuel : nat) (st : S) :
  (forall st, framed (body st)) -> framed (while_true fuel body st).
Proof.
  intros Hbody. revert st. induction fuel as [|fuel IH]; intros st.
  - intros s h. reflexivity.
  - simpl. apply framed_bind; [apply Hbody|].
    intros [st'|st']; [apply IH | apply framed_ret].
Qed.

Lemma framed_for_each {X S} (l : list X) (body : X -> S -> M W S) (st : S) :
  (forall x st, framed (body x st)) -> framed (for_each l body st).
Proof.
  intros Hbody. revert st. induction l as [|x r IH]; intros st; simpl.
  - apply framed_ret.
  - apply framed_bind; [apply Hbody | intros st'; apply IH].
Qed.

Lemma framed_run_scrapers (l : list (string * M W (list alert))) (acc : list alert) :
  (forall name f, In (name, f) l -> framed f) -> framed (run_scrapers l acc).
Proof.
  revert acc. induction l as [|[name f] rest IH]; intros acc Hl; simpl.
  - apply framed_ret.
  - apply framed_bind.
    + apply framed_try; [|intros e; apply framed_ret].
      apply framed_bind; [apply (Hl name f); now left|].
      intros a. apply framed_bind; [apply framed_sleep | intros ?; apply framed_ret].
    + intros acc'. apply IH. intros n g Hin. apply (Hl n g). now right.
Qed.

End Framed.

Ltac framed_step :=
  lazymatch goal with
  | |- framed (bindM _ _) => apply framed_bind; [ | intros ?]
  | |- framed (try_exceptM _ _) => apply framed_try; [ | intros ?]
  | |- framed (try_except_only _ _ _) => apply framed_try_only
  | |- framed (ret _) => apply framed_ret
  | |- framed (sleep _) => apply framed_sleep
  | |- framed no_driver => apply framed_no_driver
  | |- framed (while_true _ _ _) => apply framed_while; intros ?
  | |- framed (for_each _ _ _) => apply framed_for_each; intros ? ?
  | |- framed (call _ _) => apply framed_call
  | |- framed (if ?b then _ else _) => destruct b
  | |- framed (let (_, _) := ?st in _) => destruct st
  | |- framed (match ?st with pair _ _ => _ end) => destruct st
  end.

Section FramedScrapers.

Variable W : Type.
Variable answer : forall A : Type, request A -> W -> result A * W.
Variable today : datetime.

Lemma select_option_framed (segment : string) (options : list WebElement) :
  framed (select_option answer segment options).
Proof.
  induction options as [|o rest IH]; simpl; repeat framed_step. exact IH.
Qed.

Lemma scrapers_framed (fuel : nat) (name : string) (f : M W (list alert)) :
  In (name, f) (scrapers answer today fuel) -> framed f.
Proof.
  unfold scrapers. intros H.
  repeat (destruct H as [[= <- <-]|H]); try contradiction;
    unfold scrape_icra_ratings, scrape_careedge_ratings, scrape_acuite_ratings,
      scrape_crisil_ratings, scrape_bse_announcements, scrape_nse_announcements,
      scrape_sebi_announcements, icra_date_filter, sebi_date_filter, paged_body,
      next_page, scroll_body, careedge_extract, load_more_body, crisil_extract,
      bse_date_fields, bse_segment, bse_select_segment, bse_submit, nse_segment,
      nse_tab;
    repeat framed_step; try apply select_option_framed.
Qed.

Lemma run_all_framed (fuel : nat) : framed (run_all_scrapers answer today fuel).
Proof.
  unfold run_all_scrapers. apply framed_run_scrapers.
  intros name f. apply scrapers_framed.
Qed.

(** what a framed computation returns is read off the calls it made
    itself: the pages parsed before it began play no part *)
Lemma framed_recent (P : list event -> alert -> Prop) (m : M W (list alert))
  (s s' : system W) (alerts : list alert) :
  framed m ->
  (forall s0, wp m (returns_all (fun _ => 0) P s0) s0) ->
  m s = (Done (Return alerts), s') ->
  exists recent, history s' = app recent (history s) /\ Forall (P recent) alerts.
Proof.
  intros Hf Hwp E.
  pose (s0 := {| driver := driver s; history := [] |}).
  assert (Es : s = rebase (history s) s0) by (destruct s; reflexivity).
  rewrite Es, (Hf s0 (history s)) in E. injection E as E1 E2.
  exists (history (snd (m s0))). split.
  - rewrite <- E2. reflexivity.
  - specialize (Hwp s0). unfold wp in Hwp.
    destruct (m s0) as [o s1]. cbn [fst snd] in *. subst o.
    destruct Hwp as [_ H]. now apply H.
Qed.

End FramedScrapers.

(** C3, as amended: every alert of the ICRA, CareEdge, Acuite, CRISIL, NSE
    and SEBI scrapers was built from one candidate record of a page the
    scraper itself parsed during the call, and its date is the date text
    extracted from that very record, as extracted: what the field extractor
    returns for the scraper's date hints, or the trimmed text of the
    record's first cell; the same record gives the alert its company and its
    action (its action alone for SEBI).  The BSE scraper instead takes the
    company and the action from the record and stamps the alert with
    today's date in the form DD/MM/YYYY, whatever the record holds.  The
    pages are those of the calls the scraper made, [recent]; what the
    session parsed before plays no part. *)
Theorem alert_dates_from_records (W : Type)
  (answer : forall A : Type, request A -> W -> result A * W)
  (today : datetime) (fuel : nat) :
  (forall s alerts s',
      scrape_icra_ratings answer today fuel s = (Done (Return alerts), s') ->
      exists recent,
        history s' = app recent (history s) /\
        Forall (from_page icra_candidates (icra_reads today) recent) alerts) /\
  (forall s alerts s',
      scrape_careedge_ratings answer today fuel s = (Done (Return alerts), s') ->
      exists recent,
        history s' = app recent (history s) /\
        Forall (from_page careedge_candidates (careedge_reads today) recent) alerts) /\
  (forall s alerts s',
      scrape_acuite_ratings answer today fuel s = (Done (Return alerts), s') ->
      exists recent,
        history s' = app recent (history s) /\
        Forall (from_page acuite_candidates (acuite_reads today) recent) alerts) /\
  (forall s alerts s',
      scrape_crisil_ratings answer today fuel s = (Done (Return alerts), s') ->
      exists recent,
        history s' = app recent (history s) /\
        Forall (from_page crisil_candidates (crisil_reads today) recent) alerts) /\
  (forall s alerts s',
      scrape_nse_announcements answer today s = (Done (Return alerts), s') ->
      exists recent,
        history s' = app recent (history s) /\
        Forall (from_page nse_candidates (nse_reads today) recent) alerts) /\
  (forall s alerts s',
      scrape_sebi_announcements answer today fuel s = (Done (Return alerts), s') ->
      exists recent,
        history s' = app recent (history s) /\
        Forall (from_page sebi_candidates (sebi_reads today) recent) alerts) /\
  (forall s alerts s',
      scrape_bse_announcements answer today s = (Done (Return alerts), s') ->
      exists recent,
        history s' = app recent (history s) /\
        Forall (from_page bse_candidates (bse_reads today) recent) alerts) /\
  (forall s alerts s',
      run_all_scrapers answer today fuel s = (Done (Return alerts), s') ->
      exists recent,
        history s' = app recent (history s) /\
        Forall (any_source today recent) alerts).
Proof.
  assert (Hf : forall name f, In (name, f) (scrapers answer today fuel) -> framed f)
    by (intros name f; apply scrapers_framed).
  repeat split; intros s alerts s' E.
  - eapply framed_recent; [apply (Hf "ICRA"); simpl; auto 10 | | exact E].
    intros s0. exact (@scrape_icra_from_page W answer (fun _ => 0) (@size_zero W answer) today fuel s0).
  - eapply framed_recent; [apply (Hf "CareEdge"); simpl; auto 10 | | exact E].
    intros s0. exact (@scrape_careedge_from_page W answer (fun _ => 0) (@size_zero W answer) today fuel s0).
  - eapply framed_recent; [apply (Hf "Acuite"); simpl; auto 10 | | exact E].
    intros s0. exact (@scrape_acuite_from_page W answer (fun _ => 0) (@size_zero W answer) today fuel s0).
  - eapply framed_recent; [apply (Hf "CRISIL"); simpl; auto 10 | | exact E].
    intros s0. exact (@scrape_crisil_from_page W answer (fun _ => 0) (@size_zero W answer) today fuel s0).
  - eapply framed_recent; [apply (Hf "NSE"); simpl; auto 10 | | exact E].
    intros s0. exact (@scrape_nse_from_page W answer (fun _ => 0) (@size_zero W answer) today s0).
  - eapply framed_recent; [apply (Hf "SEBI"); simpl; auto 10 | | exact E].
    intros s0. exact (@scrape_sebi_from_page W answer (fun _ => 0) (@size_zero W answer) today fuel s0).
  - eapply framed_recent; [apply (Hf "BSE"); simpl; auto 10 | | exact E].
    intros s0. exact (@scrape_bse_from_page W answer (fun _ => 0) (@size_zero W answer) today s0).
  - eapply framed_recent; [apply run_all_framed | | exact E].
    intros s0. exact (@run_all_any_source today W answer (fun _ => 0) (@size_zero W answer) fuel s0).
Qed.
